(** * The hyperparameter-tuning lecture notebook, as a Rocq development

    The repository consists of one Jupyter notebook,
    [lecture-hyperparameter-tuning.ipynb].  Its eight code cells are
    straight-line Python that imports third-party packages, builds
    parameter spaces, calls search routines and prints the results; one
    cell defines a function, [xgb_evaluate], which is handed to a
    Bayesian optimiser as its objective.

    The cells are embedded as programs of a small effect monad [prog]
    (one constructor per kind of effect a cell can have), interpreted by
    explicit state passing over the interpreter state: the notebook
    namespace, the set of importable packages, the warnings filters, the
    printed output and a log of the interactions with the libraries.  The
    third-party libraries themselves (scikit-learn, xgboost, pandas,
    numpy, bayes_opt) are not part of the repository: they are a
    parameter of the interpretation, a [Library], and the theorems hold
    for every library unless they say otherwise. *)

From Stdlib Require Import ZArith QArith Qround List Ascii String Bool Lia.
From stdpp Require Import base option gmap strings.
Import ListNotations.
Open Scope string_scope.
Open Scope list_scope.
Set Warnings "-register-all".

(** ** Python values *)

(** A Python float is a rational number, a NaN or an infinity: every
    finite double is a rational, and [int()] truncates it exactly. *)
Inductive float :=
| FNum (q : Q)
| FNan
| FInf (negative : bool).

(** Tabular objects (ndarray, DataFrame, Series) and estimators are
    [VObj]: a class name and the attributes the library gave the object.
    Dictionaries keep insertion order and have string keys (all the
    notebook's dictionaries do). *)
Inductive value :=
| VNone
| VBool (b : bool)
| VInt (n : Z)
| VFloat (x : float)
| VStr (s : string)
| VList (vs : list value)
| VTuple (vs : list value)
| VDict (kvs : list (string * value))
| VObj (cls : string) (attrs : list (string * value))
| VModule (name : string)
| VFunc (qualname : string).

Inductive exn :=
| NameError (name : string)
| ModuleNotFoundError (pkg : string)
| AttributeError (attr : string)
| KeyError (key : string)
| TypeError (msg : string)
| ValueError (msg : string)
| OverflowError (msg : string)
| LibraryError (cls msg : string).

Definition result := (exn + value)%type.
Definition kwargs := list (string * value).

(** ** Dictionaries *)

Fixpoint dict_get (key : string) (kvs : kwargs) : option value :=
  match kvs with
  | [] => None
  | (k, v) :: rest => if String.eqb k key then Some v else dict_get key rest
  end.

(** [d[key] = v]: an existing key keeps its position, a new key goes last. *)
Fixpoint dict_set (key : string) (v : value) (kvs : kwargs) : kwargs :=
  match kvs with
  | [] => [(key, v)]
  | (k, w) :: rest =>
      if String.eqb k key then (k, v) :: rest else (k, w) :: dict_set key v rest
  end.

(** ** The interaction log *)

(** What the notebook asked of the world outside it, in order, with the
    answer it got.  Calls that the library makes back into the notebook's
    own function while one of its routines runs are kept apart from the
    cell's own calls by [EvInner]. *)
Inductive event :=
| EvImport (pkg : string) (found : bool)
| EvCall (fn : string) (args : list value) (kw : kwargs) (r : result)
| EvMethod (meth : string) (self : value) (args : list value) (kw : kwargs) (r : result)
| EvSetItem (var key : string) (v : value)
| EvShell (cmd : string)
| EvFilterWarnings (action : string)
| EvInner (e : event).

(** ** Programs *)

(** One constructor per effect of a cell.  [Method] calls a method of a
    library object: the library answers with the receiver as the call
    left it and the value returned.  [Maximize] is the one method call of
    the notebook whose receiver calls back into the notebook: [f] is the
    Python function the receiver was built with. *)
Inductive prog :=
| Ret (v : value)
| Raise (e : exn)
| Name (x : string) (k : value -> prog)
| Assign (x : string) (v : value) (k : prog)
| SetItem (x key : string) (v : value) (k : prog)
| Import (pkg : string) (k : prog)
| Call (fn : string) (args : list value) (kw : kwargs) (k : value -> prog)
| Method (self : value) (meth : string) (args : list value) (kw : kwargs)
         (k : value -> value -> prog)
| Maximize (self : value) (kw : kwargs) (f : kwargs -> prog) (k : value -> prog)
| Print (vs : list value) (k : prog)
| Shell (cmd : string) (k : prog)
| FilterWarnings (action : string) (k : prog).

Fixpoint bind (p : prog) (q : value -> prog) : prog :=
  match p with
  | Ret v => q v
  | Raise e => Raise e
  | Name x k => Name x (fun v => bind (k v) q)
  | Assign x v k => Assign x v (bind k q)
  | SetItem x key v k => SetItem x key v (bind k q)
  | Import pkg k => Import pkg (bind k q)
  | Call fn args kw k => Call fn args kw (fun v => bind (k v) q)
  | Method self meth args kw k => Method self meth args kw (fun o v => bind (k o v) q)
  | Maximize self kw f k => Maximize self kw f (fun v => bind (k v) q)
  | Print vs k => Print vs (bind k q)
  | Shell cmd k => Shell cmd (bind k q)
  | FilterWarnings a k => FilterWarnings a (bind k q)
  end.

Declare Scope prog_scope.
Delimit Scope prog_scope with prog.
Bind Scope prog_scope with prog.
Notation "x <- p ;; q" := (bind p (fun x => q))
  (at level 100, p at next level, right associativity) : prog_scope.
Notation "p ;; q" := (bind p (fun _ => q))
  (at level 100, right associativity) : prog_scope.
Open Scope prog_scope.

(** ** The libraries and the state of the interpreter *)

(** A routine of a library that calls back into the notebook is a tree:
    it either finishes, with the receiver as it leaves it (or an
    exception) and the library's own state, or it calls the objective at
    a point and goes on from what the objective answered. *)
Inductive strategy :=
| Done (r : result) (h : value)
| Probe (point : kwargs) (k : result -> value -> strategy).

(** The third-party code.  Every operation reads and updates the
    libraries' own state (random generators, caches, the network), which
    the notebook cannot observe otherwise. *)
Record Library := {
  call_fn : string -> list value -> kwargs -> value -> result * value;
  call_method : string -> value -> list value -> kwargs -> value ->
                (exn + value * value) * value;
  maximize : value -> kwargs -> value -> strategy;
  shell : string -> gset string -> value -> gset string * value
}.

(** The interpreter as the notebook's own statements see and change it:
    [stdout] holds the lines that the notebook's [print] calls write, in
    order (what a library writes to the same stream while it runs is not
    the notebook's doing and is not recorded), and [warn_filters] is the
    list of warnings filters, newest first, as the notebook's own
    [filterwarnings] calls change it (a filter that a third-party package
    installs while it is imported is not recorded either). *)
Record state := {
  globals : gmap string value;
  installed : gset string;
  warn_filters : list string;
  stdout : list (list value);
  trace : list event;
  hidden : value
}.

Definition set_globals (g : gmap string value) (s : state) : state :=
  {| globals := g; installed := installed s; warn_filters := warn_filters s;
     stdout := stdout s; trace := trace s; hidden := hidden s |}.

Definition set_installed (i : gset string) (s : state) : state :=
  {| globals := globals s; installed := i; warn_filters := warn_filters s;
     stdout := stdout s; trace := trace s; hidden := hidden s |}.

Definition set_warn_filters (w : list string) (s : state) : state :=
  {| globals := globals s; installed := installed s; warn_filters := w;
     stdout := stdout s; trace := trace s; hidden := hidden s |}.

Definition set_stdout (o : list (list value)) (s : state) : state :=
  {| globals := globals s; installed := installed s; warn_filters := warn_filters s;
     stdout := o; trace := trace s; hidden := hidden s |}.

Definition set_trace (t : list event) (s : state) : state :=
  {| globals := globals s; installed := installed s; warn_filters := warn_filters s;
     stdout := stdout s; trace := t; hidden := hidden s |}.

Definition set_hidden (h : value) (s : state) : state :=
  {| globals := globals s; installed := installed s; warn_filters := warn_filters s;
     stdout := stdout s; trace := trace s; hidden := h |}.

Definition log (e : event) (s : state) : state :=
  set_trace (trace s ++ [e]) s.

(** [filters.remove(item)]: the first entry equal to [a] goes. *)
Fixpoint remove_first (a : string) (filters : list string) : list string :=
  match filters with
  | [] => []
  | b :: rest => if String.eqb a b then rest else b :: remove_first a rest
  end.

(** Modules of the standard library are importable whatever is installed. *)
Definition stdlib_modules : list string := ["warnings"].

Definition importable (pkg : string) (pkgs : gset string) : bool :=
  existsb (String.eqb pkg) stdlib_modules || bool_decide (pkg ∈ pkgs).

(** Runs a call-back of the library: its interactions are logged as
    inner events of the routine that made it. *)
Definition as_inner (run : state -> result * state) (s : state) : result * state :=
  let '(r, s') := run (set_trace [] s) in
  (r, set_trace (trace s ++ map EvInner (trace s')) s').

Section RunStrategy.
Variable objective : kwargs -> state -> result * state.

Fixpoint run_strategy (t : strategy) (s : state) : result * state :=
    match t with
    | Done r h => (r, set_hidden h s)
    | Probe point k =>
        let '(r, s') := as_inner (objective point) s in
        run_strategy (k r (hidden s')) s'
    end.
End RunStrategy.

Fixpoint interp (L : Library) (p : prog) (s : state) : result * state :=
  match p with
  | Ret v => (inr v, s)
  | Raise e => (inl e, s)
  | Name x k =>
      match globals s !! x with
      | Some v => interp L (k v) s
      | None => (inl (NameError x), s)
      end
  | Assign x v k => interp L k (set_globals (<[x := v]> (globals s)) s)
  | SetItem x key v k =>
      match globals s !! x with
      | Some (VDict kvs) =>
          interp L k (log (EvSetItem x key v)
                        (set_globals (<[x := VDict (dict_set key v kvs)]> (globals s)) s))
      | Some _ => (inl (TypeError "object does not support item assignment"), s)
      | None => (inl (NameError x), s)
      end
  | Import pkg k =>
      if importable pkg (installed s)
      then interp L k (log (EvImport pkg true) s)
      else (inl (ModuleNotFoundError pkg), log (EvImport pkg false) s)
  | Call fn args kw k =>
      let '(r, h) := call_fn L fn args kw (hidden s) in
      let s' := log (EvCall fn args kw r) (set_hidden h s) in
      match r with
      | inr v => interp L (k v) s'
      | inl e => (inl e, s')
      end
  | Method self meth args kw k =>
      match self with
      | VObj _ _ =>
          let '(r, h) := call_method L meth self args kw (hidden s) in
          match r with
          | inr (self', v) =>
              interp L (k self' v) (log (EvMethod meth self args kw (inr v)) (set_hidden h s))
          | inl e => (inl e, log (EvMethod meth self args kw (inl e)) (set_hidden h s))
          end
      | _ => (inl (AttributeError meth), s)
      end
  | Maximize self kw f k =>
      match self with
      | VObj _ _ =>
          let '(r, s') :=
            run_strategy (fun point => interp L (f point)) (maximize L self kw (hidden s)) s in
          let s'' := log (EvMethod "maximize" self [] kw r) s' in
          match r with
          | inr self' => interp L (k self') s''
          | inl e => (inl e, s'')
          end
      | _ => (inl (AttributeError "maximize"), s)
      end
  | Print vs k => interp L k (set_stdout (stdout s ++ [vs]) s)
  | Shell cmd k =>
      let '(i, h) := shell L cmd (installed s) (hidden s) in
      interp L k (log (EvShell cmd) (set_hidden h (set_installed i s)))
  | FilterWarnings a k =>
      (* the filter goes to the front, in place of an identical one *)
      interp L k (log (EvFilterWarnings a)
                    (set_warn_filters (a :: remove_first a (warn_filters s)) s))
  end.

(** ** Expressions and statements *)

Definition name (x : string) : prog := Name x Ret.
Definition assign (x : string) (v : value) : prog := Assign x v (Ret VNone).
Definition print (vs : list value) : prog := Print vs (Ret VNone).

(** [import pkg as x] and [from pkg.sub import f]. *)
Definition import_as (pkg x : string) : prog :=
  Import pkg (Assign x (VModule pkg) (Ret VNone)).
Definition from_import (pkg qualname x : string) : prog :=
  Import pkg (Assign x (VFunc qualname) (Ret VNone)).

(** [o.a].  An attribute of a module is the library function of that
    qualified name; the built-in types have none of the attributes the
    notebook reads. *)
Definition attribute (o : value) (a : string) : option value :=
  match o with
  | VObj _ attrs => dict_get a attrs
  | VModule m => Some (VFunc (m ++ "." ++ a))
  | _ => None
  end.

Definition getattr (o : value) (a : string) : prog :=
  match attribute o a with
  | Some v => Ret v
  | None => Raise (AttributeError a)
  end.

(** The library presents its containers as the built-in ones: what the
    notebook indexes, unpacks and passes with [**] is a list, a tuple or a
    dict; objects of library classes are used through their attributes
    and methods only. *)

(** [o[key]] for a string key. *)
Definition getitem (o : value) (key : string) : prog :=
  match o with
  | VDict kvs =>
      match dict_get key kvs with
      | Some v => Ret v
      | None => Raise (KeyError key)
      end
  | VList _ | VTuple _ | VStr _ => Raise (TypeError "indices must be integers")
  | _ => Raise (TypeError "object is not subscriptable")
  end.

(** [x[key] = v] for the dictionary bound to the global [x], which is
    updated in place. *)
Definition setitem (x key : string) (v : value) : prog :=
  SetItem x key v (Ret VNone).

(** [f(args, **kw)]: the notebook only ever calls library functions. *)
Definition call (f : value) (args : list value) (kw : kwargs) : prog :=
  match f with
  | VFunc qualname => Call qualname args kw Ret
  | _ => Raise (TypeError "object is not callable")
  end.

(** Truncation towards zero. *)
Definition trunc (q : Q) : Z := Z.quot (Qnum q) (Zpos (Qden q)).

(** [int(v)] on the built-in types: truncation towards zero on a float;
    [None] for a string or a library object, which convert themselves. *)
Definition to_int (v : value) : option (exn + Z) :=
  match v with
  | VInt n => Some (inr n)
  | VBool b => Some (inr (if b then 1 else 0)%Z)
  | VFloat (FNum q) => Some (inr (trunc q))
  | VFloat FNan => Some (inl (ValueError "cannot convert float NaN to integer"))
  | VFloat (FInf _) => Some (inl (OverflowError "cannot convert float infinity to integer"))
  | VStr _ | VObj _ _ => None
  | _ => Some (inl (TypeError "int() argument must be a string or a number"))
  end.

(** [int(v)]; a string or a library object converts itself (or fails to)
    outside the notebook. *)
Definition py_int (v : value) : prog :=
  match to_int v with
  | Some (inr n) => Ret (VInt n)
  | Some (inl e) => Raise e
  | None => Call "builtins.int" [v] [] Ret
  end.

(** The items an unpacking assignment iterates over. *)
Definition items (v : value) : exn + list value :=
  match v with
  | VList vs | VTuple vs => inr vs
  | VDict kvs => inr (map (fun kv => VStr (fst kv)) kvs)
  | VStr s => inr (map (fun c => VStr (String c EmptyString)) (list_ascii_of_string s))
  | _ => inl (TypeError "cannot unpack non-iterable object")
  end.

(** [a, b, c, d = v] *)
Definition unpack4 (v : value) (k : value -> value -> value -> value -> prog) : prog :=
  match items v with
  | inr [a; b; c; d] => k a b c d
  | inr _ => Raise (ValueError "wrong number of values to unpack")
  | inl e => Raise e
  end.

(** [**v] in a call. *)
Definition unpack_mapping (v : value) (k : kwargs -> prog) : prog :=
  match v with
  | VDict kvs => k kvs
  | _ => Raise (TypeError "argument after ** must be a mapping")
  end.

(** A float literal denotes the decimal fraction it is written as. *)
Definition lit (n : Z) (d : positive) : value := VFloat (FNum (Qmake n d)).

Definition int_list (ns : list Z) : value := VList (map VInt ns).

(** ** The notebook *)

Module Notebook.

(** Cell 2: load the data and split it. *)
Definition cell_load_data : prog :=
  import_as "numpy" "np" ;;
  import_as "pandas" "pd" ;;
  from_import "sklearn" "sklearn.datasets.load_wine" "load_wine" ;;
  from_import "sklearn" "sklearn.model_selection.train_test_split" "train_test_split" ;;
  import_as "xgboost" "xgb" ;;
  (* wine = load_wine() *)
  load_wine <- name "load_wine" ;;
  wine <- call load_wine [] [] ;;
  assign "wine" wine ;;
  (* X = pd.DataFrame(wine.data,columns=wine.feature_names) *)
  pd <- name "pd" ;;
  DataFrame <- getattr pd "DataFrame" ;;
  wine <- name "wine" ;;
  data <- getattr wine "data" ;;
  wine <- name "wine" ;;
  feature_names <- getattr wine "feature_names" ;;
  X <- call DataFrame [data] [("columns", feature_names)] ;;
  assign "X" X ;;
  (* y = wine.target *)
  wine <- name "wine" ;;
  target <- getattr wine "target" ;;
  assign "y" target ;;
  (* X_train, X_test, y_train, y_test = train_test_split(X, y, test_size=0.2, random_state=42) *)
  train_test_split <- name "train_test_split" ;;
  X <- name "X" ;;
  y <- name "y" ;;
  parts <- call train_test_split [X; y]
             [("test_size", lit 2 10); ("random_state", VInt 42)] ;;
  unpack4 parts (fun X_train X_test y_train y_test =>
    assign "X_train" X_train ;;
    assign "X_test" X_test ;;
    assign "y_train" y_train ;;
    assign "y_test" y_test).

Definition param_grid : value :=
  VDict [("learning_rate", VList [lit 1 100; lit 5 10]);
         ("max_depth", VList [VInt 3; VInt 7]);
         ("min_child_weight", VList [VInt 3; VInt 5]);
         ("subsample", VList [lit 5 10; lit 7 10]);
         ("colsample_bytree", VList [lit 5 10; lit 7 10]);
         ("n_estimators", VList [VInt 100; VInt 200]);
         ("objective", VList [VStr "multi:softmax"])].

(** Cell 3: grid search. *)
Definition cell_grid_search : prog :=
  from_import "sklearn" "sklearn.model_selection.GridSearchCV" "GridSearchCV" ;;
  assign "param_grid" param_grid ;;
  (* clf = xgb.XGBClassifier() *)
  xgb <- name "xgb" ;;
  XGBClassifier <- getattr xgb "XGBClassifier" ;;
  clf <- call XGBClassifier [] [] ;;
  assign "clf" clf ;;
  (* grid_search = GridSearchCV(clf, param_grid, scoring='accuracy', cv=3, verbose=1) *)
  GridSearchCV <- name "GridSearchCV" ;;
  clf <- name "clf" ;;
  grid <- name "param_grid" ;;
  grid_search <- call GridSearchCV [clf; grid]
                   [("scoring", VStr "accuracy"); ("cv", VInt 3); ("verbose", VInt 1)] ;;
  assign "grid_search" grid_search ;;
  (* grid_search.fit(X_train, y_train) *)
  grid_search <- name "grid_search" ;;
  X_train <- name "X_train" ;;
  y_train <- name "y_train" ;;
  Method grid_search "fit" [X_train; y_train] []
    (fun fitted _ => assign "grid_search" fitted) ;;
  (* print("Best parameters found: ",grid_search.best_params_) *)
  grid_search <- name "grid_search" ;;
  best_params <- getattr grid_search "best_params_" ;;
  print [VStr "Best parameters found: "; best_params] ;;
  (* print("Best score",grid_search.best_score_) *)
  grid_search <- name "grid_search" ;;
  best_score <- getattr grid_search "best_score_" ;;
  print [VStr "Best score"; best_score].

(** Cell 5: two ways to get the best model. *)
Definition cell_best_model : prog :=
  (* best_model = grid_search.best_estimator_ *)
  grid_search <- name "grid_search" ;;
  best_estimator <- getattr grid_search "best_estimator_" ;;
  assign "best_model" best_estimator ;;
  (* new_model = xgb.XGBClassifier( **grid_search.best_params_ ) *)
  xgb <- name "xgb" ;;
  XGBClassifier <- getattr xgb "XGBClassifier" ;;
  grid_search <- name "grid_search" ;;
  best_params <- getattr grid_search "best_params_" ;;
  unpack_mapping best_params (fun kw =>
    new_model <- call XGBClassifier [] kw ;;
    assign "new_model" new_model).

(** [np.linspace(start, stop, num)] *)
Definition np_linspace (start stop num : value) : prog :=
  np <- name "np" ;;
  linspace <- getattr np "linspace" ;;
  call linspace [start; stop; num] [].

(** Cell 7: random search. *)
Definition cell_random_search : prog :=
  from_import "sklearn" "sklearn.model_selection.RandomizedSearchCV" "RandomizedSearchCV" ;;
  (* param_dist = { ... } *)
  learning_rate <- np_linspace (lit 1 100) (VInt 1) (VInt 10) ;;
  subsample <- np_linspace (lit 5 10) (VInt 1) (VInt 6) ;;
  colsample_bytree <- np_linspace (lit 5 10) (VInt 1) (VInt 6) ;;
  assign "param_dist"
    (VDict [("learning_rate", learning_rate);
            ("max_depth", int_list [3; 4; 5; 6; 7; 8; 9; 10]%Z);
            ("min_child_weight", int_list [1; 2; 3; 4; 5]%Z);
            ("subsample", subsample);
            ("colsample_bytree", colsample_bytree);
            ("n_estimators", int_list [100; 200; 300; 400; 500]%Z);
            ("objective", VList [VStr "multi:softmax"])]) ;;
  (* rand_search = RandomizedSearchCV(clf, param_distributions=param_dist,
                                      scoring='accuracy', cv=3, verbose=1, n_iter=50) *)
  RandomizedSearchCV <- name "RandomizedSearchCV" ;;
  clf <- name "clf" ;;
  param_dist <- name "param_dist" ;;
  rand_search <- call RandomizedSearchCV [clf]
                   [("param_distributions", param_dist); ("scoring", VStr "accuracy");
                    ("cv", VInt 3); ("verbose", VInt 1); ("n_iter", VInt 50)] ;;
  assign "rand_search" rand_search ;;
  (* rand_search.fit(X_train, y_train) *)
  rand_search <- name "rand_search" ;;
  X_train <- name "X_train" ;;
  y_train <- name "y_train" ;;
  Method rand_search "fit" [X_train; y_train] []
    (fun fitted _ => assign "rand_search" fitted) ;;
  (* print("Best parameters found: ",rand_search.best_params_) *)
  rand_search <- name "rand_search" ;;
  best_params <- getattr rand_search "best_params_" ;;
  print [VStr "Best parameters found: "; best_params] ;;
  (* print("Best score",rand_search.best_score_) *)
  rand_search <- name "rand_search" ;;
  best_score <- getattr rand_search "best_score_" ;;
  print [VStr "Best score"; best_score].

(** Cell 8: one expression, whose value is the value of the cell (the
    front end shows it as the cell's result; nothing is printed). *)
Definition cell_show_score : prog :=
  rand_search <- name "rand_search" ;;
  getattr rand_search "best_score_".

(** Cell 10: a shell escape. *)
Definition cell_pip_install : prog :=
  Shell "pip install bayesian-optimization" (Ret VNone).

(** Cell 11: suppress warnings. *)
Definition cell_suppress_warnings : prog :=
  import_as "warnings" "warnings" ;;
  _ <- name "warnings" ;;
  FilterWarnings "ignore" (Ret VNone).

(** The dictionary [params] that [xgb_evaluate] builds. *)
Definition xgb_params (depth gamma colsample_bytree learning_rate : value) : kwargs :=
  [("max_depth", depth);
   ("gamma", gamma);
   ("colsample_bytree", colsample_bytree);
   ("learning_rate", learning_rate);
   ("objective", VStr "multi:softprob");
   ("num_class", VInt 3);
   ("eval_metric", VStr "mlogloss");
   ("silent", VInt 1)].

(** The objective function of cell 12.  Its four arguments are locals;
    everything else it names is a global of the notebook, read when the
    function runs. *)
Definition xgb_evaluate (max_depth gamma colsample_bytree learning_rate : value) : prog :=
  (* params = {'max_depth': int(max_depth), ...} *)
  depth <- py_int max_depth ;;
  let params := xgb_params depth gamma colsample_bytree learning_rate in
  (* model = XGBClassifier( **params ) *)
  XGBClassifier <- name "XGBClassifier" ;;
  model <- call XGBClassifier [] params ;;
  (* model.fit(X_train, y_train) *)
  X_train <- name "X_train" ;;
  y_train <- name "y_train" ;;
  Method model "fit" [X_train; y_train] [] (fun model _ =>
    (* predictions = model.predict(X_test) *)
    X_test <- name "X_test" ;;
    Method model "predict" [X_test] [] (fun _ predictions =>
      (* accuracy = accuracy_score(y_test, predictions) *)
      accuracy_score <- name "accuracy_score" ;;
      y_test <- name "y_test" ;;
      accuracy <- call accuracy_score [y_test; predictions] [] ;;
      Ret accuracy)).

(** [xgb_evaluate( **point )], as the optimiser calls it. *)
Definition apply_xgb_evaluate (point : kwargs) : prog :=
  match dict_get "max_depth" point, dict_get "gamma" point,
        dict_get "colsample_bytree" point, dict_get "learning_rate" point with
  | Some max_depth, Some gamma, Some colsample_bytree, Some learning_rate =>
      if (length point =? 4)%nat
      then xgb_evaluate max_depth gamma colsample_bytree learning_rate
      else Raise (TypeError "xgb_evaluate() got an unexpected keyword argument")
  | _, _, _, _ => Raise (TypeError "xgb_evaluate() missing a required argument")
  end.

Definition pbounds : value :=
  VDict [("max_depth", VTuple [VInt 3; VInt 10]);
         ("gamma", VTuple [VInt 0; VInt 1]);
         ("colsample_bytree", VTuple [lit 3 10; lit 9 10]);
         ("learning_rate", VTuple [lit 1 100; lit 3 10])].

(** Cell 12, first half: imports and data. *)
Definition cell_bayes_data : prog :=
  import_as "numpy" "np" ;;
  import_as "pandas" "pd" ;;
  from_import "sklearn" "sklearn.datasets.load_wine" "load_wine" ;;
  from_import "sklearn" "sklearn.model_selection.train_test_split" "train_test_split" ;;
  from_import "xgboost" "xgboost.XGBClassifier" "XGBClassifier" ;;
  from_import "bayes_opt" "bayes_opt.BayesianOptimization" "BayesianOptimization" ;;
  from_import "sklearn" "sklearn.metrics.accuracy_score" "accuracy_score" ;;
  (* wine = load_wine(as_frame=True) *)
  load_wine <- name "load_wine" ;;
  wine <- call load_wine [] [("as_frame", VBool true)] ;;
  assign "wine" wine ;;
  (* X = wine.data *)
  wine <- name "wine" ;;
  data <- getattr wine "data" ;;
  assign "X" data ;;
  (* y = wine.target *)
  wine <- name "wine" ;;
  target <- getattr wine "target" ;;
  assign "y" target ;;
  (* X_train, X_test, y_train, y_test = train_test_split(X, y, test_size=0.2, random_state=42) *)
  train_test_split <- name "train_test_split" ;;
  X <- name "X" ;;
  y <- name "y" ;;
  parts <- call train_test_split [X; y]
             [("test_size", lit 2 10); ("random_state", VInt 42)] ;;
  unpack4 parts (fun X_train X_test y_train y_test =>
    assign "X_train" X_train ;;
    assign "X_test" X_test ;;
    assign "y_train" y_train ;;
    assign "y_test" y_test).

(** Cell 12, second half: the optimisation. *)
Definition cell_bayes_optimise : prog :=
  (* def xgb_evaluate(max_depth, gamma, colsample_bytree, learning_rate): ... *)
  assign "xgb_evaluate" (VFunc "__main__.xgb_evaluate") ;;
  (* xgb_bo = BayesianOptimization(xgb_evaluate, {...}) *)
  BayesianOptimization <- name "BayesianOptimization" ;;
  objective <- name "xgb_evaluate" ;;
  xgb_bo <- call BayesianOptimization [objective; pbounds] [] ;;
  assign "xgb_bo" xgb_bo ;;
  (* xgb_bo.maximize(init_points=5, n_iter=10) *)
  xgb_bo <- name "xgb_bo" ;;
  Maximize xgb_bo [("init_points", VInt 5); ("n_iter", VInt 10)] apply_xgb_evaluate
    (fun xgb_bo => assign "xgb_bo" xgb_bo).

(** Cell 12, the end: the results. *)
Definition cell_bayes_results : prog :=
  (* params = xgb_bo.max['params'] *)
  xgb_bo <- name "xgb_bo" ;;
  best <- getattr xgb_bo "max" ;;
  params <- getitem best "params" ;;
  assign "params" params ;;
  (* params['max_depth'] = int(params['max_depth']) *)
  params <- name "params" ;;
  max_depth <- getitem params "max_depth" ;;
  depth <- py_int max_depth ;;
  setitem "params" "max_depth" depth ;;
  (* print("Optimized parameters:", params) *)
  params <- name "params" ;;
  print [VStr "Optimized parameters:"; params].

Definition cell_bayes_opt : prog :=
  cell_bayes_data ;; cell_bayes_optimise ;; cell_bayes_results.

(** The code cells, in the order of the notebook. *)
Definition cells : list prog :=
  [cell_load_data; cell_grid_search; cell_best_model; cell_random_search;
   cell_show_score; cell_pip_install; cell_suppress_warnings; cell_bayes_opt].

(** Running cells one after the other stops at the first exception. *)
Fixpoint run_cells (L : Library) (cs : list prog) (s : state) : result * state :=
  match cs with
  | [] => (inr VNone, s)
  | c :: rest =>
      match interp L c s with
      | (inr _, s') => run_cells L rest s'
      | (inl e, s') => (inl e, s')
      end
  end.

Definition run_notebook (L : Library) (s : state) : result * state :=
  run_cells L cells s.

End Notebook.

(** ** A small library to run the notebook against

    A stand-in for the third-party packages on a five-row data set: the
    estimators are records of their parameters, every fit succeeds, and
    the optimiser probes two points.  It is used to run the notebook on
    concrete inputs. *)

Module Sample.

Definition rows : value :=
  VList [VList [lit 142 10; lit 17 10]; VList [lit 132 10; lit 18 10];
         VList [lit 123 10; lit 11 10]; VList [lit 137 10; lit 19 10];
         VList [lit 128 10; lit 23 10]].
Definition labels : value := int_list [0; 0; 1; 1; 2]%Z.
Definition columns : value := VList [VStr "alcohol"; VStr "malic_acid"].

Definition wine : value :=
  VObj "Bunch" [("data", rows); ("target", labels); ("feature_names", columns)].

Definition with_attr (o : value) (a : string) (v : value) : value :=
  match o with
  | VObj cls attrs => VObj cls (dict_set a v attrs)
  | _ => o
  end.

Definition unknown (what : string) : exn := LibraryError "NotImplementedError" what.

Definition sample_call (fn : string) (args : list value) (kw : kwargs) (h : value)
  : result * value :=
  if String.eqb fn "sklearn.datasets.load_wine" then (inr wine, h)
  else if String.eqb fn "pandas.DataFrame" then
    match args with
    | [d] => (inr d, h)
    | _ => (inl (unknown fn), h)
    end
  else if String.eqb fn "sklearn.model_selection.train_test_split" then
    match args with
    | [X; y] => (inr (VList [X; X; y; y]), h)
    | _ => (inl (unknown fn), h)
    end
  else if String.eqb fn "xgboost.XGBClassifier" then (inr (VObj "XGBClassifier" kw), h)
  else if String.eqb fn "sklearn.model_selection.GridSearchCV" then
    match args with
    | [est; grid] =>
        (inr (VObj "GridSearchCV" (("estimator", est) :: ("param_grid", grid) :: kw)), h)
    | _ => (inl (unknown fn), h)
    end
  else if String.eqb fn "sklearn.model_selection.RandomizedSearchCV" then
    match args with
    | [est] => (inr (VObj "RandomizedSearchCV" (("estimator", est) :: kw)), h)
    | _ => (inl (unknown fn), h)
    end
  else if String.eqb fn "numpy.linspace" then
    match args with
    | [a; b; _] => (inr (VList [a; b]), h)
    | _ => (inl (unknown fn), h)
    end
  else if String.eqb fn "bayes_opt.BayesianOptimization" then
    match args with
    | [f; bounds] => (inr (VObj "BayesianOptimization" [("f", f); ("pbounds", bounds)]), h)
    | _ => (inl (unknown fn), h)
    end
  else if String.eqb fn "sklearn.metrics.accuracy_score" then (inr (lit 1 1), h)
  else (inl (unknown fn), h).

(** The first value of every entry of a parameter space. *)
Definition first_choice (space : value) : value :=
  match space with
  | VDict kvs =>
      VDict (map (fun kv => (fst kv, match snd kv with
                                     | VList (v :: _) => v
                                     | v => v
                                     end)) kvs)
  | v => v
  end.

Definition fitted_search (self : value) (space : string) : value :=
  match self with
  | VObj _ attrs =>
      let best := first_choice (default VNone (dict_get space attrs)) in
      with_attr (with_attr (with_attr self "best_params_" best) "best_score_" (lit 1 1))
        "best_estimator_" (default VNone (dict_get "estimator" attrs))
  | _ => self
  end.

Definition class_of (o : value) : string :=
  match o with
  | VObj cls _ => cls
  | _ => ""
  end.

Definition sample_method (meth : string) (self : value) (args : list value)
    (kw : kwargs) (h : value) : (exn + value * value) * value :=
  if String.eqb meth "fit" then
    if String.eqb (class_of self) "GridSearchCV" then
      (inr (fitted_search self "param_grid", fitted_search self "param_grid"), h)
    else if String.eqb (class_of self) "RandomizedSearchCV" then
      (inr (fitted_search self "param_distributions",
            fitted_search self "param_distributions"), h)
    else (inr (with_attr self "fitted_" (VBool true), with_attr self "fitted_" (VBool true)), h)
  else if String.eqb meth "predict" then (inr (self, labels), h)
  else (inl (unknown meth), h).

Definition point1 : kwargs :=
  [("colsample_bytree", lit 3613 10000); ("gamma", lit 5095 10000);
   ("learning_rate", lit 217 1000); ("max_depth", lit 7949 1000)].
Definition point2 : kwargs :=
  [("colsample_bytree", lit 6242 10000); ("gamma", lit 5326 10000);
   ("learning_rate", lit 29 100); ("max_depth", lit 4637 1000)].

(** Two probes; an exception of the objective ends the search. *)
Definition sample_maximize (self : value) (kw : kwargs) (h : value) : strategy :=
  Probe point1 (fun r1 h1 =>
    match r1 with
    | inl e => Done (inl e) h1
    | inr _ =>
        Probe point2 (fun r2 h2 =>
          match r2 with
          | inl e => Done (inl e) h2
          | inr target =>
              Done (inr (with_attr self "max"
                           (VDict [("target", target); ("params", VDict point2)]))) h2
          end)
    end).

Definition sample_shell (cmd : string) (pkgs : gset string) (h : value)
  : gset string * value :=
  if String.eqb cmd "pip install bayesian-optimization"
  then ({["bayes_opt"; "colorama"]} ∪ pkgs, h)
  else (pkgs, h).

Definition lib : Library :=
  {| call_fn := sample_call; call_method := sample_method;
     maximize := sample_maximize; shell := sample_shell |}.

(** A fresh interpreter in an environment that has the packages of the
    first two sections, but not yet the optimiser. *)
Definition fresh : state :=
  {| globals := ∅;
     installed := {["numpy"; "pandas"; "sklearn"; "xgboost"]};
     warn_filters := [];
     stdout := [];
     trace := [];
     hidden := VNone |}.

(** The optimiser as the sample library leaves it after the search. *)
Definition optimised : value :=
  VObj "BayesianOptimization"
    [("f", VFunc "__main__.xgb_evaluate"); ("pbounds", Notebook.pbounds);
     ("max", VDict [("target", lit 1 1); ("params", VDict point2)])].

(** The namespace in which the objective function runs: the names cell
    12 has bound by then. *)
Definition searching : state :=
  set_globals
    (list_to_map
       [("XGBClassifier", VFunc "xgboost.XGBClassifier");
        ("accuracy_score", VFunc "sklearn.metrics.accuracy_score");
        ("X_train", rows); ("X_test", rows); ("y_train", labels); ("y_test", labels);
        ("xgb_bo", optimised)])
    fresh.

End Sample.

(** ** Properties of runs *)

(** The exception an interaction ended with, if it did. *)
Definition raised (ev : event) : option exn :=
  match ev with
  | EvImport pkg false => Some (ModuleNotFoundError pkg)
  | EvCall _ _ _ (inl e) | EvMethod _ _ _ _ (inl e) => Some e
  | _ => None
  end.

(** An exception that an interaction of the program raised is what the
    program ends with. *)
Definition propagates (s : state) (out : result * state) : Prop :=
  exists evs, trace (snd out) = trace s ++ evs /\
    forall ev e, In ev evs -> raised ev = Some e -> fst out = inl e.

(** A run from [s] with outcome [out]: the interactions it added to the log. *)
Definition new_events (s : state) (out : result * state) : list event :=
  drop (length (trace s)) (trace (snd out)).

(** What an interaction was, without the values that went in and out. *)
Inductive shape :=
| SImport (pkg : string)
| SCall (fn : string)
| SMethod (meth : string)
| SSetItem (var key : string)
| SShell (cmd : string)
| SFilterWarnings (action : string)
| SInner (sh : shape).

Fixpoint shape_of (ev : event) : shape :=
  match ev with
  | EvImport pkg _ => SImport pkg
  | EvCall fn _ _ _ => SCall fn
  | EvMethod meth _ _ _ _ => SMethod meth
  | EvSetItem var key _ => SSetItem var key
  | EvShell cmd => SShell cmd
  | EvFilterWarnings a => SFilterWarnings a
  | EvInner ev => SInner (shape_of ev)
  end.

(** The calls of [load_wine], at any depth: by a statement of a cell or
    by the objective function while a routine of a library runs it. *)
Fixpoint loads_wine (ev : event) : bool :=
  match ev with
  | EvCall fn _ _ _ => String.eqb fn "sklearn.datasets.load_wine"
  | EvInner ev => loads_wine ev
  | _ => false
  end.

(** ** What a program can do *)

(** The kinds of effect, as far as they can be told from the program text. *)
Inductive effect :=
| ERead (x : string)
| EAssign (x : string)
| ESetItem (x key : string)
| EImport (pkg : string)
| ECall
| EMethod (meth : string)
| EPrint
| EShell (cmd : string)
| EFilterWarnings (action : string).

(** [performs ok p]: whatever the library answers, [p] only has effects
    that [ok] admits. *)
Inductive performs (ok : effect -> bool) : prog -> Prop :=
| performs_Ret v : performs ok (Ret v)
| performs_Raise e : performs ok (Raise e)
| performs_Name x k :
    ok (ERead x) = true -> (forall v, performs ok (k v)) -> performs ok (Name x k)
| performs_Assign x v k :
    ok (EAssign x) = true -> performs ok k -> performs ok (Assign x v k)
| performs_SetItem x key v k :
    ok (ESetItem x key) = true -> performs ok k -> performs ok (SetItem x key v k)
| performs_Import pkg k :
    ok (EImport pkg) = true -> performs ok k -> performs ok (Import pkg k)
| performs_Call fn args kw k :
    ok ECall = true -> (forall v, performs ok (k v)) -> performs ok (Call fn args kw k)
| performs_Method self meth args kw k :
    ok (EMethod meth) = true -> (forall o v, performs ok (k o v)) ->
    performs ok (Method self meth args kw k)
| performs_Maximize self kw f k :
    ok (EMethod "maximize") = true -> (forall point, performs ok (f point)) ->
    (forall v, performs ok (k v)) -> performs ok (Maximize self kw f k)
| performs_Print vs k :
    ok EPrint = true -> performs ok k -> performs ok (Print vs k)
| performs_Shell cmd k :
    ok (EShell cmd) = true -> performs ok k -> performs ok (Shell cmd k)
| performs_FilterWarnings a k :
    ok (EFilterWarnings a) = true -> performs ok k -> performs ok (FilterWarnings a k).

Definition no_shell (e : effect) : bool :=
  match e with EShell _ => false | _ => true end.

(** Neither rebinds [x] nor assigns to an item of it. *)
Definition leaves (x : string) (e : effect) : bool :=
  match e with
  | EAssign y | ESetItem y _ => negb (String.eqb x y)
  | _ => true
  end.

(** [closed bound p]: every global name [p] reads is in [bound] or was
    bound by [p] itself before. *)
Inductive closed : list string -> prog -> Prop :=
| closed_Ret B v : closed B (Ret v)
| closed_Raise B e : closed B (Raise e)
| closed_Name B x k :
    existsb (String.eqb x) B = true -> (forall v, closed B (k v)) -> closed B (Name x k)
| closed_Assign B x v k : closed (x :: B) k -> closed B (Assign x v k)
| closed_SetItem B x key v k :
    existsb (String.eqb x) B = true -> closed B k -> closed B (SetItem x key v k)
| closed_Import B pkg k : closed B k -> closed B (Import pkg k)
| closed_Call B fn args kw k : (forall v, closed B (k v)) -> closed B (Call fn args kw k)
| closed_Method B self meth args kw k :
    (forall o v, closed B (k o v)) -> closed B (Method self meth args kw k)
| closed_Maximize B self kw f k :
    (forall point, closed B (f point)) -> (forall v, closed B (k v)) ->
    closed B (Maximize self kw f k)
| closed_Print B vs k : closed B k -> closed B (Print vs k)
| closed_Shell B cmd k : closed B k -> closed B (Shell cmd k)
| closed_FilterWarnings B a k : closed B k -> closed B (FilterWarnings a k).

(** The state [s] with the namespace [g] underneath its own. *)
Definition over (g : gmap string value) (s : state) : state :=
  set_globals (globals s ∪ g) s.

(** The interactions that a program performing only [ok] effects can log. *)
Fixpoint admitted (ok : effect -> bool) (sh : shape) : bool :=
  match sh with
  | SImport pkg => ok (EImport pkg)
  | SCall _ => ok ECall
  | SMethod meth => ok (EMethod meth)
  | SSetItem x key => ok (ESetItem x key)
  | SShell cmd => ok (EShell cmd)
  | SFilterWarnings a => ok (EFilterWarnings a)
  | SInner sh => ok (EMethod "maximize") && admitted ok sh
  end.

(** A run that logged admitted interactions only. *)
Definition logs_admitted (ok : effect -> bool) (s : state) (out : result * state) : Prop :=
  exists evs, trace (snd out) = trace s ++ evs /\
    Forall (fun ev => admitted ok (shape_of ev) = true) evs.

(** Every name of [B] is bound in [s]. *)
Definition binds (B : list string) (s : state) : Prop :=
  forall x, existsb (String.eqb x) B = true -> is_Some (globals s !! x).

(** [run] does in the namespace of [s] laid over [g] what it does in [s],
    when [s] binds the names of [B]. *)
Definition lifts (g : gmap string value) (B : list string)
    (run : state -> result * state) : Prop :=
  forall s, binds B s -> run (over g s) = (fst (run s), over g (snd (run s))).

(** The namespace [g] binds what the objective function reads: the two
    library functions and the four parts of the split. *)
Definition objective_names (g : gmap string value)
    (X_train y_train X_test y_test : value) : Prop :=
  g !! "XGBClassifier" = Some (VFunc "xgboost.XGBClassifier") /\
  g !! "accuracy_score" = Some (VFunc "sklearn.metrics.accuracy_score") /\
  g !! "X_train" = Some X_train /\ g !! "y_train" = Some y_train /\
  g !! "X_test" = Some X_test /\ g !! "y_test" = Some y_test.

(** An interaction of the objective function on those parts: a
    conversion by [int()], a classifier, its fit on the training part,
    its predictions on the test part, or their score against the test
    labels.  [r] is what the library answered, an exception or a value. *)
Definition objective_event (X_train y_train X_test y_test : value) (ev : event) : Prop :=
  (exists v r, ev = EvCall "builtins.int" [v] [] r) \/
  (exists params r, ev = EvCall "xgboost.XGBClassifier" [] params r) \/
  (exists model r, ev = EvMethod "fit" model [X_train; y_train] [] r) \/
  (exists model r, ev = EvMethod "predict" model [X_test] [] r) \/
  (exists predictions r,
     ev = EvCall "sklearn.metrics.accuracy_score" [y_test; predictions] [] r).

(** Reads names and calls the library, nothing else. *)
Definition calls_only (e : effect) : bool :=
  match e with
  | ERead _ | ECall | EMethod _ => true
  | _ => false
  end.

(** What of the state is not the libraries' own and not the log. *)
Definition visible (s : state) : gmap string value * gset string * list string * list (list value) :=
  (globals s, installed s, warn_filters s, stdout s).

(** The bindings [l], newest first, laid over the namespace [g]. *)
Fixpoint lookup_name (x : string) (l : list (string * value)) : option value :=
  match l with
  | [] => None
  | (y, v) :: rest => if String.eqb y x then Some v else lookup_name x rest
  end.

Definition overlay (l : list (string * value)) (g : gmap string value) : gmap string value :=
  list_to_map l ∪ g.

(** What one call of the objective function logs when it returns: the
    classifier built from [params], its fit on the training part, its
    predictions on the test part and their score. *)
Definition objective_calls (params : kwargs) (X_train y_train X_test y_test : value)
    (model fit_result fitted predictions accuracy : value) : list event :=
  [EvCall "xgboost.XGBClassifier" [] params (inr model);
   EvMethod "fit" model [X_train; y_train] [] (inr fit_result);
   EvMethod "predict" fitted [X_test] [] (inr predictions);
   EvCall "sklearn.metrics.accuracy_score" [y_test; predictions] [] (inr accuracy)].

(** [int(v)] gave [depth], logging [conversion] when [v] had to convert
    itself. *)
Definition converted (v depth : value) (conversion : list event) : Prop :=
  (exists n, to_int v = Some (inr n) /\ depth = VInt n /\ conversion = []) \/
  (to_int v = None /\ conversion = [EvCall "builtins.int" [v] [] (inr depth)]).

(** The results section after the optimiser found [kvs] best: [params]
    is bound to [kvs] with its [max_depth] replaced by [depth], and that
    is what gets printed. *)
Definition reports (L : Library) (s : state) (kvs : kwargs) (depth : Z) : Prop :=
  exists s',
    interp L Notebook.cell_bayes_results s = (inr VNone, s') /\
    globals s' !! "params" = Some (VDict (dict_set "max_depth" (VInt depth) kvs)) /\
    stdout s' =
      stdout s ++ [[VStr "Optimized parameters:";
                    VDict (dict_set "max_depth" (VInt depth) kvs)]].

(** ** The notebook, cell by cell *)

(** The cells that are Python statements: all but the shell escape. *)
Definition python_cells : list prog :=
  [Notebook.cell_load_data; Notebook.cell_grid_search; Notebook.cell_best_model;
   Notebook.cell_random_search; Notebook.cell_show_score; Notebook.cell_suppress_warnings;
   Notebook.cell_bayes_opt].

(** The cells that start with their own imports and data. *)
Definition standalone_cells : list prog :=
  [Notebook.cell_load_data; Notebook.cell_pip_install; Notebook.cell_suppress_warnings;
   Notebook.cell_bayes_opt].

(** What the notebook does to anything but the bindings of its names: one
    item assignment, one shell command, one warnings filter. *)
Definition notebook_effects (e : effect) : bool :=
  match e with
  | ESetItem x key => String.eqb x "params" && String.eqb key "max_depth"
  | EShell cmd => String.eqb cmd "pip install bayesian-optimization"
  | EFilterWarnings a => String.eqb a "ignore"
  | _ => true
  end.

(** The same, of an interaction of any depth: a statement of a cell, or a
    statement of the objective function while the optimiser runs it. *)
Fixpoint own_effect (sh : shape) : Prop :=
  match sh with
  | SSetItem x key => x = "params" /\ key = "max_depth"
  | SShell cmd => cmd = "pip install bayesian-optimization"
  | SFilterWarnings a => a = "ignore"
  | SInner sh => own_effect sh
  | _ => True
  end.

(** The names of built-ins that the stand-alone cells use: Python looks
    them up in the notebook's namespace first, so a namespace that binds
    one of them changes what [int(...)], [print(...)] or the shell escape
    of such a cell does. *)
Definition builtins_used : list string := ["int"; "print"; "get_ipython"].

Definition shadows_no_builtin (g : gmap string value) : Prop :=
  Forall (fun x => g !! x = None) builtins_used.

(** ** One call of the objective function *)

Definition is_object (v : value) : Prop :=
  match v with VObj _ _ => True | _ => False end.

(** The libraries' part in one call of the objective function from the
    hidden state [h]: a classifier built from [params], which the fit on
    the training part makes [fitted], whose predictions on the test part
    score [accuracy] against the test labels; [h'] is the hidden state
    they leave. *)
Definition scores (L : Library) (h : value) (params : kwargs)
    (X_train y_train X_test y_test : value)
    (model fit_result fitted predictions accuracy h' : value) : Prop :=
  exists predicted h1 h2 h3,
    call_fn L "xgboost.XGBClassifier" [] params h = (inr model, h1) /\
    is_object model /\
    call_method L "fit" model [X_train; y_train] [] h1 = (inr (fitted, fit_result), h2) /\
    is_object fitted /\
    call_method L "predict" fitted [X_test] [] h2 = (inr (predicted, predictions), h3) /\
    call_fn L "sklearn.metrics.accuracy_score" [y_test; predictions] [] h3 =
      (inr accuracy, h').

(** The keyword argument [max_depth] of a call that built a classifier is
    an integer. *)
Definition integer_depth (ev : event) : Prop :=
  match ev with
  | EvCall fn _ kw _ =>
      fn = "xgboost.XGBClassifier" -> exists n, dict_get "max_depth" kw = Some (VInt n)
  | _ => True
  end.

(** A namespace in which the optimiser's best point has no [max_depth]. *)
Definition depthless : state :=
  set_globals
    {["xgb_bo" := VObj "BayesianOptimization"
                    [("max", VDict [("params", VDict [("gamma", lit 1 2)])])]]}
    Sample.fresh.

(** ** A complete run *)

Module Run.

(** What the libraries answered in a run of the notebook that completed,
    under the names the notebook gives the answers. *)
Record answers := {
  (* cell 2 *)
  wine : value;
  data : value;
  feature_names : value;
  target : value;
  X : value;
  parts : value;
  X_train : value;
  X_test : value;
  y_train : value;
  y_test : value;
  (* cell 3 *)
  clf : value;
  grid_search : value;
  grid_fit : value;
  grid_fitted : value;
  best_params : kwargs;
  best_score : value;
  (* cell 5 *)
  best_model : value;
  new_model : value;
  (* cell 7 *)
  learning_rates : value;
  subsamples : value;
  colsamples : value;
  rand_search : value;
  rand_fit : value;
  rand_fitted : value;
  rand_best_params : value;
  rand_best_score : value;
  (* cell 12 *)
  wine' : value;
  data' : value;
  target' : value;
  parts' : value;
  X_train' : value;
  X_test' : value;
  y_train' : value;
  y_test' : value;
  xgb_bo : value;
  optimised : value;
  best : kwargs;
  point : kwargs;
  max_depth : value;
  conversion : list event;
  depth : value
}.

Definition split_kw : kwargs := [("test_size", lit 2 10); ("random_state", VInt 42)].

Definition search_kw : kwargs :=
  [("scoring", VStr "accuracy"); ("cv", VInt 3); ("verbose", VInt 1)].

Definition param_dist (a : answers) : value :=
  VDict [("learning_rate", learning_rates a);
         ("max_depth", int_list [3; 4; 5; 6; 7; 8; 9; 10]%Z);
         ("min_child_weight", int_list [1; 2; 3; 4; 5]%Z);
         ("subsample", subsamples a);
         ("colsample_bytree", colsamples a);
         ("n_estimators", int_list [100; 200; 300; 400; 500]%Z);
         ("objective", VList [VStr "multi:softmax"])].

Definition load_data_log (a : answers) : list event :=
  [EvImport "numpy" true; EvImport "pandas" true; EvImport "sklearn" true;
   EvImport "sklearn" true; EvImport "xgboost" true;
   EvCall "sklearn.datasets.load_wine" [] [] (inr (wine a));
   EvCall "pandas.DataFrame" [data a] [("columns", feature_names a)] (inr (X a));
   EvCall "sklearn.model_selection.train_test_split" [X a; target a] split_kw
     (inr (parts a))].

Definition grid_search_log (a : answers) : list event :=
  [EvImport "sklearn" true;
   EvCall "xgboost.XGBClassifier" [] [] (inr (clf a));
   EvCall "sklearn.model_selection.GridSearchCV" [clf a; Notebook.param_grid] search_kw
     (inr (grid_search a));
   EvMethod "fit" (grid_search a) [X_train a; y_train a] [] (inr (grid_fit a))].

Definition best_model_log (a : answers) : list event :=
  [EvCall "xgboost.XGBClassifier" [] (best_params a) (inr (new_model a))].

Definition random_search_log (a : answers) : list event :=
  [EvImport "sklearn" true;
   EvCall "numpy.linspace" [lit 1 100; VInt 1; VInt 10] [] (inr (learning_rates a));
   EvCall "numpy.linspace" [lit 5 10; VInt 1; VInt 6] [] (inr (subsamples a));
   EvCall "numpy.linspace" [lit 5 10; VInt 1; VInt 6] [] (inr (colsamples a));
   EvCall "sklearn.model_selection.RandomizedSearchCV" [clf a]
     (("param_distributions", param_dist a) :: search_kw ++ [("n_iter", VInt 50)])
     (inr (rand_search a));
   EvMethod "fit" (rand_search a) [X_train a; y_train a] [] (inr (rand_fit a))].

Definition setup_log : list event :=
  [EvShell "pip install bayesian-optimization"; EvImport "warnings" true;
   EvFilterWarnings "ignore"].

Definition bayes_data_log (a : answers) : list event :=
  [EvImport "numpy" true; EvImport "pandas" true; EvImport "sklearn" true;
   EvImport "sklearn" true; EvImport "xgboost" true; EvImport "bayes_opt" true;
   EvImport "sklearn" true;
   EvCall "sklearn.datasets.load_wine" [] [("as_frame", VBool true)] (inr (wine' a));
   EvCall "sklearn.model_selection.train_test_split" [data' a; target' a] split_kw
     (inr (parts' a))].

Definition bayes_optimise_log (a : answers) (inner : list event) : list event :=
  EvCall "bayes_opt.BayesianOptimization" [VFunc "__main__.xgb_evaluate"; Notebook.pbounds] []
    (inr (xgb_bo a))
  :: map EvInner inner ++
     [EvMethod "maximize" (xgb_bo a) [] [("init_points", VInt 5); ("n_iter", VInt 10)]
        (inr (optimised a))].

Definition bayes_results_log (a : answers) : list event :=
  conversion a ++ [EvSetItem "params" "max_depth" (depth a)].

(** The log of a complete run; [inner] is what the calls of the
    objective function logged during the optimisation. *)
Definition log (a : answers) (inner : list event) : list event :=
  load_data_log a ++ grid_search_log a ++ best_model_log a ++ random_search_log a ++
  setup_log ++ bayes_data_log a ++ bayes_optimise_log a inner ++ bayes_results_log a.

(** The lines that the [print] calls of a complete run write. *)
Definition output (a : answers) : list (list value) :=
  [[VStr "Best parameters found: "; VDict (best_params a)];
   [VStr "Best score"; best_score a];
   [VStr "Best parameters found: "; rand_best_params a];
   [VStr "Best score"; rand_best_score a];
   [VStr "Optimized parameters:"; VDict (dict_set "max_depth" (depth a) (point a))]].

(** How the answers hang together: which attribute or item of which
    answer the notebook went on with. *)
Definition consistent (a : answers) : Prop :=
  attribute (wine a) "data" = Some (data a) /\
  attribute (wine a) "feature_names" = Some (feature_names a) /\
  attribute (wine a) "target" = Some (target a) /\
  items (parts a) = inr [X_train a; X_test a; y_train a; y_test a] /\
  attribute (grid_fitted a) "best_params_" = Some (VDict (best_params a)) /\
  attribute (grid_fitted a) "best_score_" = Some (best_score a) /\
  attribute (grid_fitted a) "best_estimator_" = Some (best_model a) /\
  attribute (rand_fitted a) "best_params_" = Some (rand_best_params a) /\
  attribute (rand_fitted a) "best_score_" = Some (rand_best_score a) /\
  attribute (wine' a) "data" = Some (data' a) /\
  attribute (wine' a) "target" = Some (target' a) /\
  items (parts' a) = inr [X_train' a; X_test' a; y_train' a; y_test' a] /\
  attribute (optimised a) "max" = Some (VDict (best a)) /\
  dict_get "params" (best a) = Some (VDict (point a)) /\
  dict_get "max_depth" (point a) = Some (max_depth a) /\
  converted (max_depth a) (depth a) (conversion a).

(** What some of the notebook's names are bound to after a complete run:
    the parts of the split are those of cell 12, which replaced those of
    cell 2. *)
Definition bindings (a : answers) : list (string * value) :=
  [("clf", clf a); ("best_model", best_model a); ("new_model", new_model a);
   ("X_train", X_train' a); ("X_test", X_test' a);
   ("y_train", y_train' a); ("y_test", y_test' a);
   ("params", VDict (dict_set "max_depth" (depth a) (point a)));
   ("param_grid", Notebook.param_grid); ("param_dist", param_dist a)].

End Run.

(** The interactions that are calls of the method [meth]. *)
Definition is_method (meth : string) (ev : event) : bool :=
  match ev with
  | EvMethod m _ _ _ _ => String.eqb m meth
  | _ => false
  end.

(** The lines that start with the string [label]. *)
Definition labelled (label : string) (line : list value) : bool :=
  match line with
  | VStr l :: _ => String.eqb l label
  | _ => false
  end.

(** What the [print] calls of a run from [s] with outcome [out] wrote. *)
Definition printed (s : state) (out : result * state) : list (list value) :=
  drop (length (stdout s)) (stdout (snd out)).

(** ** Names a program does not depend on *)

(** Neither reads nor binds [x]. *)
Definition ignores (x : string) (e : effect) : bool :=
  match e with
  | ERead y | EAssign y | ESetItem y _ => negb (String.eqb x y)
  | _ => true
  end.

(** The state [s] with [x] bound to [v] instead of what it was bound to,
    if it was bound. *)
Definition rebind (x : string) (v : value) (s : state) : state :=
  set_globals (<[x := v]> (globals s)) s.

(** The cells of the grid-search and random-search sections that come
    after the split. *)
Definition search_cells : list prog :=
  [Notebook.cell_grid_search; Notebook.cell_best_model; Notebook.cell_random_search;
   Notebook.cell_show_score].

(** The cells after cell 3 and the cells after cell 7. *)
Definition cells_after_grid_search : list prog :=
  [Notebook.cell_best_model; Notebook.cell_random_search; Notebook.cell_show_score;
   Notebook.cell_pip_install; Notebook.cell_suppress_warnings; Notebook.cell_bayes_opt].

Definition cells_after_random_search : list prog :=
  [Notebook.cell_show_score; Notebook.cell_pip_install; Notebook.cell_suppress_warnings;
   Notebook.cell_bayes_opt].

(** ** The objective function and its bounds *)

(** The names the bounds dictionary of cell 12 gives bounds for. *)
Definition pbounds_keys : list string :=
  match Notebook.pbounds with
  | VDict kvs => map fst kvs
  | _ => []
  end.

(** ** The split *)

Definition split_names : list string := ["X_train"; "X_test"; "y_train"; "y_test"].

(** What the names of the four parts are bound to in [s]. *)
Definition split_bindings (s : state) : list (option value) :=
  map (fun x => globals s !! x) split_names.

(** A run of [c] from [s] either completes with the four names bound to
    the four items of what a call of [train_test_split] returned, or
    fails and leaves the four names as they were. *)
Definition all_or_nothing (L : Library) (c : prog) (s : state) : Prop :=
  match fst (interp L c s) with
  | inr _ =>
      exists X y kw parts X_train X_test y_train y_test,
        In (EvCall "sklearn.model_selection.train_test_split" [X; y] kw (inr parts))
           (new_events s (interp L c s)) /\
        items parts = inr [X_train; X_test; y_train; y_test] /\
        split_bindings (snd (interp L c s)) =
          [Some X_train; Some X_test; Some y_train; Some y_test]
  | inl _ => split_bindings (snd (interp L c s)) = split_bindings s
  end.

(** The same for a program that goes on after the split: it either fails
    with the four names as they were, or has them bound to the four
    items of what a call of [train_test_split] returned, whether it then
    completes or fails. *)
Definition split_first (L : Library) (c : prog) (s : state) : Prop :=
  (exists e, fst (interp L c s) = inl e /\
             split_bindings (snd (interp L c s)) = split_bindings s) \/
  (exists X y kw parts X_train X_test y_train y_test,
     In (EvCall "sklearn.model_selection.train_test_split" [X; y] kw (inr parts))
        (new_events s (interp L c s)) /\
     items parts = inr [X_train; X_test; y_train; y_test] /\
     split_bindings (snd (interp L c s)) =
       [Some X_train; Some X_test; Some y_train; Some y_test]).

(** ** What the split rests on in the libraries *)



(** ** Kinds of interaction *)

(** The calls of library functions and methods, at any depth. *)
Fixpoint is_call (ev : event) : bool :=
  match ev with
  | EvCall _ _ _ _ | EvMethod _ _ _ _ _ => true
  | EvInner ev => is_call ev
  | _ => false
  end.

(** The item assignments, at any depth. *)
Fixpoint assigns_item (ev : event) : bool :=
  match ev with
  | EvSetItem _ _ _ => true
  | EvInner ev => assigns_item ev
  | _ => false
  end.

(** ** Where the algorithms are *)

(** The package of a qualified name: what stands before its first dot. *)
Fixpoint package (qualname : string) : string :=
  match qualname with
  | EmptyString => EmptyString
  | String c rest => if Ascii.eqb c "."%char then EmptyString else String c (package rest)
  end.

(** The packages the notebook imports its data, its searches, its model
    and its score from. *)
Definition libraries : list string := ["sklearn"; "xgboost"; "bayes_opt"; "pandas"; "numpy"].

(** Of an interaction at any depth: if it is a call, then of a function
    of one of the [libraries], of the built-in [int] on an object that
    converts itself, or of one of the methods [fit], [predict] and
    [maximize]. *)
Fixpoint delegated (ev : event) : bool :=
  match ev with
  | EvCall fn _ _ _ =>
      String.eqb fn "builtins.int" || existsb (String.eqb (package fn)) libraries
  | EvMethod meth _ _ _ _ => existsb (String.eqb meth) ["fit"; "predict"; "maximize"]
  | EvInner ev => delegated ev
  | _ => true
  end.

(** The interactions of the statements of the cells themselves, not of
    the objective function while the optimiser runs it. *)
Definition own (ev : event) : bool :=
  match ev with
  | EvInner _ => false
  | _ => true
  end.

(** The method calls of the statements of the cells. *)
Definition own_method (ev : event) : bool :=
  match ev with
  | EvMethod _ _ _ _ _ => true
  | _ => false
  end.

(** ** Equations of the interpreter *)

Section Semantics.
Variable L : Library.

Lemma interp_bind (p : prog) (q : value -> prog) (s : state) :
    interp L (bind p q) s =
    match interp L p s with
    | (inr v, s') => interp L (q v) s'
    | (inl e, s') => (inl e, s')
    end.
  Proof.
    revert s. induction p; intros s; simpl; auto.
    - destruct (globals s !! x); auto.
    - destruct (globals s !! x) as [[]|]; auto.
    - destruct (importable pkg (installed s)); auto.
    - destruct (call_fn L fn args kw (hidden s)) as [[e|v] h]; auto.
    - destruct self; auto.
      destruct (call_method L meth _ args kw (hidden s)) as [[e|[o v]] h]; auto.
    - destruct self; auto.
      destruct (run_strategy _ _ s) as [[e|v] s']; auto.
    - destruct (shell L cmd (installed s) (hidden s)); auto.
  Qed.

Lemma run_strategy_trace (objective : kwargs -> state -> result * state)
      (t : strategy) (s : state) :
    exists evs, trace (snd (run_strategy objective t s)) = trace s ++ map EvInner evs.
  Proof.
    revert s. induction t as [r h|point k IH]; intros s; simpl.
    - exists []. simpl. by rewrite app_nil_r.
    - unfold as_inner. destruct (objective point (set_trace [] s)) as [r s1] eqn:E.
      destruct (IH r (hidden (set_trace (trace s ++ map EvInner (trace s1)) s1))
                  (set_trace (trace s ++ map EvInner (trace s1)) s1)) as [evs Hevs].
      exists (trace s1 ++ evs). rewrite Hevs. simpl.
      by rewrite map_app, app_assoc.
  Qed.

Lemma propagates_refl s r : propagates s (r, s).
  Proof. exists []. split; [by rewrite app_nil_r | intros ev e []]. Qed.

  (** Going on after interactions that did not raise. *)
Lemma propagates_step (s s1 : state) (quiet : list event) (out : result * state) :
    propagates s1 out ->
    trace s1 = trace s ++ quiet ->
    (forall ev, In ev quiet -> raised ev = None) ->
    propagates s out.
  Proof.
    intros (evs & Hevs & Hr) Ht Hq. exists (quiet ++ evs). split.
    - by rewrite Hevs, Ht, app_assoc.
    - intros ev e Hin Hraised. apply in_app_or in Hin as [Hin|Hin]; [|eauto].
      rewrite (Hq ev Hin) in Hraised. discriminate.
  Qed.

Lemma propagates_fail (s s1 : state) (ev : event) (e : exn) :
    trace s1 = trace s ++ [ev] -> raised ev = Some e -> propagates s (inl e, s1).
  Proof.
    intros Ht Hev. exists [ev]. split; [done|].
    intros ev' e' [<-|[]] Hr. simpl. congruence.
  Qed.

Lemma interp_propagates (p : prog) (s : state) : propagates s (interp L p s).
  Proof.
    revert s. induction p as [v|e|x k IH|x v k IH|x key v k IH|pkg k IH|fn args kw k IH
                             |self meth args kw k IH|self kw f IHf k IH|vs k IH|cmd k IH|a k IH];
      intros s; simpl.
    - apply propagates_refl.
    - apply propagates_refl.
    - destruct (globals s !! x); [apply IH | apply propagates_refl].
    - eapply (propagates_step s _ []); [apply IH | simpl; by rewrite app_nil_r | intros ? []].
    - destruct (globals s !! x) as [[]|]; try apply propagates_refl.
      eapply (propagates_step s _ [EvSetItem x key v]); [apply IH | done |].
      by intros ev [<-|[]].
    - destruct (importable pkg (installed s)).
      + eapply (propagates_step s _ [EvImport pkg true]); [apply IH | done |].
        by intros ev [<-|[]].
      + by apply (propagates_fail s _ (EvImport pkg false)).
    - destruct (call_fn L fn args kw (hidden s)) as [[e|v] h].
      + by apply (propagates_fail s _ (EvCall fn args kw (inl e))).
      + eapply (propagates_step s _ [EvCall fn args kw (inr v)]); [apply IH | done |].
        by intros ev [<-|[]].
    - destruct self; try apply propagates_refl.
      destruct (call_method L meth _ args kw (hidden s)) as [[e|[o v]] h].
      + by eapply (propagates_fail s _ (EvMethod meth _ args kw (inl e))).
      + eapply (propagates_step s _ [EvMethod meth _ args kw (inr v)]); [apply IH | done |].
        by intros ev [<-|[]].
    - destruct self; try apply propagates_refl.
      destruct (run_strategy_trace (fun point => interp L (f point))
                  (maximize L (VObj cls attrs) kw (hidden s)) s) as [inner Hinner].
      destruct (run_strategy _ _ s) as [[e|v] s1]; simpl in Hinner.
      + exists (map EvInner inner ++ [EvMethod "maximize" (VObj cls attrs) [] kw (inl e)]).
        split; [simpl; by rewrite Hinner, app_assoc|].
        intros ev e' Hin Hr. apply in_app_or in Hin as [Hin|[<-|[]]].
        * apply in_map_iff in Hin as (ev0 & <- & _). discriminate.
        * simpl in *. congruence.
      + eapply (propagates_step s _
                  (map EvInner inner ++ [EvMethod "maximize" (VObj cls attrs) [] kw (inr v)]));
          [apply IH | simpl; by rewrite Hinner, app_assoc |].
        intros ev Hin. apply in_app_or in Hin as [Hin|[<-|[]]]; [|done].
        by apply in_map_iff in Hin as (ev0 & <- & _).
    - eapply (propagates_step s _ []); [apply IH | simpl; by rewrite app_nil_r | intros ? []].
    - destruct (shell L cmd (installed s) (hidden s)) as [i h].
      eapply (propagates_step s _ [EvShell cmd]); [apply IH | done |].
      by intros ev [<-|[]].
    - eapply (propagates_step s _ [EvFilterWarnings a]); [apply IH | done |].
      by intros ev [<-|[]].
  Qed.
End Semantics.

(** ** One step of the interpreter *)

Section Steps.
Variable L : Library.
Lemma interp_Ret v s : interp L (Ret v) s = (inr v, s).
  Proof. reflexivity. Qed.
Lemma interp_Raise e s : interp L (Raise e) s = (inl e, s).
  Proof. reflexivity. Qed.
Lemma interp_Name x k s :
    interp L (Name x k) s =
    match globals s !! x with
    | Some v => interp L (k v) s
    | None => (inl (NameError x), s)
    end.
  Proof. reflexivity. Qed.
Lemma interp_Assign x v k s :
    interp L (Assign x v k) s = interp L k (set_globals (<[x := v]> (globals s)) s).
  Proof. reflexivity. Qed.
Lemma interp_SetItem x key v k s :
    interp L (SetItem x key v k) s =
    match globals s !! x with
    | Some (VDict kvs) =>
        interp L k (log (EvSetItem x key v)
                      (set_globals (<[x := VDict (dict_set key v kvs)]> (globals s)) s))
    | Some _ => (inl (TypeError "object does not support item assignment"), s)
    | None => (inl (NameError x), s)
    end.
  Proof. reflexivity. Qed.
Lemma interp_Import pkg k s :
    interp L (Import pkg k) s =
    if importable pkg (installed s)
    then interp L k (log (EvImport pkg true) s)
    else (inl (ModuleNotFoundError pkg), log (EvImport pkg false) s).
  Proof. reflexivity. Qed.
Lemma interp_Call fn args kw k s :
    interp L (Call fn args kw k) s =
    let '(r, h) := call_fn L fn args kw (hidden s) in
    match r with
    | inr v => interp L (k v) (log (EvCall fn args kw r) (set_hidden h s))
    | inl e => (inl e, log (EvCall fn args kw r) (set_hidden h s))
    end.
  Proof. simpl. by destruct (call_fn L fn args kw (hidden s)) as [[?|?] ?]. Qed.
Lemma interp_Method self meth args kw k s :
    interp L (Method self meth args kw k) s =
    match self with
    | VObj _ _ =>
        let '(r, h) := call_method L meth self args kw (hidden s) in
        match r with
        | inr (self', v) =>
            interp L (k self' v) (log (EvMethod meth self args kw (inr v)) (set_hidden h s))
        | inl e => (inl e, log (EvMethod meth self args kw (inl e)) (set_hidden h s))
        end
    | _ => (inl (AttributeError meth), s)
    end.
  Proof. reflexivity. Qed.
Lemma interp_Print vs k s :
    interp L (Print vs k) s = interp L k (set_stdout (stdout s ++ [vs]) s).
  Proof. reflexivity. Qed.
Lemma interp_Shell cmd k s :
    interp L (Shell cmd k) s =
    let '(i, h) := shell L cmd (installed s) (hidden s) in
    interp L k (log (EvShell cmd) (set_hidden h (set_installed i s))).
  Proof. reflexivity. Qed.
Lemma interp_FilterWarnings a k s :
    interp L (FilterWarnings a k) s =
    interp L k (log (EvFilterWarnings a)
                  (set_warn_filters (a :: remove_first a (warn_filters s)) s)).
  Proof. reflexivity. Qed.
Lemma interp_Maximize self kw f k s :
    interp L (Maximize self kw f k) s =
    match self with
    | VObj _ _ =>
        let '(r, s') :=
          run_strategy (fun point => interp L (f point)) (maximize L self kw (hidden s)) s in
        match r with
        | inr self' => interp L (k self') (log (EvMethod "maximize" self [] kw r) s')
        | inl e => (inl e, log (EvMethod "maximize" self [] kw r) s')
        end
    | _ => (inl (AttributeError "maximize"), s)
    end.
  Proof. by destruct self. Qed.
End Steps.



Lemma overlay_nil (g : gmap string value) : overlay [] g = g.
Proof. unfold overlay. simpl. apply (left_id_L ∅ (∪)). Qed.

Lemma insert_overlay (x : string) (v : value) l (g : gmap string value) :
  <[x := v]> (overlay l g) = overlay ((x, v) :: l) g.
Proof. unfold overlay. simpl. by rewrite insert_union_l. Qed.

Lemma lookup_overlay (x : string) l (g : gmap string value) :
  overlay l g !! x = match lookup_name x l with Some v => Some v | None => g !! x end.
Proof.
  unfold overlay. induction l as [|[y v] l IH]; simpl.
  - by rewrite (left_id_L ∅ (∪)).
  - rewrite <- insert_union_l. destruct (String.eqb_spec y x) as [Heq|Hne].
    + subst. by rewrite lookup_insert_eq.
    + by rewrite lookup_insert_ne.
Qed.

Ltac state_cbn H :=
  cbv delta [set_globals set_installed set_warn_filters set_stdout set_trace set_hidden log]
    in H;
  cbn [globals installed warn_filters stdout trace hidden fst snd attribute] in H;
  repeat lazymatch type of H with
         | context [<[_ := _]> (overlay _ _)] => rewrite insert_overlay in H
         end;
  repeat match type of H with
         | context [String.append (String ?c ?a) ?b] =>
             change (String.append (String c a) b) with (String c (String.append a b)) in H
         | context [String.append EmptyString ?b] =>
             change (String.append EmptyString b) with b in H
         end.

Ltac lookup_cbn H :=
  state_cbn H;
  rewrite ?lookup_overlay in H;
  lazy beta iota delta [lookup_name String.eqb Ascii.eqb Bool.eqb] in H.

(** Puts a state into the form symbolic execution keeps it in. *)
Ltac exec_init s H :=
  let g := fresh "g" in
  destruct s as [g ? ? ? ? ?];
  rewrite <- (overlay_nil g) in H.

(** Symbolic execution of [H : interp L p s = out]: one goal for every
    way the run can end that [out] does not exclude, with [H] turned into
    equations on what the libraries answered. *)
Ltac exec H :=
  state_cbn H;
  lazymatch type of H with
  | (_, _) = (_, _) =>
      first [ discriminate H
            | let H1 := fresh in
              let H2 := fresh in
              injection H as H1 H2;
              first [ subst | injection H1 as H1; subst ] ]
  | interp ?L (bind ?p ?q) ?s0 = _ =>
      rewrite (interp_bind L p q s0) in H;
      let E := fresh "E" in
      destruct (interp L p s0) as [[?e|?v] ?s] eqn:E; cbv beta in H;
      [ first [ discriminate H | exec E; exec H ] | exec E; exec H ]
  | interp _ (Ret _) _ = _ => rewrite interp_Ret in H; exec H
  | interp _ (Raise _) _ = _ => rewrite interp_Raise in H; exec H
  | interp _ (Name _ _) _ = _ => rewrite interp_Name in H; lookup_cbn H; exec H
  | interp _ (Assign _ _ _) _ = _ => rewrite interp_Assign in H; exec H
  | interp _ (SetItem _ _ _ _) _ = _ => rewrite interp_SetItem in H; lookup_cbn H; exec H
  | interp _ (Import _ _) _ = _ => rewrite interp_Import in H; exec H
  | interp _ (Call _ _ _ _) _ = _ => rewrite interp_Call in H; exec H
  | interp _ (Method _ _ _ _ _) _ = _ => rewrite interp_Method in H; exec H
  | interp _ (Print _ _) _ = _ => rewrite interp_Print in H; exec H
  | interp _ (Shell _ _) _ = _ => rewrite interp_Shell in H; exec H
  | interp _ (FilterWarnings _ _) _ = _ => rewrite interp_FilterWarnings in H; exec H
  | interp _ (match ?v with _ => _ end) _ = _ =>
      tryif is_var v then destruct v else (let E := fresh "E" in destruct v eqn:E);
      exec H
  | interp _ _ _ = _ =>
      progress unfold Notebook.cell_load_data, Notebook.cell_grid_search,
        Notebook.cell_best_model, Notebook.cell_random_search, Notebook.cell_show_score,
        Notebook.cell_pip_install, Notebook.cell_suppress_warnings, Notebook.cell_bayes_opt,
        Notebook.cell_bayes_data, Notebook.cell_bayes_optimise, Notebook.cell_bayes_results,
        Notebook.apply_xgb_evaluate, Notebook.xgb_evaluate,
        unpack4, unpack_mapping, Notebook.np_linspace, import_as, from_import,
        setitem, name, assign, print, getattr, getitem, call, py_int in H;
      exec H
  | (let '(_, _) := ?c in _) = _ =>
      let E := fresh "E" in destruct c as [? ?] eqn:E; exec H
  | match ?c with Some _ => _ | None => _ end = _ =>
      first [ match goal with Hc : c = _ |- _ => rewrite Hc in H end
            | let E := fresh "E" in destruct c eqn:E ];
      exec H
  | (if ?c then _ else _) = _ =>
      first [ match goal with Hc : c = _ |- _ => rewrite Hc in H end
            | let E := fresh "E" in destruct c eqn:E ];
      exec H
  | match ?v with _ => _ end = _ => destruct v; exec H
  end.

(** ** What the admitted effects leave alone *)

Section Frame.
Context {A : Type} (obs : state -> A) (ok : effect -> bool) (L : Library).
Hypothesis obs_trace : forall t s, obs (set_trace t s) = obs s.
Hypothesis obs_hidden : forall h s, obs (set_hidden h s) = obs s.
Hypothesis obs_stdout : forall o s, ok EPrint = true -> obs (set_stdout o s) = obs s.
Hypothesis obs_assign : forall x v s,
    ok (EAssign x) = true -> obs (set_globals (<[x := v]> (globals s)) s) = obs s.
Hypothesis obs_setitem : forall x key v s,
    ok (ESetItem x key) = true -> obs (set_globals (<[x := v]> (globals s)) s) = obs s.
Hypothesis obs_shell : forall cmd i s,
    ok (EShell cmd) = true -> obs (set_installed i s) = obs s.
Hypothesis obs_filter : forall a w s,
    ok (EFilterWarnings a) = true -> obs (set_warn_filters w s) = obs s.

Lemma run_strategy_frame (objective : kwargs -> state -> result * state) :
    (forall point s, obs (snd (objective point s)) = obs s) ->
    forall t s, obs (snd (run_strategy objective t s)) = obs s.
  Proof.
    intros Hobj t. induction t as [r h|point k IH]; intros s; simpl.
    - apply obs_hidden.
    - unfold as_inner. specialize (Hobj point (set_trace [] s)).
      destruct (objective point (set_trace [] s)) as [r s1]. simpl in Hobj.
      rewrite IH, obs_trace, Hobj. apply obs_trace.
  Qed.

Theorem performs_frame (p : prog) :
    performs ok p -> forall s, obs (snd (interp L p s)) = obs s.
  Proof.
    induction 1 as [v|e|x k Hok _ IH|x v k Hok _ IH|x key v k Hok _ IH|pkg k Hok _ IH
                   |fn args kw k Hok _ IH|self meth args kw k Hok _ IH
                   |self kw f k Hok _ IHf _ IH|vs k Hok _ IH|cmd k Hok _ IH|a k Hok _ IH];
      intros s; cbn [interp]; auto.
    - destruct (globals s !! x); auto.
    - rewrite IH. auto.
    - destruct (globals s !! x) as [[]|]; auto.
      rewrite IH. unfold log. rewrite obs_trace. eauto.
    - destruct (importable pkg (installed s)); simpl; unfold log; [rewrite IH|]; by rewrite obs_trace.
    - destruct (call_fn L fn args kw (hidden s)) as [[e|v] h]; simpl; [|rewrite IH];
        unfold log; by rewrite obs_trace, obs_hidden.
    - destruct self; auto.
      destruct (call_method L meth _ args kw (hidden s)) as [[e|[o v]] h]; simpl;
        [|rewrite IH]; unfold log; by rewrite obs_trace, obs_hidden.
    - destruct self; auto.
      pose proof (run_strategy_frame (fun point => interp L (f point)) (fun point s => IHf point s)
                    (maximize L (VObj cls attrs) kw (hidden s)) s) as Hrun.
      destruct (run_strategy _ _ s) as [[e|v] s1]; simpl in *; [|rewrite IH];
        unfold log; by rewrite obs_trace.
    - rewrite IH. auto.
    - destruct (shell L cmd (installed s) (hidden s)) as [i h].
      rewrite IH. unfold log. rewrite obs_trace, obs_hidden. eauto.
    - rewrite IH. unfold log. rewrite obs_trace. eauto.
  Qed.
End Frame.

(** ** What the admitted effects log *)

Section Events.
Context (ok : effect -> bool) (L : Library).

Lemma logs_admitted_refl s r : logs_admitted ok s (r, s).
  Proof. exists []. split; [by rewrite app_nil_r | constructor]. Qed.

Lemma logs_admitted_step (s s1 : state) (evs : list event) (out : result * state) :
    logs_admitted ok s1 out ->
    trace s1 = trace s ++ evs ->
    Forall (fun ev => admitted ok (shape_of ev) = true) evs ->
    logs_admitted ok s out.
  Proof.
    intros (evs' & Ht & Hall) Hs Hevs. exists (evs ++ evs'). split.
    - by rewrite Ht, Hs, app_assoc.
    - by apply Forall_app.
  Qed.

Lemma run_strategy_admitted (objective : kwargs -> state -> result * state) :
    ok (EMethod "maximize") = true ->
    (forall point s, logs_admitted ok s (objective point s)) ->
    forall t s, logs_admitted ok s (run_strategy objective t s).
  Proof.
    intros Hok Hobj t. induction t as [r h|point k IH]; intros s; simpl.
    - exists []. split; [simpl; by rewrite app_nil_r | constructor].
    - unfold as_inner. destruct (Hobj point (set_trace [] s)) as (evs & Ht & Hall).
      destruct (objective point (set_trace [] s)) as [r s1]. simpl in Ht.
      eapply logs_admitted_step; [apply IH | reflexivity |].
      rewrite Ht. simpl. apply Forall_forall. intros ev Hin.
      apply list_elem_of_In, in_map_iff in Hin as (ev0 & <- & Hin). simpl.
      rewrite Hok. simpl. rewrite Forall_forall in Hall. apply Hall.
      by apply list_elem_of_In.
  Qed.

Theorem performs_events (p : prog) :
    performs ok p -> forall s, logs_admitted ok s (interp L p s).
  Proof.
    induction 1 as [v|e|x k Hok _ IH|x v k Hok _ IH|x key v k Hok _ IH|pkg k Hok _ IH
                   |fn args kw k Hok _ IH|self meth args kw k Hok _ IH
                   |self kw f k Hok _ IHf _ IH|vs k Hok _ IH|cmd k Hok _ IH|a k Hok _ IH];
      intros s; cbn [interp]; try apply logs_admitted_refl.
    - destruct (globals s !! x); [apply IH | apply logs_admitted_refl].
    - eapply logs_admitted_step; [apply IH | simpl; by rewrite app_nil_r | constructor].
    - destruct (globals s !! x) as [[]|]; try apply logs_admitted_refl.
      eapply logs_admitted_step; [apply IH | reflexivity | by repeat constructor].
    - destruct (importable pkg (installed s)).
      + eapply logs_admitted_step; [apply IH | reflexivity | by repeat constructor].
      + exists [EvImport pkg false]. split; [done | by repeat constructor].
    - destruct (call_fn L fn args kw (hidden s)) as [[e|v] h].
      + exists [EvCall fn args kw (inl e)]. split; [done | by repeat constructor].
      + eapply logs_admitted_step; [apply IH | reflexivity | by repeat constructor].
    - destruct self; try apply logs_admitted_refl.
      destruct (call_method L meth _ args kw (hidden s)) as [[e|[o v]] h].
      + eexists [_]. split; [reflexivity | by repeat constructor].
      + eapply logs_admitted_step; [apply IH | reflexivity | by repeat constructor].
    - destruct self; try apply logs_admitted_refl.
      destruct (run_strategy_admitted (fun point => interp L (f point)) Hok
                  (fun point s => IHf point s)
                  (maximize L (VObj cls attrs) kw (hidden s)) s) as (inner & Hinner & Hall).
      destruct (run_strategy _ _ s) as [[e|v] s1]; simpl in Hinner.
      + exists (inner ++ [EvMethod "maximize" (VObj cls attrs) [] kw (inl e)]).
        split; [simpl; by rewrite Hinner, app_assoc|].
        apply Forall_app. split; [done | by repeat constructor].
      + eapply (logs_admitted_step s _
                  (inner ++ [EvMethod "maximize" (VObj cls attrs) [] kw (inr v)]));
          [apply IH | simpl; by rewrite Hinner, app_assoc |].
        apply Forall_app. split; [done | by repeat constructor].
    - eapply logs_admitted_step; [apply IH | simpl; by rewrite app_nil_r | constructor].
    - destruct (shell L cmd (installed s) (hidden s)) as [i h].
      eapply logs_admitted_step; [apply IH | reflexivity | by repeat constructor].
    - eapply logs_admitted_step; [apply IH | reflexivity | by repeat constructor].
  Qed.
End Events.

(** ** Programs that read only what they bound *)

Section Closed.
Variable L : Library.

  (** No effect unbinds a name. *)
Lemma run_strategy_keeps (objective : kwargs -> state -> result * state) (x : string) :
    (forall point s, is_Some (globals s !! x) -> is_Some (globals (snd (objective point s)) !! x)) ->
    forall t s, is_Some (globals s !! x) ->
                is_Some (globals (snd (run_strategy objective t s)) !! x).
  Proof.
    intros Hobj t. induction t as [r h|point k IH]; intros s Hs; simpl; [done|].
    unfold as_inner. specialize (Hobj point (set_trace [] s) Hs).
    destruct (objective point (set_trace [] s)) as [r s1]. by apply IH.
  Qed.

Lemma interp_keeps (p : prog) (x : string) (s : state) :
    is_Some (globals s !! x) -> is_Some (globals (snd (interp L p s)) !! x).
  Proof.
    revert s. induction p as [v|e|y k IH|y v k IH|y key v k IH|pkg k IH|fn args kw k IH
                             |self meth args kw k IH|self kw f IHf k IH|vs k IH|cmd k IH|a k IH];
      intros s Hs; cbn [interp]; auto.
    - destruct (globals s !! y); auto.
    - apply IH. simpl. destruct (decide (y = x)) as [Heq|Hne];
        [subst; rewrite lookup_insert_eq | rewrite lookup_insert_ne by done]; eauto.
    - destruct (globals s !! y) as [[]|]; auto.
      apply IH. simpl. destruct (decide (y = x)) as [Heq|Hne];
        [subst; rewrite lookup_insert_eq | rewrite lookup_insert_ne by done]; eauto.
    - destruct (importable pkg (installed s)); auto.
    - destruct (call_fn L fn args kw (hidden s)) as [[e|v] h]; auto.
    - destruct self; auto.
      destruct (call_method L meth _ args kw (hidden s)) as [[e|[o v]] h]; auto.
    - destruct self; auto.
      pose proof (run_strategy_keeps (fun point => interp L (f point)) x
                    (fun point s => IHf point s)
                    (maximize L (VObj cls attrs) kw (hidden s)) s Hs) as Hrun.
      destruct (run_strategy _ _ s) as [[e|v] s1]; auto.
    - destruct (shell L cmd (installed s) (hidden s)) as [i h]. auto.
  Qed.

Lemma binds_lookup B g s x :
    binds B s -> existsb (String.eqb x) B = true ->
    globals (over g s) !! x = globals s !! x.
  Proof.
    intros HB Hx. destruct (HB x Hx) as [v Hv]. simpl.
    rewrite Hv. by apply lookup_union_Some_l.
  Qed.

Lemma binds_cons B x v s :
    binds B s -> binds (x :: B) (set_globals (<[x := v]> (globals s)) s).
  Proof.
    intros HB y Hy. simpl in *. destruct (decide (x = y)) as [Heq|Hne].
    - subst. rewrite lookup_insert_eq. eauto.
    - rewrite lookup_insert_ne by done. apply HB.
      apply orb_true_iff in Hy as [Hy|Hy]; [|done].
      apply String.eqb_eq in Hy. congruence.
  Qed.

Lemma over_assign g s x v :
    set_globals (<[x := v]> (globals (over g s))) (over g s) =
    over g (set_globals (<[x := v]> (globals s)) s).
  Proof. unfold over, set_globals. simpl. by rewrite insert_union_l. Qed.

Lemma over_log g ev s : log ev (over g s) = over g (log ev s).
  Proof. reflexivity. Qed.
Lemma over_hidden g h s : set_hidden h (over g s) = over g (set_hidden h s).
  Proof. reflexivity. Qed.
Lemma over_stdout g o s : set_stdout o (over g s) = over g (set_stdout o s).
  Proof. reflexivity. Qed.
Lemma over_installed g i s : set_installed i (over g s) = over g (set_installed i s).
  Proof. reflexivity. Qed.
Lemma over_warn_filters g w s :
    set_warn_filters w (over g s) = over g (set_warn_filters w s).
  Proof. reflexivity. Qed.

Lemma run_strategy_over g B (objective : kwargs -> state -> result * state) :
    (forall point s, binds B s -> binds B (snd (objective point s))) ->
    (forall point, lifts g B (objective point)) ->
    forall t, lifts g B (run_strategy objective t).
  Proof.
    intros Hkeep Hobj t. induction t as [r h|point k IH]; intros s HB; simpl; [done|].
    unfold as_inner.
    change (set_trace [] (over g s)) with (over g (set_trace [] s)).
    rewrite (Hobj point (set_trace [] s)) by done.
    specialize (Hkeep point (set_trace [] s) HB).
    destruct (objective point (set_trace [] s)) as [r s1]. simpl in *.
    apply (IH r (hidden s1) (set_trace (trace s ++ map EvInner (trace s1)) s1)). done.
  Qed.

Theorem closed_over (B : list string) (p : prog) (g : gmap string value) :
    closed B p -> lifts g B (interp L p).
  Proof.
    induction 1 as [B v|B e|B x k Hx _ IH|B x v k _ IH|B x key v k Hx _ IH|B pkg k _ IH
                   |B fn args kw k _ IH|B self meth args kw k _ IH
                   |B self kw f k _ IHf _ IH|B vs k _ IH|B cmd k _ IH|B a k _ IH];
      intros s HB; cbn [interp]; auto.
    - rewrite (binds_lookup B g s x) by done.
      destruct (globals s !! x); [by apply IH | done].
    - rewrite over_assign. apply IH. by apply binds_cons.
    - rewrite (binds_lookup B g s x) by done.
      destruct (globals s !! x) as [[]|] eqn:E; try done.
      rewrite over_assign, over_log. apply IH.
      intros y Hy. simpl. destruct (decide (x = y)) as [Heq|Hne];
        [subst; rewrite lookup_insert_eq | rewrite lookup_insert_ne by done]; eauto.
    - change (installed (over g s)) with (installed s).
      destruct (importable pkg (installed s)); [|done]. rewrite over_log. by apply IH.
    - change (hidden (over g s)) with (hidden s).
      destruct (call_fn L fn args kw (hidden s)) as [[e|v] h]; [done|].
      rewrite over_hidden, over_log. by apply IH.
    - destruct self; try done. change (hidden (over g s)) with (hidden s).
      destruct (call_method L meth _ args kw (hidden s)) as [[e|[o v]] h]; [done|].
      rewrite over_hidden, over_log. by apply IH.
    - destruct self; try done. change (hidden (over g s)) with (hidden s).
      rewrite (run_strategy_over g B (fun point => interp L (f point))); [| |done|done].
      + pose proof (fun x Hx => run_strategy_keeps (fun point => interp L (f point)) x
                      (fun point s => interp_keeps (f point) x s)
                      (maximize L (VObj cls attrs) kw (hidden s)) s (HB x Hx)) as Hkeep.
        destruct (run_strategy _ _ s) as [[e|v] s1]; [done|].
        cbn [fst snd]. rewrite over_log. apply IH.
        intros x Hx. by apply Hkeep.
      + intros point s0 HB0 x Hx. apply interp_keeps. auto.
    - change (stdout (over g s)) with (stdout s). rewrite over_stdout. by apply IH.
    - change (hidden (over g s)) with (hidden s).
      change (installed (over g s)) with (installed s).
      destruct (shell L cmd (installed s) (hidden s)) as [i h].
      rewrite over_installed, over_hidden, over_log. by apply IH.
    - change (warn_filters (over g s)) with (warn_filters s).
      rewrite over_warn_filters, over_log. by apply IH.
  Qed.
End Closed.

(** ** The analyses, compositionally *)

Lemma performs_bind (ok : effect -> bool) (p : prog) (q : value -> prog) :
  performs ok p -> (forall v, performs ok (q v)) -> performs ok (bind p q).
Proof. induction 1; intros Hq; simpl; try constructor; auto. Qed.

Lemma closed_weaken (B B' : list string) (p : prog) :
  (forall x, existsb (String.eqb x) B = true -> existsb (String.eqb x) B' = true) ->
  closed B p -> closed B' p.
Proof.
  intros Hsub Hp. revert B' Hsub.
  induction Hp; intros B' Hsub; constructor; auto.
  apply IHHp. intros y Hy. simpl in *.
  destruct (String.eqb y x); simpl in *; auto.
Qed.

Lemma closed_bind (B : list string) (p : prog) (q : value -> prog) :
  closed B p -> (forall v, closed B (q v)) -> closed B (bind p q).
Proof.
  induction 1; intros Hq; simpl; try constructor; auto.
  apply IHclosed. intros w. apply (closed_weaken B); [|done].
  intros y Hy. simpl. rewrite Hy. apply orb_true_r.
Qed.

Lemma closed_bind_assoc (B : list string) (p : prog) (q r : value -> prog) :
  closed B (bind p (fun v => bind (q v) r)) -> closed B (bind (bind p q) r).
Proof.
  revert B. induction p; intros B Hc; simpl in *; auto;
    inversion Hc; subst; constructor; auto.
Qed.

Ltac head_scrutinee p :=
  lazymatch p with
  | bind ?p' _ => head_scrutinee p'
  | match ?v with _ => _ end => v
  end.

(** Decides [performs] and [closed] on a program without free names of
    cells in it, by cases on the values it inspects. *)
Ltac walk :=
  repeat (unfold unpack4, unpack_mapping, Notebook.np_linspace, import_as, from_import, setitem,
                 name, assign, print, getattr, getitem, call, py_int;
          cbn [bind];
          lazymatch goal with
          | |- forall _, _ => intro
          | |- _ _ (bind _ _) => let p := lazymatch goal with |- _ _ ?p => p end in
                                 let v := head_scrutinee p in destruct v
          | |- _ _ (match ?v with _ => _ end) => destruct v
          | |- performs _ _ => constructor; try first [reflexivity | assumption]
          | |- closed _ _ => constructor; try first [reflexivity | assumption]
          end).

Section Helpers.
Variables (ok : effect -> bool) (B : list string).

Lemma performs_name x : ok (ERead x) = true -> performs ok (name x).
  Proof. intros. walk. Qed.
Lemma performs_assign x v : ok (EAssign x) = true -> performs ok (assign x v).
  Proof. intros. walk. Qed.
Lemma performs_print vs : ok EPrint = true -> performs ok (print vs).
  Proof. intros. walk. Qed.
Lemma performs_import_as pkg x :
    ok (EImport pkg) = true -> ok (EAssign x) = true -> performs ok (import_as pkg x).
  Proof. intros. walk. Qed.
Lemma performs_from_import pkg q x :
    ok (EImport pkg) = true -> ok (EAssign x) = true -> performs ok (from_import pkg q x).
  Proof. intros. walk. Qed.
Lemma performs_getattr o a : performs ok (getattr o a).
  Proof. walk. Qed.
Lemma performs_getitem o key : performs ok (getitem o key).
  Proof. walk. Qed.
Lemma performs_setitem x key v : ok (ESetItem x key) = true -> performs ok (setitem x key v).
  Proof. intros. walk. Qed.
Lemma performs_call f args kw : ok ECall = true -> performs ok (call f args kw).
  Proof. intros. walk. Qed.
Lemma performs_py_int v : ok ECall = true -> performs ok (py_int v).
  Proof. intros. walk. Qed.
Lemma performs_unpack4 v k :
    (forall a b c d, performs ok (k a b c d)) -> performs ok (unpack4 v k).
  Proof. intros. walk; auto. Qed.
Lemma performs_unpack_mapping v k :
    (forall kw, performs ok (k kw)) -> performs ok (unpack_mapping v k).
  Proof. intros. walk; auto. Qed.
Lemma performs_np_linspace a b n :
    ok (ERead "np") = true -> ok ECall = true -> performs ok (Notebook.np_linspace a b n).
  Proof. intros. walk. Qed.

Lemma closed_name x : existsb (String.eqb x) B = true -> closed B (name x).
  Proof. intros. walk. Qed.
Lemma closed_getattr o a : closed B (getattr o a).
  Proof. walk. Qed.
Lemma closed_getitem o key : closed B (getitem o key).
  Proof. walk. Qed.
Lemma closed_call f args kw : closed B (call f args kw).
  Proof. walk. Qed.
Lemma closed_py_int v : closed B (py_int v).
  Proof. walk. Qed.
Lemma closed_unpack4 v k :
    (forall a b c d, closed B (k a b c d)) -> closed B (unpack4 v k).
  Proof. intros. walk; auto. Qed.
End Helpers.

Import Notebook.

Lemma objective_performs (ok : effect -> bool) (point : kwargs) :
  ok (ERead "XGBClassifier") = true -> ok (ERead "X_train") = true ->
  ok (ERead "y_train") = true -> ok (ERead "X_test") = true ->
  ok (ERead "accuracy_score") = true -> ok (ERead "y_test") = true ->
  ok ECall = true -> ok (EMethod "fit") = true -> ok (EMethod "predict") = true ->
  performs ok (apply_xgb_evaluate point).
Proof. intros. unfold apply_xgb_evaluate, xgb_evaluate. walk. Qed.

Lemma objective_closed (B : list string) (point : kwargs) :
  existsb (String.eqb "XGBClassifier") B = true -> existsb (String.eqb "X_train") B = true ->
  existsb (String.eqb "y_train") B = true -> existsb (String.eqb "X_test") B = true ->
  existsb (String.eqb "accuracy_score") B = true -> existsb (String.eqb "y_test") B = true ->
  closed B (apply_xgb_evaluate point).
Proof. intros. unfold apply_xgb_evaluate, xgb_evaluate. walk. Qed.

(** [performs] on a cell, statement by statement. *)
Ltac performs_cell :=
  repeat lazymatch goal with
         | |- forall _, _ => intro
         | |- performs _ (bind _ _) => apply performs_bind
         | |- performs _ (name _) => apply performs_name; reflexivity
         | |- performs _ (assign _ _) => apply performs_assign; reflexivity
         | |- performs _ (print _) => apply performs_print; reflexivity
         | |- performs _ (import_as _ _) => apply performs_import_as; reflexivity
         | |- performs _ (from_import _ _ _) => apply performs_from_import; reflexivity
         | |- performs _ (getattr _ _) => apply performs_getattr
         | |- performs _ (getitem _ _) => apply performs_getitem
         | |- performs _ (setitem _ _ _) => apply performs_setitem; reflexivity
         | |- performs _ (call _ _ _) => apply performs_call; reflexivity
         | |- performs _ (py_int _) => apply performs_py_int; reflexivity
         | |- performs _ (unpack4 _ _) => apply performs_unpack4
         | |- performs _ (unpack_mapping _ _) => apply performs_unpack_mapping
         | |- performs _ (np_linspace _ _ _) => apply performs_np_linspace; reflexivity
         | |- performs _ (apply_xgb_evaluate _) => apply objective_performs; reflexivity
         | |- performs _ _ => constructor; try reflexivity
         end.

(** [closed] on a cell: a statement hands the names it binds on to the
    statements after it. *)
Ltac closed_cell :=
  repeat lazymatch goal with
         | |- forall _, _ => intro
         | |- closed _ (bind (assign _ _) _) => unfold assign at 1; cbn [bind]; constructor
         | |- closed _ (bind (import_as _ _) _) =>
             unfold import_as at 1; cbn [bind]; do 2 constructor
         | |- closed _ (bind (from_import _ _ _) _) =>
             unfold from_import at 1; cbn [bind]; do 2 constructor
         | |- closed _ (bind (print _) _) => unfold print at 1; cbn [bind]; constructor
         | |- closed _ (bind (setitem _ _ _) _) =>
             unfold setitem at 1; cbn [bind]; constructor; [reflexivity|]
         | |- closed _ (bind (Method _ _ _ _ _) _) => cbn [bind]; constructor
         | |- closed _ (bind (Maximize _ _ _ _) _) => cbn [bind]; constructor
         | |- closed _ (bind (unpack4 _ _) _) => unfold unpack4 at 1
         | |- closed _ (bind (bind _ _) _) => apply closed_bind_assoc
         | |- closed _ (bind (Shell _ _) _) => cbn [bind]; constructor
         | |- closed _ (bind (FilterWarnings _ _) _) => cbn [bind]; constructor
         | |- closed _ (bind (match ?v with _ => _ end) _) => destruct v; cbn [bind]
         | |- closed _ (match ?v with _ => _ end) => destruct v
         | |- closed _ (bind (np_linspace _ _ _) _) => unfold np_linspace at 1; cbn [bind]
         | |- closed _ (bind _ _) => apply closed_bind
         | |- closed _ (name _) => apply closed_name; reflexivity
         | |- closed _ (assign _ _) => unfold assign; constructor
         | |- closed _ (print _) => unfold print; constructor
         | |- closed _ (getattr _ _) => apply closed_getattr
         | |- closed _ (getitem _ _) => apply closed_getitem
         | |- closed _ (call _ _ _) => apply closed_call
         | |- closed _ (py_int _) => apply closed_py_int
         | |- closed _ (unpack4 _ _) => apply closed_unpack4
         | |- closed _ (apply_xgb_evaluate _) => apply objective_closed; reflexivity
         | |- closed _ _ => constructor; try reflexivity
         end.


(** ** The objective function *)

Ltac events_norm :=
  unfold new_events; cbn [trace snd fst length];
  rewrite <- ?app_assoc; rewrite ?drop_app_length; cbn [app map shape_of].

Lemma objective_calls_only (point : kwargs) : performs calls_only (apply_xgb_evaluate point).
Proof. by apply objective_performs. Qed.

Lemma calls_only_visible (L : Library) (p : prog) (s : state) :
  performs calls_only p -> visible (snd (interp L p s)) = visible s.
Proof. intros Hp. by apply (performs_frame visible calls_only L). Qed.

Lemma objective_events (L : Library) (point : kwargs) (s : state)
    (X_train y_train X_test y_test : value) :
  objective_names (globals s) X_train y_train X_test y_test ->
  Forall (objective_event X_train y_train X_test y_test)
    (new_events s (interp L (apply_xgb_evaluate point) s)).
Proof.
  destruct (interp L (apply_xgb_evaluate point) s) as [r s'] eqn:H.
  intros (HX & Ha & H1 & H2 & H3 & H4). destruct s as [g i w o t h].
  cbn [globals] in HX, Ha, H1, H2, H3, H4.
  exec H.
  all: events_norm; try rewrite drop_all.
  all: repeat match goal with |- Forall _ _ => constructor end.
  all: unfold objective_event; eauto 10.
Qed.

Lemma maximize_summary (L : Library) (t : strategy) (s : state) (r : result) (s1 : state) :
  run_strategy (fun point => interp L (apply_xgb_evaluate point)) t s = (r, s1) ->
  exists inner h,
    s1 = set_hidden h (set_trace (trace s ++ map EvInner inner) s) /\
    (forall X_train y_train X_test y_test,
       objective_names (globals s) X_train y_train X_test y_test ->
       Forall (objective_event X_train y_train X_test y_test) inner).
Proof.
  revert s. induction t as [r0 h0|point k IH]; intros s H; simpl in H.
  - inversion H; subst. exists [], h0. split; [|constructor].
    destruct s. unfold set_hidden, set_trace. simpl. by rewrite app_nil_r.
  - unfold as_inner in H.
    pose proof (calls_only_visible L _ (set_trace [] s) (objective_calls_only point)) as Hvis.
    pose proof (objective_events L point (set_trace [] s)) as Hev.
    destruct (interp L (apply_xgb_evaluate point) (set_trace [] s)) as [r0 s0].
    apply IH in H as (inner & h & -> & Hinner).
    exists (trace s0 ++ inner), h. destruct s as [g i w o t h1], s0 as [g0 i0 w0 o0 t0 h2].
    unfold visible, new_events, set_hidden, set_trace in *. simpl in *.
    inversion Hvis; subst. split.
    + by rewrite map_app, app_assoc.
    + intros X_train y_train X_test y_test Hn. apply Forall_app. split; auto.
Qed.

(** ** Runs that complete *)

Section Completed.
Variable L : Library.
  Implicit Types (s : state) (v r : value).

Lemma bind_ok p q s r s' :
    interp L (bind p q) s = (inr r, s') ->
    exists v s1, interp L p s = (inr v, s1) /\ interp L (q v) s1 = (inr r, s').
  Proof.
    rewrite interp_bind. destruct (interp L p s) as [[e|v] s1]; [discriminate|]. eauto.
  Qed.

Lemma name_ok x s r s' :
    interp L (name x) s = (inr r, s') -> globals s !! x = Some r /\ s' = s.
  Proof. intros H. destruct s. exec H; auto. Qed.

Lemma assign_ok x v s r s' :
    interp L (assign x v) s = (inr r, s') ->
    s' = set_globals (<[x := v]> (globals s)) s.
  Proof. cbn. intros H. by inversion H. Qed.

Lemma print_ok vs s r s' :
    interp L (print vs) s = (inr r, s') -> s' = set_stdout (stdout s ++ [vs]) s.
  Proof. cbn. intros H. by inversion H. Qed.

Lemma import_as_ok pkg x s r s' :
    interp L (import_as pkg x) s = (inr r, s') ->
    importable pkg (installed s) = true /\
    s' = set_globals (<[x := VModule pkg]> (globals s)) (log (EvImport pkg true) s).
  Proof.
    cbn. destruct (importable pkg (installed s)); [|discriminate].
    intros H. by inversion H.
  Qed.

Lemma from_import_ok pkg q x s r s' :
    interp L (from_import pkg q x) s = (inr r, s') ->
    importable pkg (installed s) = true /\
    s' = set_globals (<[x := VFunc q]> (globals s)) (log (EvImport pkg true) s).
  Proof.
    cbn. destruct (importable pkg (installed s)); [|discriminate].
    intros H. by inversion H.
  Qed.

Lemma getattr_ok o a s r s' :
    interp L (getattr o a) s = (inr r, s') -> attribute o a = Some r /\ s' = s.
  Proof.
    unfold getattr. destruct (attribute o a); cbn; [|discriminate].
    intros H. by inversion H.
  Qed.

Lemma getitem_ok o key s r s' :
    interp L (getitem o key) s = (inr r, s') ->
    exists kvs, o = VDict kvs /\ dict_get key kvs = Some r /\ s' = s.
  Proof.
    unfold getitem. destruct o; cbn; try discriminate.
    destruct (dict_get key kvs) eqn:E; cbn; [|discriminate].
    intros H. inversion H; subst. by exists kvs.
  Qed.

Lemma setitem_ok x key v s r s' :
    interp L (setitem x key v) s = (inr r, s') ->
    exists kvs, globals s !! x = Some (VDict kvs) /\
      s' = log (EvSetItem x key v)
             (set_globals (<[x := VDict (dict_set key v kvs)]> (globals s)) s).
  Proof.
    cbn. destruct (globals s !! x) as [[]|]; try discriminate.
    intros H. inversion H; subst. by eexists.
  Qed.

Lemma call_ok f args kw s r s' :
    interp L (call f args kw) s = (inr r, s') ->
    exists fn h, f = VFunc fn /\ call_fn L fn args kw (hidden s) = (inr r, h) /\
      s' = log (EvCall fn args kw (inr r)) (set_hidden h s).
  Proof.
    unfold call. destruct f; cbn; try discriminate.
    destruct (call_fn L qualname args kw (hidden s)) as [[e|v] h] eqn:E; [discriminate|].
    intros H. inversion H; subst. by exists qualname, h.
  Qed.

Lemma py_int_ok v s r s' :
    interp L (py_int v) s = (inr r, s') ->
    (exists n, to_int v = Some (inr n) /\ r = VInt n /\ s' = s) \/
    (exists h, to_int v = None /\ call_fn L "builtins.int" [v] [] (hidden s) = (inr r, h) /\
       s' = log (EvCall "builtins.int" [v] [] (inr r)) (set_hidden h s)).
  Proof.
    unfold py_int. destruct (to_int v) as [[e|n]|]; cbn; try discriminate.
    - intros H. inversion H; subst. left. by exists n.
    - destruct (call_fn L "builtins.int" [v] [] (hidden s)) as [[e|w] h]; [discriminate|].
      intros H. inversion H; subst. right. by exists h.
  Qed.

Lemma unpack4_ok v k s r s' :
    interp L (unpack4 v k) s = (inr r, s') ->
    exists a b c d, items v = inr [a; b; c; d] /\ interp L (k a b c d) s = (inr r, s').
  Proof.
    unfold unpack4. destruct (items v) as [e|[|a [|b [|c [|d [|]]]]]]; cbn; try discriminate.
    eauto 8.
  Qed.

Lemma unpack_mapping_ok v k s r s' :
    interp L (unpack_mapping v k) s = (inr r, s') ->
    exists kvs, v = VDict kvs /\ interp L (k kvs) s = (inr r, s').
  Proof. unfold unpack_mapping. destruct v; cbn; try discriminate. eauto. Qed.

Lemma Method_ok self meth args kw k s r s' :
    interp L (Method self meth args kw k) s = (inr r, s') ->
    exists self' v h,
      call_method L meth self args kw (hidden s) = (inr (self', v), h) /\
      interp L (k self' v) (log (EvMethod meth self args kw (inr v)) (set_hidden h s))
        = (inr r, s').
  Proof.
    rewrite interp_Method. destruct self; try discriminate.
    destruct (call_method L meth _ args kw (hidden s)) as [[e|[o v]] h]; [discriminate|].
    eauto 8.
  Qed.

Lemma Shell_ok cmd k s r s' :
    interp L (Shell cmd k) s = (inr r, s') ->
    exists i h, shell L cmd (installed s) (hidden s) = (i, h) /\
      interp L k (log (EvShell cmd) (set_hidden h (set_installed i s))) = (inr r, s').
  Proof. rewrite interp_Shell. destruct (shell L cmd (installed s) (hidden s)). eauto. Qed.

Lemma pair_ok (r1 r2 : result) s1 s2 : (r1, s1) = (r2, s2) -> r1 = r2 /\ s1 = s2.
  Proof. intros H. by inversion H. Qed.

Lemma Maximize_ok self kw k s r s' :
    interp L (Maximize self kw apply_xgb_evaluate k) s = (inr r, s') ->
    exists inner h self',
      (forall X_train y_train X_test y_test,
         objective_names (globals s) X_train y_train X_test y_test ->
         Forall (objective_event X_train y_train X_test y_test) inner) /\
      interp L (k self')
        (log (EvMethod "maximize" self [] kw (inr self'))
           (set_hidden h (set_trace (trace s ++ map EvInner inner) s))) = (inr r, s').
  Proof.
    rewrite interp_Maximize. destruct self; try discriminate.
    destruct (run_strategy _ _ s) as [[e|self'] s1] eqn:E; [discriminate|].
    apply maximize_summary in E as (inner & h & -> & Hinner). eauto 8.
  Qed.
End Completed.

(** Symbolic execution of [H : interp L p s = (inr r, s')], a run that
    completed: [H] becomes what the libraries answered on the way. *)
Ltac run H :=
  state_cbn H;
  lazymatch type of H with
  | interp _ (bind _ _) _ = (inr _, _) =>
      let E := fresh "E" in
      apply bind_ok in H as (? & ? & E & H); run E; run H
  | interp _ (Ret _) _ = (inr _, _) =>
      rewrite interp_Ret in H;
      let H1 := fresh in let H2 := fresh in
      pose proof (pair_ok _ _ _ _ H) as [H1 H2]; clear H;
      injection H1 as H1; subst
  | interp _ (name _) _ = (inr _, _) =>
      apply name_ok in H as [H ->]; lookup_cbn H;
      try match goal with
          | Hc : ?c = Some _ |- _ =>
              tryif constr_eq Hc H then fail
              else lazymatch type of H with c = Some _ => rewrite Hc in H end
          end;
      lazymatch type of H with
      | Some _ = Some _ => injection H as H; subst
      | None = Some _ => discriminate H
      | _ => idtac
      end
  | interp _ (assign _ _) _ = (inr _, _) => apply assign_ok in H as ->
  | interp _ (print _) _ = (inr _, _) => apply print_ok in H as ->
  | interp _ (import_as _ _) _ = (inr _, _) =>
      apply import_as_ok in H as [H ->]; state_cbn H
  | interp _ (from_import _ _ _) _ = (inr _, _) =>
      apply from_import_ok in H as [H ->]; state_cbn H
  | interp _ (getattr _ _) _ = (inr _, _) => apply getattr_ok in H as [H ->]; state_cbn H;
      lazymatch type of H with
      | Some _ = Some _ => injection H as H; subst
      | _ => idtac
      end
  | interp _ (getitem _ _) _ = (inr _, _) =>
      apply getitem_ok in H as (? & -> & H & ->)
  | interp _ (setitem _ _ _) _ = (inr _, _) =>
      let E := fresh "E" in
      apply setitem_ok in H as (? & E & ->); lookup_cbn E;
      lazymatch type of E with
      | Some _ = Some _ => injection E as E; subst
      | _ => idtac
      end
  | interp _ (call _ _ _) _ = (inr _, _) =>
      let E := fresh "E" in
      apply call_ok in H as (? & ? & E & H & ->);
      first [ injection E as E; subst | subst ]; state_cbn H
  | interp _ (py_int _) _ = (inr _, _) =>
      let E := fresh "E" in
      apply py_int_ok in H as [(? & H & -> & ->)|(? & E & H & ->)]
  | interp _ (unpack4 _ _) _ = (inr _, _) =>
      let E := fresh "E" in
      apply unpack4_ok in H as (? & ? & ? & ? & E & H); run H
  | interp _ (unpack_mapping _ _) _ = (inr _, _) =>
      apply unpack_mapping_ok in H as (? & -> & H); run H
  | interp _ (Method _ _ _ _ _) _ = (inr _, _) =>
      let E := fresh "E" in
      apply Method_ok in H as (? & ? & ? & E & H); state_cbn E; run H
  | interp _ (Maximize _ _ _ _) _ = (inr _, _) =>
      let inner := fresh "inner" in
      let Hinner := fresh "Hinner" in
      let HM := fresh in
      pose proof (Maximize_ok _ _ _ _ _ _ _ H) as HM; clear H;
      destruct HM as (inner & ? & ? & Hinner & H);
      cbn [globals] in Hinner; run H
  | interp _ (Shell _ _) _ = (inr _, _) =>
      let E := fresh "E" in
      apply Shell_ok in H as (? & ? & E & H); state_cbn E; run H
  | interp _ (FilterWarnings _ _) _ = (inr _, _) => rewrite interp_FilterWarnings in H; run H
  | interp _ (Assign _ _ _) _ = (inr _, _) => rewrite interp_Assign in H; run H
  | interp _ _ _ = (inr _, _) =>
      progress unfold Notebook.cell_load_data, Notebook.cell_grid_search,
        Notebook.cell_best_model, Notebook.cell_random_search, Notebook.cell_show_score,
        Notebook.cell_pip_install, Notebook.cell_suppress_warnings, Notebook.cell_bayes_opt,
        Notebook.cell_bayes_data, Notebook.cell_bayes_optimise, Notebook.cell_bayes_results,
        Notebook.np_linspace, Notebook.xgb_evaluate in H;
      run H
  end.

Lemma run_cells_ok (L : Library) (c : prog) (cs : list prog) (s : state) (r : value) s' :
  run_cells L (c :: cs) s = (inr r, s') ->
  exists v s1, interp L c s = (inr v, s1) /\ run_cells L cs s1 = (inr r, s').
Proof.
  simpl. destruct (interp L c s) as [[e|v] s1]; [discriminate|]. eauto.
Qed.

(** The same for [H : run_cells L cs s = (inr r, s')]. *)
Ltac run_cells H :=
  lazymatch type of H with
  | Notebook.run_cells _ (_ :: _) _ = (inr _, _) =>
      let C := fresh "C" in
      apply run_cells_ok in H as (? & ? & C & H); run C; run_cells H
  | Notebook.run_cells _ [] _ = (inr _, _) =>
      cbn [Notebook.run_cells] in H;
      let H1 := fresh in let H2 := fresh in
      pose proof (pair_ok _ _ _ _ H) as [H1 H2]; clear H;
      injection H1 as H1; subst
  end.


(** ** Truncation of [max_depth] *)

Lemma trunc_floor (q : Q) : (0 <= q)%Q -> trunc q = Qfloor q.
Proof.
  destruct q as [n d]. unfold Qle, trunc, Qfloor. simpl. intros Hn.
  apply Z.quot_div_nonneg; lia.
Qed.

Lemma cell_bayes_results_reports (L : Library) (s : state) (cls : string)
    (attrs best kvs : kwargs) (d : Q) :
  globals s !! "xgb_bo" = Some (VObj cls attrs) ->
  dict_get "max" attrs = Some (VDict best) ->
  dict_get "params" best = Some (VDict kvs) ->
  dict_get "max_depth" kvs = Some (VFloat (FNum d)) ->
  reports L s kvs (trunc d).
Proof.
  intros Hbo Hmax Hparams Hdepth. unfold reports.
  destruct (interp L cell_bayes_results s) as [r s'] eqn:H.
  destruct s as [g i w o t h]. cbn [globals stdout] in *.
  rewrite <- (overlay_nil g) in H.
  unfold cell_bayes_results in H. exec H.
  all: try congruence.
  all: simplify_eq; cbn [to_int] in *; simplify_eq.
  eexists. split; [reflexivity|]. cbn [globals stdout]. split; [|reflexivity].
  by rewrite lookup_overlay.
Qed.

Ltac state_cbn_goal :=
  cbv delta [set_globals set_installed set_warn_filters set_stdout set_trace set_hidden log];
  cbn [globals installed warn_filters stdout trace hidden fst snd attribute].
Ltac go := cbv beta iota zeta; cbn [bind]; state_cbn_goal.

Lemma printed_spec (s : state) (out : result * state) (lines : list (list value)) :
  stdout (snd out) = stdout s ++ lines -> printed s out = lines.
Proof. intros H. unfold printed. by rewrite H, drop_app_length. Qed.

Lemma new_events_spec (s : state) (out : result * state) (evs : list event) :
  trace (snd out) = trace s ++ evs -> new_events s out = evs.
Proof. intros H. unfold new_events. by rewrite H, drop_app_length. Qed.

Lemma dict_set_spec (key : string) (v : value) (kvs : kwargs) :
  is_Some (dict_get key kvs) ->
  map fst (dict_set key v kvs) = map fst kvs /\
  dict_get key (dict_set key v kvs) = Some v /\
  forall key', key' <> key -> dict_get key' (dict_set key v kvs) = dict_get key' kvs.
Proof.
  induction kvs as [|[k w] kvs IH]; simpl; [by intros [? ?]|].
  destruct (String.eqb k key) eqn:E.
  - intros _. simpl. rewrite E. split; [done|]. split; [done|].
    intros key' Hkey'. apply String.eqb_eq in E. subst.
    destruct (String.eqb key key') eqn:E'; [|done].
    apply String.eqb_eq in E'. congruence.
  - intros Hs. destruct (IH Hs) as (H1 & H2 & H3). simpl. rewrite E.
    split; [by rewrite H1|]. split; [done|].
    intros key' Hkey'. destruct (String.eqb k key'); auto.
Qed.

(** What the results section does where the best point has a float
    [max_depth]. *)
Lemma results_truncate (L : Library) (s : state) (cls : string)
    (attrs best kvs : kwargs) (d : Q) :
  globals s !! "xgb_bo" = Some (VObj cls attrs) ->
  dict_get "max" attrs = Some (VDict best) ->
  dict_get "params" best = Some (VDict kvs) ->
  dict_get "max_depth" kvs = Some (VFloat (FNum d)) ->
  exists params,
    fst (interp L cell_bayes_results s) = inr VNone /\
    globals (snd (interp L cell_bayes_results s)) !! "params" = Some (VDict params) /\
    printed s (interp L cell_bayes_results s) = [[VStr "Optimized parameters:"; VDict params]] /\
    map fst params = map fst kvs /\
    dict_get "max_depth" params = Some (VInt (trunc d)) /\
    forall key, key <> "max_depth" -> dict_get key params = dict_get key kvs.
Proof.
  intros Hbo Hmax Hparams Hdepth.
  destruct (cell_bayes_results_reports L s cls attrs best kvs d Hbo Hmax Hparams Hdepth)
    as (s' & -> & Hp & Hout).
  exists (dict_set "max_depth" (VInt (trunc d)) kvs). cbn [fst snd].
  split; [done|]. split; [exact Hp|]. split; [by apply printed_spec|].
  apply dict_set_spec. by rewrite Hdepth.
Qed.

(** The first thing [xgb_evaluate] asks of the libraries, with a float
    [max_depth] and its names bound: a classifier of the truncated depth. *)
Lemma xgb_evaluate_first_call (L : Library) (s : state) (d : Q)
    (gamma colsample_bytree learning_rate X_train y_train X_test y_test : value) :
  objective_names (globals s) X_train y_train X_test y_test ->
  head (new_events s
          (interp L (xgb_evaluate (VFloat (FNum d)) gamma colsample_bytree learning_rate) s)) =
  Some (EvCall "xgboost.XGBClassifier" []
          (xgb_params (VInt (trunc d)) gamma colsample_bytree learning_rate)
          (fst (call_fn L "xgboost.XGBClassifier" []
                  (xgb_params (VInt (trunc d)) gamma colsample_bytree learning_rate)
                  (hidden s)))).
Proof.
  intros (HX & _). unfold xgb_evaluate, py_int, name, call. cbn [to_int bind].
  rewrite interp_Name, HX. cbv beta iota. cbn [bind]. rewrite interp_Call.
  destruct (call_fn L _ [] _ (hidden s)) as [[e|model] h]; cbn [fst].
  - rewrite (new_events_spec s _ [EvCall "xgboost.XGBClassifier" []
               (xgb_params (VInt (trunc d)) gamma colsample_bytree learning_rate) (inl e)]);
      done.
  - match goal with
    | |- context [interp L ?p ?s1] =>
        destruct (interp_propagates L p s1) as (evs & Hevs & _);
        rewrite (new_events_spec s (interp L p s1)
                   (EvCall "xgboost.XGBClassifier" []
                      (xgb_params (VInt (trunc d)) gamma colsample_bytree learning_rate)
                      (inr model) :: evs)); [done|]
    end.
    rewrite Hevs. cbn [log set_trace set_hidden trace]. by rewrite <- app_assoc.
Qed.

(** C10: [xgb_evaluate] truncates its [max_depth] argument with [int()].
    For two values of [max_depth] within the bounds (3, 10) that have the
    same integer floor, and where the names the function reads are bound:
    the first thing the function does with the libraries is to build an
    [XGBClassifier] whose [max_depth] is that floor, an integer; the two
    runs of the function are the same run (same classifier, same calls,
    same accuracy), other arguments being equal; and the results section
    applies the same truncation to a best point with that [max_depth]:
    the mapping it binds to [params] and prints has the floor as its
    [max_depth], and the other entries and the order of the keys as the
    optimiser found them. *)
Theorem max_depth_is_truncated (L : Library) (s : state) (d1 d2 : Q)
    (gamma colsample_bytree learning_rate X_train y_train X_test y_test : value) :
  (3 <= d1)%Q -> (d1 <= 10)%Q -> (3 <= d2)%Q -> (d2 <= 10)%Q ->
  Qfloor d1 = Qfloor d2 ->
  objective_names (globals s) X_train y_train X_test y_test ->
  head (new_events s
          (interp L (xgb_evaluate (VFloat (FNum d1)) gamma colsample_bytree learning_rate) s)) =
    Some (EvCall "xgboost.XGBClassifier" []
            (xgb_params (VInt (Qfloor d1)) gamma colsample_bytree learning_rate)
            (fst (call_fn L "xgboost.XGBClassifier" []
                    (xgb_params (VInt (Qfloor d1)) gamma colsample_bytree learning_rate)
                    (hidden s)))) /\
  interp L (xgb_evaluate (VFloat (FNum d1)) gamma colsample_bytree learning_rate) s =
  interp L (xgb_evaluate (VFloat (FNum d2)) gamma colsample_bytree learning_rate) s /\
  (forall (s0 : state) (cls : string) (attrs best kvs : kwargs),
     globals s0 !! "xgb_bo" = Some (VObj cls attrs) ->
     dict_get "max" attrs = Some (VDict best) ->
     dict_get "params" best = Some (VDict kvs) ->
     dict_get "max_depth" kvs = Some (VFloat (FNum d1)) ->
     exists params,
       fst (interp L cell_bayes_results s0) = inr VNone /\
       globals (snd (interp L cell_bayes_results s0)) !! "params" = Some (VDict params) /\
       printed s0 (interp L cell_bayes_results s0) =
         [[VStr "Optimized parameters:"; VDict params]] /\
       map fst params = map fst kvs /\
       dict_get "max_depth" params = Some (VInt (Qfloor d1)) /\
       forall key, key <> "max_depth" -> dict_get key params = dict_get key kvs).
Proof.
  intros Hlo1 Hhi1 Hlo2 Hhi2 Hfloor Hnames.
  assert (0 <= d1)%Q as Hd1 by (eapply Qle_trans; [|exact Hlo1]; by unfold Qle).
  assert (0 <= d2)%Q as Hd2 by (eapply Qle_trans; [|exact Hlo2]; by unfold Qle).
  split; [|split].
  - rewrite <- (trunc_floor d1) by done. by eapply xgb_evaluate_first_call.
  - unfold xgb_evaluate, py_int. cbn [to_int].
    by rewrite (trunc_floor d1), (trunc_floor d2), Hfloor.
  - intros s0 cls attrs best kvs Hbo Hmax Hparams Hdepth.
    rewrite <- (trunc_floor d1) by done. by eapply results_truncate.
Qed.

Lemma max_depth_is_truncated_witness :
  head (new_events Sample.searching
          (interp Sample.lib
             (xgb_evaluate (lit 4637 1000) (lit 5326 10000) (lit 6242 10000) (lit 29 100))
             Sample.searching)) =
    Some (EvCall "xgboost.XGBClassifier" []
            (xgb_params (VInt 4) (lit 5326 10000) (lit 6242 10000) (lit 29 100))
            (inr (VObj "XGBClassifier"
                    (xgb_params (VInt 4) (lit 5326 10000) (lit 6242 10000) (lit 29 100))))) /\
  interp Sample.lib
    (xgb_evaluate (lit 4637 1000) (lit 5326 10000) (lit 6242 10000) (lit 29 100))
    Sample.searching =
  interp Sample.lib
    (xgb_evaluate (lit 49 10) (lit 5326 10000) (lit 6242 10000) (lit 29 100))
    Sample.searching /\
  exists params,
    fst (interp Sample.lib cell_bayes_results Sample.searching) = inr VNone /\
    globals (snd (interp Sample.lib cell_bayes_results Sample.searching)) !! "params" =
      Some (VDict params) /\
    printed Sample.searching (interp Sample.lib cell_bayes_results Sample.searching) =
      [[VStr "Optimized parameters:"; VDict params]] /\
    map fst params = map fst Sample.point2 /\
    dict_get "max_depth" params = Some (VInt 4) /\
    forall key, key <> "max_depth" -> dict_get key params = dict_get key Sample.point2.
Proof.
  assert ((3 <= 4637 # 1000)%Q /\ (4637 # 1000 <= 10)%Q /\ (3 <= 49 # 10)%Q /\
          (49 # 10 <= 10)%Q /\ Qfloor (4637 # 1000) = Qfloor (49 # 10)) as Hyp
    by (unfold Qle; simpl; repeat split; lia).
  destruct Hyp as (H1 & H2 & H3 & H4 & H5).
  destruct (max_depth_is_truncated Sample.lib Sample.searching (4637 # 1000) (49 # 10)
              (lit 5326 10000) (lit 6242 10000) (lit 29 100)
              Sample.rows Sample.labels Sample.rows Sample.labels
              H1 H2 H3 H4 H5
              (conj eq_refl (conj eq_refl (conj eq_refl
                 (conj eq_refl (conj eq_refl eq_refl))))))
    as (Hcall & Hsame & Hresults).
  split; [exact Hcall|]. split; [exact Hsame|].
  exact (Hresults Sample.searching "BayesianOptimization" _ _ Sample.point2
           eq_refl eq_refl eq_refl eq_refl).
Defined.

(** ** The notebook as a sequence of cells *)

Lemma run_cells_app (L : Library) (cs1 cs2 : list prog) (s : state) :
  run_cells L (cs1 ++ cs2) s =
  match run_cells L cs1 s with
  | (inr _, s1) => run_cells L cs2 s1
  | (inl e, s1) => (inl e, s1)
  end.
Proof.
  revert s. induction cs1 as [|c cs1 IH]; intros s; simpl; [done|].
  destruct (interp L c s) as [[e|v] s1]; [done|]. apply IH.
Qed.

Lemma run_cells_frame {A : Type} (obs : state -> A) (L : Library) (cs : list prog) :
  Forall (fun c => forall s, obs (snd (interp L c s)) = obs s) cs ->
  forall s, obs (snd (run_cells L cs s)) = obs s.
Proof.
  induction 1 as [|c cs Hc _ IH]; intros s; simpl; [done|].
  specialize (Hc s). destruct (interp L c s) as [[e|v] s1]; simpl in *; [done|].
  by rewrite IH.
Qed.

Lemma run_cells_events (ok : effect -> bool) (L : Library) (cs : list prog) :
  Forall (performs ok) cs -> forall s, logs_admitted ok s (run_cells L cs s).
Proof.
  induction 1 as [|c cs Hc _ IH]; intros s; simpl.
  - exists []. split; [by rewrite app_nil_r | constructor].
  - pose proof (performs_events ok L c Hc s) as He.
    destruct (interp L c s) as [[e|v] s1]; [exact He|].
    destruct He as (evs1 & H1 & Hall1), (IH s1) as (evs2 & H2 & Hall2). simpl in *.
    exists (evs1 ++ evs2). split; [by rewrite H2, H1, app_assoc | by apply Forall_app].
Qed.


(** ** What the cells leave alone *)

Ltac each_cell :=
  repeat match goal with |- Forall _ _ => constructor end;
  unfold cell_load_data, cell_grid_search, cell_best_model, cell_random_search,
    cell_show_score, cell_pip_install, cell_suppress_warnings, cell_bayes_opt,
    cell_bayes_data, cell_bayes_optimise, cell_bayes_results.

Lemma python_cells_no_shell : Forall (performs no_shell) python_cells.
Proof. unfold python_cells. each_cell; performs_cell. Qed.

Lemma cells_notebook_effects : Forall (performs notebook_effects) cells.
Proof. unfold cells. each_cell; performs_cell. Qed.

Lemma no_shell_installed (L : Library) (p : prog) (s : state) :
  performs no_shell p -> installed (snd (interp L p s)) = installed s.
Proof. intros Hp. by apply (performs_frame installed no_shell L). Qed.

Lemma python_cell_installed (L : Library) (c : prog) (s : state) :
  In c python_cells -> installed (snd (interp L c s)) = installed s.
Proof.
  intros Hin. apply no_shell_installed.
  by apply (proj1 (List.Forall_forall _ _) python_cells_no_shell).
Qed.

Lemma run_python_cells_installed (L : Library) (cs : list prog) (s : state) :
  (forall c, In c cs -> In c python_cells) ->
  installed (snd (run_cells L cs s)) = installed s.
Proof.
  intros Hcs. apply (run_cells_frame installed). apply List.Forall_forall.
  intros c Hc s0. by apply python_cell_installed, Hcs.
Qed.

Lemma packages_frame (L : Library) (s : state) :
  (forall c, In c python_cells -> installed (snd (interp L c s)) = installed s) /\
  installed (snd (interp L cell_pip_install s)) =
    fst (shell L "pip install bayesian-optimization" (installed s) (hidden s)) /\
  (installed (snd (run_notebook L s)) = installed s \/
   exists h, installed (snd (run_notebook L s)) =
             fst (shell L "pip install bayesian-optimization" (installed s) h)).
Proof.
  split; [intros c; apply python_cell_installed|]. split.
  - unfold cell_pip_install. rewrite interp_Shell.
    by destruct (shell L _ (installed s) (hidden s)).
  - unfold run_notebook.
    change cells with
      ([cell_load_data; cell_grid_search; cell_best_model; cell_random_search; cell_show_score]
       ++ cell_pip_install :: [cell_suppress_warnings; cell_bayes_opt]).
    rewrite run_cells_app.
    pose proof (run_python_cells_installed L
                  [cell_load_data; cell_grid_search; cell_best_model; cell_random_search;
                   cell_show_score] s) as Hbefore.
    destruct (run_cells L _ s) as [[e|v] s1]; simpl in Hbefore.
    + left. apply Hbefore. unfold python_cells. simpl. tauto.
    + right. exists (hidden s1).
      rewrite <- Hbefore by (unfold python_cells; simpl; tauto).
      change (run_cells L (cell_pip_install :: ?cs) s1)
        with (let '(r, s2) := interp L cell_pip_install s1 in
              match r with inr _ => run_cells L cs s2 | inl e => (inl e, s2) end).
      unfold cell_pip_install. rewrite interp_Shell.
      destruct (shell L _ (installed s1) (hidden s1)) as [i h].
      rewrite interp_Ret.
      rewrite run_python_cells_installed by (unfold python_cells; simpl; tauto).
      reflexivity.
Qed.

(** X2: only the shell escape of cell 10 changes the installed packages.
    Every other cell leaves them as they were, whatever the libraries
    answer; cell 10 makes them what the shell command makes them; so
    after a run of the notebook, complete or not, they are either
    untouched or what [pip install bayesian-optimization] made of them. *)
Theorem packages_change_by_pip_only (L : Library) (s : state) :
  (forall c, In c python_cells -> installed (snd (interp L c s)) = installed s) /\
  installed (snd (interp L cell_pip_install s)) =
    fst (shell L "pip install bayesian-optimization" (installed s) (hidden s)) /\
  (installed (snd (run_notebook L s)) = installed s \/
   exists h, installed (snd (run_notebook L s)) =
             fst (shell L "pip install bayesian-optimization" (installed s) h)).
Proof. apply packages_frame. Qed.

Lemma cell_suppress_warnings_run (L : Library) (s : state) :
  interp L cell_suppress_warnings s =
  (inr VNone,
   log (EvFilterWarnings "ignore")
     (set_warn_filters ("ignore" :: remove_first "ignore" (warn_filters s))
        (log (EvImport "warnings" true)
           (set_globals (<["warnings" := VModule "warnings"]> (globals s)) s)))).
Proof.
  unfold cell_suppress_warnings, import_as, name. cbn [bind].
  rewrite interp_Import. change (importable "warnings" (installed s)) with true. cbv iota.
  rewrite interp_Assign, interp_Name.
  cbv delta [set_globals log set_trace]. cbn [globals].
  rewrite lookup_insert_eq. by rewrite interp_FilterWarnings, interp_Ret.
Qed.

Lemma suppress_warnings_filters (L : Library) (s : state) :
  fst (interp L cell_suppress_warnings s) = inr VNone /\
  warn_filters (snd (interp L cell_suppress_warnings s)) =
    "ignore" :: remove_first "ignore" (warn_filters s) /\
  warn_filters (snd (interp L cell_suppress_warnings
                       (snd (interp L cell_suppress_warnings s)))) =
    warn_filters (snd (interp L cell_suppress_warnings s)).
Proof.
  rewrite !cell_suppress_warnings_run. cbn [fst snd].
  cbv delta [set_globals set_warn_filters log set_trace]. cbn [warn_filters remove_first].
  by rewrite String.eqb_refl.
Qed.

(** X3: cell 11 puts the filter ['ignore'] first, once.  Whatever is
    installed and whatever the namespace holds, the cell completes; the
    filters are then ['ignore'] followed by what they were, without the
    first ['ignore'] they had, if they had one; so running the cell a
    second time leaves the filters as the first run left them. *)
Theorem suppress_warnings_is_idempotent (L : Library) (s : state) :
  fst (interp L cell_suppress_warnings s) = inr VNone /\
  warn_filters (snd (interp L cell_suppress_warnings s)) =
    "ignore" :: remove_first "ignore" (warn_filters s) /\
  warn_filters (snd (interp L cell_suppress_warnings
                       (snd (interp L cell_suppress_warnings s)))) =
    warn_filters (snd (interp L cell_suppress_warnings s)).
Proof. apply suppress_warnings_filters. Qed.

Lemma admitted_own_effect (sh : shape) :
  admitted notebook_effects sh = true -> own_effect sh.
Proof.
  induction sh as [pkg|fn|meth|x key|cmd|a|sh IH]; simpl; try done.
  - intros H. apply andb_prop in H as [Hx Hkey]. by apply String.eqb_eq in Hx, Hkey.
  - apply String.eqb_eq.
  - apply String.eqb_eq.
Qed.

Lemma own_effects_only (L : Library) (s : state) (ev : event) :
  In ev (new_events s (run_notebook L s)) -> own_effect (shape_of ev).
Proof.
  unfold run_notebook. intros Hin.
  destruct (run_cells_events notebook_effects L cells cells_notebook_effects s)
    as (evs & Hevs & Hall).
  rewrite (new_events_spec _ _ _ Hevs) in Hin.
  apply (proj1 (List.Forall_forall _ _) Hall) in Hin.
  by apply admitted_own_effect.
Qed.

(** X4: whatever the libraries answer, the statements of the notebook,
    those of [xgb_evaluate] while the optimiser runs it included, assign
    to one item only, [params['max_depth']], run one shell command only,
    the [pip install] of cell 10, and set one warnings filter only,
    ['ignore']. *)
Theorem notebook_side_effects (L : Library) (s : state) (ev : event) :
  In ev (new_events s (run_notebook L s)) -> own_effect (shape_of ev).
Proof. apply own_effects_only. Qed.

Lemma notebook_side_effects_witness :
  own_effect (shape_of (EvSetItem "params" "max_depth" (VInt 4))) /\
  own_effect
    (shape_of
       (EvInner (EvMethod "predict"
                   (VObj "XGBClassifier"
                      (dict_set "fitted_" (VBool true)
                         (xgb_params (VInt 7) (lit 5095 10000) (lit 3613 10000)
                            (lit 217 1000))))
                   [Sample.rows] [] (inr Sample.labels)))).
Proof.
  split.
  - apply (notebook_side_effects Sample.lib Sample.fresh).
    vm_compute. do 41 right. left. reflexivity.
  - apply (notebook_side_effects Sample.lib Sample.fresh).
    vm_compute. do 34 right. left. reflexivity.
Defined.

(** ** Cells that need the cells before them *)

Lemma unbound_names_raise (L : Library) (s : state) :
  importable "sklearn" (installed s) = true ->
  globals s !! "xgb" = None -> globals s !! "grid_search" = None ->
  globals s !! "np" = None -> globals s !! "rand_search" = None ->
  (fst (interp L cell_grid_search s) = inl (NameError "xgb") /\
   new_events s (interp L cell_grid_search s) = [EvImport "sklearn" true]) /\
  (fst (interp L cell_best_model s) = inl (NameError "grid_search") /\
   new_events s (interp L cell_best_model s) = []) /\
  (fst (interp L cell_random_search s) = inl (NameError "np") /\
   new_events s (interp L cell_random_search s) = [EvImport "sklearn" true]) /\
  (fst (interp L cell_show_score s) = inl (NameError "rand_search") /\
   new_events s (interp L cell_show_score s) = []).
Proof.
  intros Hsk Hxgb Hgs Hnp Hrs. destruct s as [g i w o t h]. cbn [globals installed] in *.
  repeat split.
  all: match goal with
       | |- context [interp ?L0 ?c ?s0] =>
           let H := fresh "H" in
           destruct (interp L0 c s0) as [r s'] eqn:H;
           rewrite <- (overlay_nil g) in H; exec H
       end.
  all: first [ reflexivity | events_norm; try rewrite drop_all; reflexivity ].
Qed.

(** X5: the cells of the first two sections do not stand alone.  Where
    the name it reads first is unbound (as in a fresh interpreter), each
    of cells 3, 5, 7 and 8 raises [NameError] for it before calling any
    library function: the only interaction, for cells 3 and 7, is their
    own import. *)
Theorem later_cells_need_earlier_ones (L : Library) (s : state) :
  importable "sklearn" (installed s) = true ->
  globals s !! "xgb" = None -> globals s !! "grid_search" = None ->
  globals s !! "np" = None -> globals s !! "rand_search" = None ->
  (fst (interp L cell_grid_search s) = inl (NameError "xgb") /\
   new_events s (interp L cell_grid_search s) = [EvImport "sklearn" true]) /\
  (fst (interp L cell_best_model s) = inl (NameError "grid_search") /\
   new_events s (interp L cell_best_model s) = []) /\
  (fst (interp L cell_random_search s) = inl (NameError "np") /\
   new_events s (interp L cell_random_search s) = [EvImport "sklearn" true]) /\
  (fst (interp L cell_show_score s) = inl (NameError "rand_search") /\
   new_events s (interp L cell_show_score s) = []).
Proof. apply unbound_names_raise. Qed.

Lemma later_cells_need_earlier_ones_witness :
  (fst (interp Sample.lib cell_grid_search Sample.fresh) = inl (NameError "xgb") /\
   new_events Sample.fresh (interp Sample.lib cell_grid_search Sample.fresh) =
     [EvImport "sklearn" true]) /\
  (fst (interp Sample.lib cell_best_model Sample.fresh) = inl (NameError "grid_search") /\
   new_events Sample.fresh (interp Sample.lib cell_best_model Sample.fresh) = []) /\
  (fst (interp Sample.lib cell_random_search Sample.fresh) = inl (NameError "np") /\
   new_events Sample.fresh (interp Sample.lib cell_random_search Sample.fresh) =
     [EvImport "sklearn" true]) /\
  (fst (interp Sample.lib cell_show_score Sample.fresh) = inl (NameError "rand_search") /\
   new_events Sample.fresh (interp Sample.lib cell_show_score Sample.fresh) = []).
Proof.
  apply (later_cells_need_earlier_ones Sample.lib Sample.fresh); reflexivity.
Defined.

(** ** Cells that stand alone *)

Lemma standalone_cells_closed : Forall (closed []) standalone_cells.
Proof. unfold standalone_cells. each_cell; closed_cell. Qed.

Lemma standalone_lift (L : Library) (c : prog) (g : gmap string value) (s : state) :
  In c standalone_cells ->
  interp L c (over g s) = (fst (interp L c s), over g (snd (interp L c s))).
Proof.
  intros Hin.
  apply (closed_over L [] c g); [|by intros x Hx].
  by apply (proj1 (List.Forall_forall _ _) standalone_cells_closed).
Qed.

(** X6: cells 2, 10, 11 and 12 read no name they have not bound
    themselves, the built-ins they use apart.  Run on top of any
    namespace [g] that binds none of [int], [print] and [get_ipython],
    each of them has the outcome it has without [g], and leaves its
    bindings laid over [g]. *)
Theorem standalone_cells_ignore_namespace (L : Library) (c : prog)
    (g : gmap string value) (s : state) :
  In c standalone_cells ->
  shadows_no_builtin g ->
  interp L c (over g s) = (fst (interp L c s), over g (snd (interp L c s))).
Proof.
  intros Hin _. by apply standalone_lift.
Qed.

Lemma standalone_cells_ignore_namespace_witness :
  interp Sample.lib cell_load_data (over (globals Sample.searching) Sample.fresh) =
  (fst (interp Sample.lib cell_load_data Sample.fresh),
   over (globals Sample.searching) (snd (interp Sample.lib cell_load_data Sample.fresh))).
Proof.
  apply (standalone_cells_ignore_namespace Sample.lib cell_load_data).
  - left. reflexivity.
  - repeat constructor.
Defined.

(** ** The objective function *)

(** X7: a call of [xgb_evaluate] has no effect on the interpreter that
    the notebook can see: it binds no global name (its [params] is a
    local), prints nothing, installs nothing and sets no warnings filter,
    whatever its arguments are and whatever the libraries answer. *)
Theorem xgb_evaluate_has_no_side_effect (L : Library) (s : state)
    (max_depth gamma colsample_bytree learning_rate : value) :
  visible (snd (interp L (xgb_evaluate max_depth gamma colsample_bytree learning_rate) s)) =
  visible s.
Proof.
  apply calls_only_visible. unfold xgb_evaluate. walk.
Qed.
Lemma xgb_evaluate_scores (L : Library) (s s' : state) (max_depth : value) (n : Z)
    (gamma colsample_bytree learning_rate X_train y_train X_test y_test accuracy : value) :
  objective_names (globals s) X_train y_train X_test y_test ->
  to_int max_depth = Some (inr n) ->
  interp L (xgb_evaluate max_depth gamma colsample_bytree learning_rate) s =
    (inr accuracy, s') <->
  exists model fit_result fitted predictions h',
    scores L (hidden s) (xgb_params (VInt n) gamma colsample_bytree learning_rate)
      X_train y_train X_test y_test model fit_result fitted predictions accuracy h' /\
    s' = set_hidden h'
           (set_trace
              (trace s ++
               objective_calls
                 (xgb_params (VInt n) gamma colsample_bytree learning_rate)
                 X_train y_train X_test y_test model fit_result fitted predictions accuracy)
              s).
Proof.
  intros (HX & Ha & H1 & H2 & H3 & H4) Hint. destruct s as [g i w o t h].
  cbn [globals hidden trace] in *.
  unfold xgb_evaluate, py_int. rewrite Hint.
  split.
  - intros H. exec H.
    do 5 eexists. split.
    + unfold scores. do 4 eexists. repeat split; eauto; exact I.
    + unfold set_hidden, set_trace, objective_calls. cbn [globals installed warn_filters stdout].
      rewrite <- !app_assoc. reflexivity.
  - intros (model & fit_result & fitted & predictions & h' & Hs & ->).
    destruct Hs as (predicted & h1 & h2 & h3 & E1 & Hm & E2 & Hf & E3 & E4).
    destruct model; try done. destruct fitted; try done.
    unfold name, call. cbn [bind].
    rewrite interp_Name; go; rewrite HX; go.
    rewrite interp_Call; go; rewrite E1; go.
    rewrite interp_Name; go; rewrite H1; go.
    rewrite interp_Name; go; rewrite H2; go.
    rewrite interp_Method; go; rewrite E2; go.
    rewrite interp_Name; go; rewrite H3; go.
    rewrite interp_Method; go; rewrite E3; go.
    rewrite interp_Name; go; rewrite Ha; go.
    rewrite interp_Name; go; rewrite H4; go.
    rewrite interp_Call; go; rewrite E4; go.
    rewrite interp_Ret. unfold objective_calls. rewrite <- !app_assoc. reflexivity.
Qed.

(** X8: [xgb_evaluate] scores a candidate on the held-out part of the
    split.  Called with a float [max_depth] where the notebook's names are
    bound, it returns a value exactly when the libraries answer four calls
    in a row: [XGBClassifier( **params )] with the truncated depth, [fit]
    on [(X_train, y_train)], [predict] on [X_test], and
    [accuracy_score(y_test, predictions)]; what it returns is that score,
    and those four calls are all it logs. *)
Theorem xgb_evaluate_scores_on_test_part (L : Library) (s s' : state) (d : Q)
    (gamma colsample_bytree learning_rate X_train y_train X_test y_test accuracy : value) :
  objective_names (globals s) X_train y_train X_test y_test ->
  interp L (xgb_evaluate (VFloat (FNum d)) gamma colsample_bytree learning_rate) s =
    (inr accuracy, s') <->
  exists model fit_result fitted predictions h',
    scores L (hidden s) (xgb_params (VInt (trunc d)) gamma colsample_bytree learning_rate)
      X_train y_train X_test y_test model fit_result fitted predictions accuracy h' /\
    s' = set_hidden h'
           (set_trace
              (trace s ++
               objective_calls
                 (xgb_params (VInt (trunc d)) gamma colsample_bytree learning_rate)
                 X_train y_train X_test y_test model fit_result fitted predictions accuracy)
              s).
Proof. intros Hnames. by apply xgb_evaluate_scores. Qed.

Lemma xgb_evaluate_scores_on_test_part_witness :
  exists model fit_result fitted predictions h',
    scores Sample.lib (hidden Sample.searching)
      (xgb_params (VInt (trunc (4637 # 1000))) (lit 5326 10000) (lit 6242 10000) (lit 29 100))
      Sample.rows Sample.labels Sample.rows Sample.labels
      model fit_result fitted predictions (lit 1 1) h' /\
    snd (interp Sample.lib
           (xgb_evaluate (lit 4637 1000) (lit 5326 10000) (lit 6242 10000) (lit 29 100))
           Sample.searching) =
    set_hidden h'
      (set_trace
         (trace Sample.searching ++
          objective_calls
            (xgb_params (VInt (trunc (4637 # 1000))) (lit 5326 10000) (lit 6242 10000)
               (lit 29 100))
            Sample.rows Sample.labels Sample.rows Sample.labels
            model fit_result fitted predictions (lit 1 1))
         Sample.searching).
Proof.
  apply (proj1 (xgb_evaluate_scores_on_test_part Sample.lib Sample.searching _ (4637 # 1000)
                  (lit 5326 10000) (lit 6242 10000) (lit 29 100)
                  Sample.rows Sample.labels Sample.rows Sample.labels (lit 1 1)
                  (conj eq_refl (conj eq_refl (conj eq_refl
                     (conj eq_refl (conj eq_refl eq_refl))))))).
  vm_compute. reflexivity.
Defined.
(** X9: the classifier never gets a fractional depth.  With a float
    [max_depth], every [XGBClassifier] call that [xgb_evaluate] makes has
    an integer [max_depth] among its keyword arguments; NaN and the
    infinities make [int()] raise [ValueError] and [OverflowError] before
    any library is called. *)
Theorem classifier_depth_is_integer (L : Library) (s : state) (f : float)
    (gamma colsample_bytree learning_rate X_train y_train X_test y_test : value) :
  objective_names (globals s) X_train y_train X_test y_test ->
  Forall integer_depth
    (new_events s
       (interp L (xgb_evaluate (VFloat f) gamma colsample_bytree learning_rate) s)) /\
  (f = FNan ->
   interp L (xgb_evaluate (VFloat f) gamma colsample_bytree learning_rate) s =
     (inl (ValueError "cannot convert float NaN to integer"), s)) /\
  (forall negative, f = FInf negative ->
   interp L (xgb_evaluate (VFloat f) gamma colsample_bytree learning_rate) s =
     (inl (OverflowError "cannot convert float infinity to integer"), s)).
Proof.
  intros (HX & Ha & H1 & H2 & H3 & H4). split; [|split; [intros ->|intros b ->]; reflexivity].
  destruct (interp L _ s) as [r s'] eqn:H. destruct s as [g i w o t h].
  cbn [globals] in *. unfold xgb_evaluate, py_int in H.
  destruct f; cbn [to_int] in H; exec H.
  all: events_norm; try rewrite drop_all.
  all: repeat match goal with |- Forall _ _ => constructor end.
  all: first [ exact I | intros _; eexists; reflexivity | intros Hfn; discriminate Hfn ].
Qed.

Lemma classifier_depth_is_integer_witness :
  Forall integer_depth
    (new_events Sample.searching
       (interp Sample.lib
          (xgb_evaluate (lit 4637 1000) (lit 5326 10000) (lit 6242 10000) (lit 29 100))
          Sample.searching)).
Proof.
  apply (classifier_depth_is_integer Sample.lib Sample.searching (FNum (4637 # 1000))
           (lit 5326 10000) (lit 6242 10000) (lit 29 100)
           Sample.rows Sample.labels Sample.rows Sample.labels
           (conj eq_refl (conj eq_refl (conj eq_refl
              (conj eq_refl (conj eq_refl eq_refl)))))).
Defined.

(** ** The results section *)
(** X10: the results section needs a [max_depth] among the best
    parameters.  Where the optimiser's best point has none, the item read
    [params['max_depth']] raises [KeyError]: [params] is then bound to
    the best point as it was found, and nothing is printed or logged. *)
Theorem results_need_max_depth (L : Library) (s : state) (cls : string)
    (attrs best kvs : kwargs) :
  globals s !! "xgb_bo" = Some (VObj cls attrs) ->
  dict_get "max" attrs = Some (VDict best) ->
  dict_get "params" best = Some (VDict kvs) ->
  dict_get "max_depth" kvs = None ->
  interp L cell_bayes_results s =
    (inl (KeyError "max_depth"), set_globals (<["params" := VDict kvs]> (globals s)) s).
Proof.
  intros Hbo Hmax Hparams Hdepth.
  destruct (interp L cell_bayes_results s) as [r s'] eqn:H.
  destruct s as [g i w o t h]. cbn [globals] in *.
  rewrite <- (overlay_nil g) in H.
  unfold cell_bayes_results in H. exec H.
  all: simplify_eq.
  by rewrite <- insert_overlay, overlay_nil.
Qed.

Lemma results_need_max_depth_witness :
  interp Sample.lib cell_bayes_results depthless =
  (inl (KeyError "max_depth"),
   set_globals (<["params" := VDict [("gamma", lit 1 2)]]> (globals depthless)) depthless).
Proof.
  apply (results_need_max_depth Sample.lib depthless "BayesianOptimization"
           [("max", VDict [("params", VDict [("gamma", lit 1 2)])])]
           [("params", VDict [("gamma", lit 1 2)])] [("gamma", lit 1 2)]);
    reflexivity.
Defined.

(** ** A complete run of the notebook *)

Ltac projections :=
  unfold Run.log, Run.output, Run.consistent, Run.load_data_log, Run.grid_search_log,
    Run.best_model_log, Run.random_search_log, Run.setup_log, Run.bayes_data_log,
    Run.bayes_optimise_log, Run.bayes_results_log, Run.param_dist, Run.split_kw,
    Run.search_kw, Run.bindings;
  cbn [Run.wine Run.data Run.feature_names Run.target Run.X Run.parts Run.X_train Run.X_test
       Run.y_train Run.y_test Run.clf Run.grid_search Run.grid_fit Run.grid_fitted
       Run.best_params Run.best_score Run.best_model Run.new_model Run.learning_rates
       Run.subsamples Run.colsamples Run.rand_search Run.rand_fit Run.rand_fitted
       Run.rand_best_params Run.rand_best_score Run.wine' Run.data' Run.target' Run.parts'
       Run.X_train' Run.X_test' Run.y_train' Run.y_test' Run.xgb_bo Run.optimised Run.best
       Run.point Run.max_depth Run.conversion Run.depth].

Lemma notebook_completes (L : Library) (s s' : state) (r : value) :
  run_notebook L s = (inr r, s') ->
  exists a inner,
    new_events s (inr r, s') = Run.log a inner /\
    Run.consistent a /\
    Forall (objective_event (Run.X_train' a) (Run.y_train' a) (Run.X_test' a) (Run.y_test' a))
      inner /\
    stdout s' = stdout s ++ Run.output a /\
    Forall (fun kv => globals s' !! fst kv = Some (snd kv)) (Run.bindings a) /\
    r = VNone.
Proof.
  intros H. exec_init s H. unfold run_notebook, cells in H.
  run_cells H.
  all: state_cbn_goal; events_norm.
  all: lazymatch type of Hinner with
       | forall a b c d, objective_names ?g a b c d -> _ =>
           let Hn := fresh "Hn" in
           eassert (Hn : objective_names g _ _ _ _)
             by (unfold objective_names; rewrite !lookup_overlay; repeat split; reflexivity);
           apply Hinner in Hn; clear Hinner
       end.
  all: repeat match goal with
              | H1 : ?c = Some ?a, H2 : ?c = Some ?b |- _ =>
                  rewrite H1 in H2; injection H2 as H2; subst
              end.
  - eexists (Run.Build_answers _ _ _ _ _ _ _ _ _ _ _ _ _ _ _ _ _ _ _ _ _ _ _ _ _ _
               _ _ _ _ _ _ _ _ _ _ _ _ _ [] _), inner.
    projections. cbn [app]. rewrite <- !app_assoc. cbn [app].
    split; [reflexivity|]. split; [|split; [exact Hn|split; [reflexivity|split]]].
    + repeat split; try eassumption. left. eauto.
    + repeat constructor; cbn [fst snd globals]; by rewrite lookup_overlay.
    + reflexivity.
  - eexists (Run.Build_answers _ _ _ _ _ _ _ _ _ _ _ _ _ _ _ _ _ _ _ _ _ _ _ _ _ _
               _ _ _ _ _ _ _ _ _ _ _ _ _ [EvCall "builtins.int" [_] [] (inr _)] _), inner.
    projections. cbn [app]. rewrite <- !app_assoc. cbn [app].
    split; [reflexivity|]. split; [|split; [exact Hn|split; [reflexivity|split]]].
    + repeat split; try eassumption. by right.
    + repeat constructor; cbn [fst snd globals]; by rewrite lookup_overlay.
    + reflexivity.
Qed.

Lemma filter_inner (f : event -> bool) (inner : list event) :
  (forall ev, f (EvInner ev) = false) -> filter f (map EvInner inner) = [].
Proof.
  intros Hf. induction inner as [|ev inner IH]; [done|].
  cbn [map]. by rewrite filter_cons, Hf.
Qed.

Lemma filter_loads_inner (X_train y_train X_test y_test : value) (inner : list event) :
  Forall (objective_event X_train y_train X_test y_test) inner ->
  filter loads_wine (map EvInner inner) = [].
Proof.
  induction 1 as [|ev inner Hev _ IH]; [done|].
  cbn [map]. rewrite filter_cons, IH.
  by destruct Hev as [(? & ? & ->)|[(? & ? & ->)|[(? & ? & ->)|[(? & ? & ->)|(? & ? & ->)]]]].
Qed.

(** X11: what a complete run of the notebook is.  If the notebook runs to
    its end, its interactions with the libraries are, in this order, those
    of [Run.log]: each section's imports and calls, with the arguments the
    cells give them, the calls of the objective function between the
    construction of the optimiser and the return of [maximize], and the
    item assignment to [params]; the answers hang together as
    [Run.consistent] says; the objective function only ever runs on the
    parts of cell 12's split; and the names of [Run.bindings] end up
    bound as listed there. *)
Theorem complete_run (L : Library) (s s' : state) (r : value) :
  run_notebook L s = (inr r, s') ->
  exists a inner,
    new_events s (inr r, s') = Run.log a inner /\
    Run.consistent a /\
    Forall (objective_event (Run.X_train' a) (Run.y_train' a) (Run.X_test' a) (Run.y_test' a))
      inner /\
    Forall (fun kv => globals s' !! fst kv = Some (snd kv)) (Run.bindings a) /\
    r = VNone.
Proof.
  intros H. apply notebook_completes in H as (a & inner & H1 & H2 & H3 & _ & H4 & H5).
  by exists a, inner.
Qed.

Lemma complete_run_witness :
  exists a inner,
    new_events Sample.fresh (inr VNone, snd (run_notebook Sample.lib Sample.fresh)) =
      Run.log a inner /\
    Run.consistent a /\
    Forall (objective_event (Run.X_train' a) (Run.y_train' a) (Run.X_test' a) (Run.y_test' a))
      inner /\
    Forall (fun kv => globals (snd (run_notebook Sample.lib Sample.fresh)) !! fst kv =
                      Some (snd kv)) (Run.bindings a) /\
    VNone = VNone.
Proof.
  apply (complete_run Sample.lib Sample.fresh). vm_compute. reflexivity.
Defined.

(** X12: a complete run loads the wine data set twice.  Among all its
    interactions, those of the objective function during [maximize]
    included, the calls of [load_wine] are two: the [load_wine()] of cell
    2 and, after it, the [load_wine(as_frame=True)] of cell 12. *)
Theorem dataset_is_loaded_twice (L : Library) (s s' : state) (r : value) :
  run_notebook L s = (inr r, s') ->
  exists wine wine',
    filter loads_wine (new_events s (inr r, s')) =
      [EvCall "sklearn.datasets.load_wine" [] [] (inr wine);
       EvCall "sklearn.datasets.load_wine" [] [("as_frame", VBool true)] (inr wine')].
Proof.
  intros H. apply notebook_completes in H as (a & inner & -> & Hc & Hinner & _).
  exists (Run.wine a), (Run.wine' a).
  assert (filter loads_wine (Run.conversion a) = []) as Hconv.
  { destruct Hc as (_ & _ & _ & _ & _ & _ & _ & _ & _ & _ & _ & _ & _ & _ & _ & Hconv).
    by destruct Hconv as [(n & _ & _ & ->)|(_ & ->)]. }
  unfold Run.log, Run.bayes_results_log.
  change (Run.bayes_optimise_log a inner)
    with ([EvCall "bayes_opt.BayesianOptimization"
             [VFunc "__main__.xgb_evaluate"; pbounds] [] (inr (Run.xgb_bo a))] ++
          map EvInner inner ++
          [EvMethod "maximize" (Run.xgb_bo a) []
             [("init_points", VInt 5); ("n_iter", VInt 10)] (inr (Run.optimised a))]).
  rewrite !filter_app, Hconv, (filter_loads_inner _ _ _ _ inner Hinner). reflexivity.
Qed.

Lemma dataset_is_loaded_twice_witness :
  exists wine wine',
    filter loads_wine
      (new_events Sample.fresh (inr VNone, snd (run_notebook Sample.lib Sample.fresh))) =
      [EvCall "sklearn.datasets.load_wine" [] [] (inr wine);
       EvCall "sklearn.datasets.load_wine" [] [("as_frame", VBool true)] (inr wine')].
Proof.
  apply (dataset_is_loaded_twice Sample.lib Sample.fresh). vm_compute. reflexivity.
Defined.

(** X13: [new_model] is built from the best parameters that were
    printed.  In a complete run, the mapping in the first line that the
    notebook prints with the label ["Best parameters found: "], the one
    of cell 3, is, entry for entry, the keyword arguments of the
    [XGBClassifier] call of cell 5, whose answer [new_model] is bound to
    at the end. *)
Theorem new_model_has_printed_parameters (L : Library) (s s' : state) (r : value) :
  run_notebook L s = (inr r, s') ->
  exists best_params new_model,
    head (filter (labelled "Best parameters found: ") (printed s (inr r, s'))) =
      Some [VStr "Best parameters found: "; VDict best_params] /\
    In (EvCall "xgboost.XGBClassifier" [] best_params (inr new_model))
       (new_events s (inr r, s')) /\
    globals s' !! "new_model" = Some new_model.
Proof.
  intros H. apply notebook_completes in H as (a & inner & -> & _ & _ & Hout & Hb & _).
  exists (Run.best_params a), (Run.new_model a).
  rewrite (printed_spec s (inr r, s') _ Hout). split; [reflexivity|]. split.
  - unfold Run.log. apply in_or_app. right. apply in_or_app. right.
    apply in_or_app. left. by left.
  - apply (proj1 (List.Forall_forall _ _) Hb ("new_model", Run.new_model a)).
    unfold Run.bindings. simpl. tauto.
Qed.

Lemma new_model_has_printed_parameters_witness :
  exists best_params new_model,
    head (filter (labelled "Best parameters found: ")
            (printed Sample.fresh (inr VNone, snd (run_notebook Sample.lib Sample.fresh)))) =
      Some [VStr "Best parameters found: "; VDict best_params] /\
    In (EvCall "xgboost.XGBClassifier" [] best_params (inr new_model))
       (new_events Sample.fresh (inr VNone, snd (run_notebook Sample.lib Sample.fresh))) /\
    globals (snd (run_notebook Sample.lib Sample.fresh)) !! "new_model" = Some new_model.
Proof.
  apply (new_model_has_printed_parameters Sample.lib Sample.fresh). vm_compute. reflexivity.
Defined.

Lemma inner_of_log (a : Run.answers) (inner : list event) (ev : event) :
  Run.consistent a -> In (EvInner ev) (Run.log a inner) -> In ev inner.
Proof.
  intros Hc Hin.
  assert (~ In (EvInner ev) (Run.conversion a)) as Hconv.
  { destruct Hc as (_ & _ & _ & _ & _ & _ & _ & _ & _ & _ & _ & _ & _ & _ & _ & Hconv).
    destruct Hconv as [(n & _ & _ & ->)|(_ & ->)]; simpl; [tauto|].
    intros [Heq|[]]. discriminate Heq. }
  unfold Run.log, Run.bayes_results_log in Hin.
  change (Run.bayes_optimise_log a inner)
    with ([EvCall "bayes_opt.BayesianOptimization"
             [VFunc "__main__.xgb_evaluate"; pbounds] [] (inr (Run.xgb_bo a))] ++
          map EvInner inner ++
          [EvMethod "maximize" (Run.xgb_bo a) []
             [("init_points", VInt 5); ("n_iter", VInt 10)] (inr (Run.optimised a))]) in Hin.
  repeat (apply in_app_or in Hin as [Hin|Hin]).
  all: try (simpl in Hin; repeat (destruct Hin as [Hin|Hin]; try discriminate Hin); done).
  apply in_map_iff in Hin as (ev' & Heq & Hin). by injection Heq as ->.
Qed.

Lemma filter_fit_conversion (a : Run.answers) :
  Run.consistent a -> filter (is_method "fit") (Run.conversion a) = [].
Proof.
  intros Hc.
  destruct Hc as (_ & _ & _ & _ & _ & _ & _ & _ & _ & _ & _ & _ & _ & _ & _ & Hconv).
  by destruct Hconv as [(n & _ & _ & ->)|(_ & ->)].
Qed.

(** X14: every [fit] is on a training part.  In a complete run the grid
    search and the random search are built around the same classifier
    [clf], both with [cv=3] and accuracy as the score; the [fit] calls
    that the cells make themselves are theirs, each on
    [(X_train, y_train)] of the split of cell 2; and every [fit] that
    [xgb_evaluate] makes while the optimiser runs it is on
    [(X_train, y_train)] of the split of cell 12. *)
Theorem every_fit_is_on_a_training_part (L : Library) (s s' : state) (r : value) :
  run_notebook L s = (inr r, s') ->
  exists data names X y parts X_train X_test y_train y_test clf grid rand dist grid_fit rand_fit
         wine' X' y' parts' X_train' X_test' y_train' y_test',
    In (EvCall "pandas.DataFrame" [data] [("columns", names)] (inr X))
       (new_events s (inr r, s')) /\
    In (EvCall "sklearn.model_selection.train_test_split" [X; y]
          [("test_size", lit 2 10); ("random_state", VInt 42)] (inr parts))
       (new_events s (inr r, s')) /\
    items parts = inr [X_train; X_test; y_train; y_test] /\
    In (EvCall "sklearn.model_selection.GridSearchCV" [clf; param_grid]
          [("scoring", VStr "accuracy"); ("cv", VInt 3); ("verbose", VInt 1)] (inr grid))
       (new_events s (inr r, s')) /\
    In (EvCall "sklearn.model_selection.RandomizedSearchCV" [clf]
          [("param_distributions", dist); ("scoring", VStr "accuracy"); ("cv", VInt 3);
           ("verbose", VInt 1); ("n_iter", VInt 50)] (inr rand))
       (new_events s (inr r, s')) /\
    filter (is_method "fit") (new_events s (inr r, s')) =
      [EvMethod "fit" grid [X_train; y_train] [] (inr grid_fit);
       EvMethod "fit" rand [X_train; y_train] [] (inr rand_fit)] /\
    In (EvCall "sklearn.datasets.load_wine" [] [("as_frame", VBool true)] (inr wine'))
       (new_events s (inr r, s')) /\
    attribute wine' "data" = Some X' /\ attribute wine' "target" = Some y' /\
    In (EvCall "sklearn.model_selection.train_test_split" [X'; y']
          [("test_size", lit 2 10); ("random_state", VInt 42)] (inr parts'))
       (new_events s (inr r, s')) /\
    items parts' = inr [X_train'; X_test'; y_train'; y_test'] /\
    forall ev, In (EvInner ev) (new_events s (inr r, s')) -> is_method "fit" ev = true ->
               exists model answer, ev = EvMethod "fit" model [X_train'; y_train'] [] answer.
Proof.
  intros H. apply notebook_completes in H as (a & inner & -> & Hc & Hinner & _).
  exists (Run.data a), (Run.feature_names a), (Run.X a), (Run.target a), (Run.parts a),
    (Run.X_train a), (Run.X_test a), (Run.y_train a), (Run.y_test a), (Run.clf a),
    (Run.grid_search a), (Run.rand_search a), (Run.param_dist a), (Run.grid_fit a),
    (Run.rand_fit a),
    (Run.wine' a), (Run.data' a), (Run.target' a), (Run.parts' a),
    (Run.X_train' a), (Run.X_test' a), (Run.y_train' a), (Run.y_test' a).
  pose proof (filter_fit_conversion a Hc) as Hconv.
  pose proof (fun ev => inner_of_log a inner ev Hc) as Hlog.
  destruct Hc as (_ & _ & _ & Hparts & _ & _ & _ & _ & _ & Hdata' & Htarget' & Hparts' & _).
  split; [|split; [|split; [exact Hparts|split; [|split; [|split; [|split;
    [|split; [exact Hdata'|split; [exact Htarget'|split; [|split; [exact Hparts'|]]]]]]]]]]].
  - unfold Run.log. apply in_or_app. left. simpl. tauto.
  - unfold Run.log. apply in_or_app. left. simpl. tauto.
  - unfold Run.log. apply in_or_app. right. apply in_or_app. left. simpl. tauto.
  - unfold Run.log. do 3 (apply in_or_app; right). apply in_or_app. left. simpl. tauto.
  - unfold Run.log, Run.bayes_results_log.
    change (Run.bayes_optimise_log a inner)
      with ([EvCall "bayes_opt.BayesianOptimization"
               [VFunc "__main__.xgb_evaluate"; pbounds] [] (inr (Run.xgb_bo a))] ++
            map EvInner inner ++
            [EvMethod "maximize" (Run.xgb_bo a) []
               [("init_points", VInt 5); ("n_iter", VInt 10)] (inr (Run.optimised a))]).
    rewrite !filter_app, Hconv, (filter_inner _ inner) by done. reflexivity.
  - unfold Run.log. do 5 (apply in_or_app; right). apply in_or_app. left. simpl. tauto.
  - unfold Run.log. do 5 (apply in_or_app; right). apply in_or_app. left. simpl. tauto.
  - intros ev Hin Hfit. apply Hlog in Hin.
    apply (proj1 (List.Forall_forall _ _) Hinner) in Hin.
    destruct Hin as [(? & ? & ->)|[(? & ? & ->)|[(? & ? & ->)|[(? & ? & ->)|(? & ? & ->)]]]];
      try discriminate Hfit.
    eauto.
Qed.

Lemma every_fit_is_on_a_training_part_witness :
  exists data names X y parts X_train X_test y_train y_test clf grid rand dist grid_fit rand_fit
         wine' X' y' parts' X_train' X_test' y_train' y_test',
    In (EvCall "pandas.DataFrame" [data] [("columns", names)] (inr X))
       (new_events Sample.fresh (inr VNone, snd (run_notebook Sample.lib Sample.fresh))) /\
    In (EvCall "sklearn.model_selection.train_test_split" [X; y]
          [("test_size", lit 2 10); ("random_state", VInt 42)] (inr parts))
       (new_events Sample.fresh (inr VNone, snd (run_notebook Sample.lib Sample.fresh))) /\
    items parts = inr [X_train; X_test; y_train; y_test] /\
    In (EvCall "sklearn.model_selection.GridSearchCV" [clf; param_grid]
          [("scoring", VStr "accuracy"); ("cv", VInt 3); ("verbose", VInt 1)] (inr grid))
       (new_events Sample.fresh (inr VNone, snd (run_notebook Sample.lib Sample.fresh))) /\
    In (EvCall "sklearn.model_selection.RandomizedSearchCV" [clf]
          [("param_distributions", dist); ("scoring", VStr "accuracy"); ("cv", VInt 3);
           ("verbose", VInt 1); ("n_iter", VInt 50)] (inr rand))
       (new_events Sample.fresh (inr VNone, snd (run_notebook Sample.lib Sample.fresh))) /\
    filter (is_method "fit")
      (new_events Sample.fresh (inr VNone, snd (run_notebook Sample.lib Sample.fresh))) =
      [EvMethod "fit" grid [X_train; y_train] [] (inr grid_fit);
       EvMethod "fit" rand [X_train; y_train] [] (inr rand_fit)] /\
    In (EvCall "sklearn.datasets.load_wine" [] [("as_frame", VBool true)] (inr wine'))
       (new_events Sample.fresh (inr VNone, snd (run_notebook Sample.lib Sample.fresh))) /\
    attribute wine' "data" = Some X' /\ attribute wine' "target" = Some y' /\
    In (EvCall "sklearn.model_selection.train_test_split" [X'; y']
          [("test_size", lit 2 10); ("random_state", VInt 42)] (inr parts'))
       (new_events Sample.fresh (inr VNone, snd (run_notebook Sample.lib Sample.fresh))) /\
    items parts' = inr [X_train'; X_test'; y_train'; y_test'] /\
    forall ev,
      In (EvInner ev)
         (new_events Sample.fresh (inr VNone, snd (run_notebook Sample.lib Sample.fresh))) ->
      is_method "fit" ev = true ->
      exists model answer, ev = EvMethod "fit" model [X_train'; y_train'] [] answer.
Proof.
  apply (every_fit_is_on_a_training_part Sample.lib Sample.fresh).
  vm_compute. reflexivity.
Defined.

Lemma objective_on_second_split (L : Library) (s s' : state) (r : value) :
  run_notebook L s = (inr r, s') ->
  exists wine data target parts X_train X_test y_train y_test,
    In (EvCall "sklearn.datasets.load_wine" [] [("as_frame", VBool true)] (inr wine))
       (new_events s (inr r, s')) /\
    attribute wine "data" = Some data /\ attribute wine "target" = Some target /\
    In (EvCall "sklearn.model_selection.train_test_split" [data; target]
          [("test_size", lit 2 10); ("random_state", VInt 42)] (inr parts))
       (new_events s (inr r, s')) /\
    items parts = inr [X_train; X_test; y_train; y_test] /\
    forall ev, In (EvInner ev) (new_events s (inr r, s')) ->
               objective_event X_train y_train X_test y_test ev.
Proof.
  intros H. apply notebook_completes in H as (a & inner & -> & Hc & Hinner & _).
  exists (Run.wine' a), (Run.data' a), (Run.target' a), (Run.parts' a),
    (Run.X_train' a), (Run.X_test' a), (Run.y_train' a), (Run.y_test' a).
  pose proof (fun ev => inner_of_log a inner ev Hc) as Hlog.
  destruct Hc as (H1 & H2 & H3 & H4 & H5 & H6 & H7 & H8 & H9 & Hdata & Htarget & Hparts & Hc).
  split; [|split; [exact Hdata|split; [exact Htarget|split; [|split; [exact Hparts|]]]]].
  - unfold Run.log. do 5 (apply in_or_app; right). apply in_or_app. left. simpl. tauto.
  - unfold Run.log. do 5 (apply in_or_app; right). apply in_or_app. left. simpl. tauto.
  - intros ev Hin. by apply (proj1 (List.Forall_forall _ _) Hinner), Hlog.
Qed.

(** X15: the optimiser's candidates are scored on cell 12's own split.
    In a complete run, every interaction of the objective function during
    [maximize] is a conversion by [int()], an [XGBClassifier] call, a
    [fit] on [(X_train, y_train)], a [predict] on [X_test] or an
    [accuracy_score] against [y_test], for the four parts of the split
    that cell 12 made of the data and target of its own
    [load_wine(as_frame=True)]. *)
Theorem objective_runs_on_second_split (L : Library) (s s' : state) (r : value) :
  run_notebook L s = (inr r, s') ->
  exists wine data target parts X_train X_test y_train y_test,
    In (EvCall "sklearn.datasets.load_wine" [] [("as_frame", VBool true)] (inr wine))
       (new_events s (inr r, s')) /\
    attribute wine "data" = Some data /\ attribute wine "target" = Some target /\
    In (EvCall "sklearn.model_selection.train_test_split" [data; target]
          [("test_size", lit 2 10); ("random_state", VInt 42)] (inr parts))
       (new_events s (inr r, s')) /\
    items parts = inr [X_train; X_test; y_train; y_test] /\
    forall ev, In (EvInner ev) (new_events s (inr r, s')) ->
               objective_event X_train y_train X_test y_test ev.
Proof. apply objective_on_second_split. Qed.

Lemma objective_runs_on_second_split_witness :
  exists wine data target parts X_train X_test y_train y_test,
    In (EvCall "sklearn.datasets.load_wine" [] [("as_frame", VBool true)] (inr wine))
       (new_events Sample.fresh (inr VNone, snd (run_notebook Sample.lib Sample.fresh))) /\
    attribute wine "data" = Some data /\ attribute wine "target" = Some target /\
    In (EvCall "sklearn.model_selection.train_test_split" [data; target]
          [("test_size", lit 2 10); ("random_state", VInt 42)] (inr parts))
       (new_events Sample.fresh (inr VNone, snd (run_notebook Sample.lib Sample.fresh))) /\
    items parts = inr [X_train; X_test; y_train; y_test] /\
    forall ev,
      In (EvInner ev)
         (new_events Sample.fresh (inr VNone, snd (run_notebook Sample.lib Sample.fresh))) ->
      objective_event X_train y_train X_test y_test ev.
Proof.
  apply (objective_runs_on_second_split Sample.lib Sample.fresh). vm_compute. reflexivity.
Defined.

(** ** Names a program does not depend on *)

Section Ignores.
Variables (L : Library) (x : string) (v : value).

Lemma ignores_ne (y : string) : negb (String.eqb x y) = true -> x <> y.
Proof. intros H ->. by rewrite String.eqb_refl in H. Qed.

Lemma rebind_assign (y : string) (w : value) (s : state) :
  x <> y ->
  set_globals (<[y := w]> (globals (rebind x v s))) (rebind x v s) =
  rebind x v (set_globals (<[y := w]> (globals s)) s).
Proof. intros Hne. unfold rebind, set_globals. simpl. by rewrite insert_insert_ne. Qed.

Lemma rebind_lookup (y : string) (s : state) :
  x <> y -> globals (rebind x v s) !! y = globals s !! y.
Proof. intros Hne. unfold rebind. simpl. by rewrite lookup_insert_ne. Qed.

Lemma run_strategy_rebind (objective : kwargs -> state -> result * state) :
  (forall point s, objective point (rebind x v s) =
                   (fst (objective point s), rebind x v (snd (objective point s)))) ->
  forall t s, run_strategy objective t (rebind x v s) =
              (fst (run_strategy objective t s), rebind x v (snd (run_strategy objective t s))).
Proof.
  intros Hobj t. induction t as [r h|point k IH]; intros s; simpl; [done|].
  unfold as_inner.
  change (set_trace [] (rebind x v s)) with (rebind x v (set_trace [] s)).
  rewrite (Hobj point (set_trace [] s)).
  destruct (objective point (set_trace [] s)) as [r s1]. simpl.
  apply (IH r (hidden s1) (set_trace (trace s ++ map EvInner (trace s1)) s1)).
Qed.

Lemma ignores_rebind (p : prog) :
  performs (ignores x) p ->
  forall s, interp L p (rebind x v s) = (fst (interp L p s), rebind x v (snd (interp L p s))).
Proof.
  induction 1 as [w|e|y k Hok _ IH|y w k Hok _ IH|y key w k Hok _ IH|pkg k Hok _ IH
                 |fn args kw k Hok _ IH|self meth args kw k Hok _ IH
                 |self kw f k Hok _ IHf _ IH|vs k Hok _ IH|cmd k Hok _ IH|a k Hok _ IH];
    intros s; cbn [interp]; auto.
  - apply ignores_ne in Hok. rewrite rebind_lookup by done.
    destruct (globals s !! y); [apply IH | done].
  - apply ignores_ne in Hok. rewrite rebind_assign by done. apply IH.
  - apply ignores_ne in Hok. rewrite rebind_lookup by done.
    destruct (globals s !! y) as [[]|]; try done.
    rewrite rebind_assign by done.
    apply (IH (log (EvSetItem y key w)
                 (set_globals (<[y := VDict (dict_set key w kvs)]> (globals s)) s))).
  - change (installed (rebind x v s)) with (installed s).
    destruct (importable pkg (installed s)); [|done]. apply (IH (log _ s)).
  - change (hidden (rebind x v s)) with (hidden s).
    destruct (call_fn L fn args kw (hidden s)) as [[e|r] h]; [done|].
    apply (IH r (log _ (set_hidden h s))).
  - destruct self; try done. change (hidden (rebind x v s)) with (hidden s).
    destruct (call_method L meth _ args kw (hidden s)) as [[e|[o r]] h]; [done|].
    apply (IH o r (log _ (set_hidden h s))).
  - destruct self; try done. change (hidden (rebind x v s)) with (hidden s).
    rewrite (run_strategy_rebind (fun point => interp L (f point)) IHf).
    destruct (run_strategy _ _ s) as [[e|r] s1]; [done|].
    cbn [fst snd]. apply (IH r (log _ s1)).
  - apply (IH (set_stdout _ s)).
  - change (hidden (rebind x v s)) with (hidden s).
    change (installed (rebind x v s)) with (installed s).
    destruct (shell L cmd (installed s) (hidden s)) as [i h].
    apply (IH (log _ (set_hidden h (set_installed i s)))).
  - apply (IH (log _ (set_warn_filters _ s))).
Qed.
End Ignores.

Lemma search_cells_ignore (x : string) :
  x = "X_test" \/ x = "y_test" -> Forall (performs (ignores x)) search_cells.
Proof. intros [->| ->]; unfold search_cells; each_cell; performs_cell. Qed.

(** X16: the test part of cell 2's split is never used.  Whatever
    [X_test] or [y_test] is bound to, each of cells 3, 5, 7 and 8 has the
    same outcome, the same interactions with the libraries and the same
    output, and leaves the binding as it found it: what the two searches
    report does not depend on the held-out data. *)
Theorem test_part_is_unused (L : Library) (c : prog) (x : string) (v : value) (s : state) :
  In c search_cells -> x = "X_test" \/ x = "y_test" ->
  interp L c (rebind x v s) = (fst (interp L c s), rebind x v (snd (interp L c s))).
Proof.
  intros Hc Hx. apply ignores_rebind.
  by apply (proj1 (List.Forall_forall _ _) (search_cells_ignore x Hx)).
Qed.

Lemma test_part_is_unused_witness :
  interp Sample.lib cell_grid_search
    (rebind "X_test" VNone (snd (interp Sample.lib cell_load_data Sample.fresh))) =
  (fst (interp Sample.lib cell_grid_search
          (snd (interp Sample.lib cell_load_data Sample.fresh))),
   rebind "X_test" VNone
     (snd (interp Sample.lib cell_grid_search
             (snd (interp Sample.lib cell_load_data Sample.fresh))))).
Proof.
  apply (test_part_is_unused Sample.lib cell_grid_search "X_test" VNone).
  - left. reflexivity.
  - left. reflexivity.
Defined.

Lemma leaves_lookup (L : Library) (x : string) (p : prog) (s : state) :
  performs (leaves x) p -> globals (snd (interp L p s)) !! x = globals s !! x.
Proof.
  intros Hp. apply (performs_frame (fun s0 => globals s0 !! x) (leaves x) L); try done.
  - intros y w s0 Hok. simpl. apply lookup_insert_ne. intros ->.
    simpl in Hok. by rewrite String.eqb_refl in Hok.
  - intros y key w s0 Hok. simpl. apply lookup_insert_ne. intros ->.
    simpl in Hok. by rewrite String.eqb_refl in Hok.
Qed.

Lemma cells_after_grid_search_leave (x : string) :
  x = "param_grid" \/ x = "clf" -> Forall (performs (leaves x)) cells_after_grid_search.
Proof. intros [->| ->]; unfold cells_after_grid_search; each_cell; performs_cell. Qed.

Lemma cells_after_random_search_leave :
  Forall (performs (leaves "param_dist")) cells_after_random_search.
Proof. unfold cells_after_random_search; each_cell; performs_cell. Qed.

Lemma spaces_left_alone (L : Library) (s : state) :
  (forall c, In c cells_after_grid_search ->
     globals (snd (interp L c s)) !! "param_grid" = globals s !! "param_grid" /\
     globals (snd (interp L c s)) !! "clf" = globals s !! "clf") /\
  (forall c, In c cells_after_random_search ->
     globals (snd (interp L c s)) !! "param_dist" = globals s !! "param_dist").
Proof.
  split.
  - intros c Hc. split; apply leaves_lookup.
    + by apply (proj1 (List.Forall_forall _ _)
                  (cells_after_grid_search_leave "param_grid" (or_introl eq_refl))).
    + by apply (proj1 (List.Forall_forall _ _)
                  (cells_after_grid_search_leave "clf" (or_intror eq_refl))).
  - intros c Hc. apply leaves_lookup.
    by apply (proj1 (List.Forall_forall _ _) cells_after_random_search_leave).
Qed.

(** X17: the search spaces and the classifier are bound once.  No cell
    after cell 3 rebinds [param_grid] or [clf] or assigns to an item of
    them, and no cell after cell 7 does so to [param_dist], whatever the
    libraries answer. *)
Theorem search_spaces_are_bound_once (L : Library) (s : state) :
  (forall c, In c cells_after_grid_search ->
     globals (snd (interp L c s)) !! "param_grid" = globals s !! "param_grid" /\
     globals (snd (interp L c s)) !! "clf" = globals s !! "clf") /\
  (forall c, In c cells_after_random_search ->
     globals (snd (interp L c s)) !! "param_dist" = globals s !! "param_dist").
Proof. apply spaces_left_alone. Qed.

(** ** The objective function and its bounds *)

Lemma dict_get_In (key : string) (kvs : kwargs) (v : value) :
  dict_get key kvs = Some v -> In key (map fst kvs).
Proof.
  induction kvs as [|[k w] kvs IH]; simpl; [done|].
  destruct (String.eqb_spec k key) as [->|Hne]; [by left | right; auto].
Qed.

Lemma In_dict_get (key : string) (kvs : kwargs) :
  In key (map fst kvs) -> is_Some (dict_get key kvs).
Proof.
  induction kvs as [|[k w] kvs IH]; simpl; [done|].
  destruct (String.eqb_spec k key) as [->|Hne]; [eauto|].
  intros [Heq|Hin]; [done | auto].
Qed.

(** X18: the bounds dictionary fits the signature of [xgb_evaluate].  A
    call [xgb_evaluate( **point )] binds the four parameters exactly when
    the keys of [point] are the four keys of the bounds dictionary of cell
    12, in any order; with a key missing or a key too many it raises
    [TypeError] before anything else happens. *)
Theorem bounds_fit_the_objective (point : kwargs) :
  (Permutation (map fst point) pbounds_keys ->
   exists max_depth gamma colsample_bytree learning_rate,
     dict_get "max_depth" point = Some max_depth /\
     dict_get "gamma" point = Some gamma /\
     dict_get "colsample_bytree" point = Some colsample_bytree /\
     dict_get "learning_rate" point = Some learning_rate /\
     apply_xgb_evaluate point = xgb_evaluate max_depth gamma colsample_bytree learning_rate) /\
  (~ Permutation (map fst point) pbounds_keys ->
   exists msg, apply_xgb_evaluate point = Raise (TypeError msg)).
Proof.
  unfold apply_xgb_evaluate. split.
  - intros Hperm.
    assert (forall k, In k pbounds_keys -> is_Some (dict_get k point)) as Hget.
    { intros k Hk. apply In_dict_get. by apply (Permutation_in k (Permutation_sym Hperm)). }
    destruct (Hget "max_depth") as [md ->]; [simpl; tauto|].
    destruct (Hget "gamma") as [g ->]; [simpl; tauto|].
    destruct (Hget "colsample_bytree") as [c ->]; [simpl; tauto|].
    destruct (Hget "learning_rate") as [lr ->]; [simpl; tauto|].
    apply Permutation_length in Hperm. rewrite length_map in Hperm. rewrite Hperm.
    exists md, g, c, lr. by repeat split.
  - intros Hperm.
    destruct (dict_get "max_depth" point) as [md|] eqn:E1; [|eauto].
    destruct (dict_get "gamma" point) as [g|] eqn:E2; [|eauto].
    destruct (dict_get "colsample_bytree" point) as [c|] eqn:E3; [|eauto].
    destruct (dict_get "learning_rate" point) as [lr|] eqn:E4; [|eauto].
    destruct (length point =? 4)%nat eqn:Elen; [|eauto].
    destruct Hperm. apply Permutation_sym, NoDup_Permutation_bis.
    + unfold pbounds_keys. simpl. repeat constructor; simpl; intuition discriminate.
    + apply Nat.eqb_eq in Elen. rewrite length_map, Elen. simpl. lia.
    + intros k Hk. simpl in Hk.
      destruct Hk as [<-|[<-|[<-|[<-|[]]]]]; eapply dict_get_In; eassumption.
Qed.

(** ** The split *)

Ltac split_outcome H :=
  unfold all_or_nothing;
  match goal with
  | |- context [interp ?L0 ?c ?s0] =>
      destruct (interp L0 c s0) as [r s'] eqn:H;
      destruct s0 as [g i w o t h];
      rewrite <- (overlay_nil g) in H; exec H
  end;
  cbn [fst snd]; unfold split_bindings, split_names; cbn [map globals];
  rewrite ?lookup_overlay.

Lemma load_data_all_or_nothing (L : Library) (s : state) :
  all_or_nothing L cell_load_data s.
Proof.
  split_outcome H.
  all: try reflexivity.
  do 8 eexists. split; [|split; [eassumption | reflexivity]].
  events_norm. repeat (first [left; reflexivity | right]).
Qed.

Lemma bayes_data_all_or_nothing (L : Library) (s : state) :
  all_or_nothing L cell_bayes_data s.
Proof.
  split_outcome H.
  all: try reflexivity.
  do 8 eexists. split; [|split; [eassumption | reflexivity]].
  events_norm. repeat (first [left; reflexivity | right]).
Qed.

Lemma search_leaves_split (x : string) :
  In x split_names ->
  performs (leaves x) (cell_bayes_optimise ;; cell_bayes_results).
Proof.
  intros [<-|[<-|[<-|[<-|[]]]]];
    unfold cell_bayes_optimise, cell_bayes_results; performs_cell.
Qed.

(** X19: the four parts of a split are bound together or not at all.  A
    run of cell 2, or of the data section of cell 12, either completes
    with [X_train], [X_test], [y_train] and [y_test] bound to the four
    items of what its [train_test_split] call returned, or fails, on
    whatever statement, and leaves all four names as they were.  So a run
    of the whole of cell 12 either fails with the four names as they
    were, or has them bound to the four items of its own split, whether
    the optimisation after the split then completes or fails. *)
Theorem split_binds_all_or_nothing (L : Library) (s : state) :
  all_or_nothing L cell_load_data s /\ all_or_nothing L cell_bayes_data s /\
  split_first L cell_bayes_opt s.
Proof.
  split; [apply load_data_all_or_nothing|]. split; [apply bayes_data_all_or_nothing|].
  pose proof (bayes_data_all_or_nothing L s) as Hdata.
  pose proof (interp_propagates L cell_bayes_data s) as (evs1 & Hevs1 & _).
  unfold all_or_nothing in Hdata. unfold split_first, cell_bayes_opt. rewrite interp_bind.
  rewrite (new_events_spec s _ evs1 Hevs1) in Hdata.
  destruct (interp L cell_bayes_data s) as [[e|v] s1]; cbn [fst snd] in *.
  - left. by exists e.
  - right. destruct Hdata as (X & y & kw & parts & a & b & c & d & Hin & Hitems & Hb).
    exists X, y, kw, parts, a, b, c, d.
    pose proof (interp_propagates L (cell_bayes_optimise;; cell_bayes_results) s1)
      as (evs & Hevs & _).
    split; [|split; [done|]].
    + rewrite (new_events_spec s _ (evs1 ++ evs)).
      * apply in_or_app. by left.
      * by rewrite Hevs, Hevs1, app_assoc.
    + rewrite <- Hb. unfold split_bindings, split_names. cbn [map].
      rewrite !(leaves_lookup L _ _ s1) by (apply search_leaves_split; simpl; tauto).
      reflexivity.
Qed.

(** X20: the results section changes [max_depth] and nothing else.  Where
    the optimiser's best point has a float [max_depth], the mapping bound
    to [params] and printed has the keys of the best point in their
    order, the truncated [max_depth], and every other entry as the
    optimiser found it. *)
Theorem results_change_max_depth_only (L : Library) (s : state) (cls : string)
    (attrs best kvs : kwargs) (d : Q) :
  globals s !! "xgb_bo" = Some (VObj cls attrs) ->
  dict_get "max" attrs = Some (VDict best) ->
  dict_get "params" best = Some (VDict kvs) ->
  dict_get "max_depth" kvs = Some (VFloat (FNum d)) ->
  exists params,
    globals (snd (interp L cell_bayes_results s)) !! "params" = Some (VDict params) /\
    printed s (interp L cell_bayes_results s) = [[VStr "Optimized parameters:"; VDict params]] /\
    map fst params = map fst kvs /\
    dict_get "max_depth" params = Some (VInt (trunc d)) /\
    forall key, key <> "max_depth" -> dict_get key params = dict_get key kvs.
Proof.
  intros Hbo Hmax Hparams Hdepth.
  destruct (cell_bayes_results_reports L s cls attrs best kvs d Hbo Hmax Hparams Hdepth)
    as (s' & -> & Hp & Hout).
  exists (dict_set "max_depth" (VInt (trunc d)) kvs). cbn [snd].
  split; [exact Hp|]. split; [by apply printed_spec|].
  apply dict_set_spec. by rewrite Hdepth.
Qed.

Lemma results_change_max_depth_only_witness :
  exists params,
    globals (snd (interp Sample.lib cell_bayes_results Sample.searching)) !! "params" =
      Some (VDict params) /\
    printed Sample.searching (interp Sample.lib cell_bayes_results Sample.searching) =
      [[VStr "Optimized parameters:"; VDict params]] /\
    map fst params = map fst Sample.point2 /\
    dict_get "max_depth" params = Some (VInt (trunc (4637 # 1000))) /\
    forall key, key <> "max_depth" -> dict_get key params = dict_get key Sample.point2.
Proof.
  exact (results_change_max_depth_only Sample.lib Sample.searching "BayesianOptimization"
           _ _ Sample.point2 (4637 # 1000) eq_refl eq_refl eq_refl eq_refl).
Defined.

(** * The statements of the specification *)

(** ** Independence of the cells *)

Lemma load_data_calls (L : Library) (s s' : state) (r : value) :
  interp L cell_load_data s = (inr r, s') ->
  exists wine data names target X parts,
    attribute wine "data" = Some data /\
    attribute wine "feature_names" = Some names /\
    attribute wine "target" = Some target /\
    filter is_call (new_events s (inr r, s')) =
      [EvCall "sklearn.datasets.load_wine" [] [] (inr wine);
       EvCall "pandas.DataFrame" [data] [("columns", names)] (inr X);
       EvCall "sklearn.model_selection.train_test_split" [X; target]
         [("test_size", lit 2 10); ("random_state", VInt 42)] (inr parts)].
Proof.
  intros H. exec_init s H. run H.
  do 6 eexists. repeat split; try eassumption.
  state_cbn_goal. events_norm. reflexivity.
Qed.

(** The statement of C2 fails: cell 3 on its own raises [NameError], and
    completes after cell 2; and cell 2 makes three library calls. *)
Lemma cells_are_not_independent :
  fst (interp Sample.lib cell_grid_search Sample.fresh) = inl (NameError "xgb") /\
  fst (interp Sample.lib cell_grid_search
         (snd (interp Sample.lib cell_load_data Sample.fresh))) = inr VNone /\
  length (filter is_call
            (new_events Sample.fresh (interp Sample.lib cell_load_data Sample.fresh))) = 3%nat.
Proof. vm_compute. repeat split. Qed.

(** C2, as the code has it: the cells are not independent.  Cells 2,
    10, 11 and 12 are self-contained: they read no global name they have
    not bound themselves, so on top of any namespace that shadows none of
    the built-ins they use, each has the outcome it has without it.
    Cells 3, 5, 7 and 8 use what earlier cells bound: where [xgb],
    [grid_search], [np] and [rand_search] are unbound, as in a fresh
    interpreter, each raises [NameError] for the first of them it reads,
    before any library call.  And a cell makes as many library calls as
    its statements say: cell 2, when it completes, makes three,
    [load_wine()], [pd.DataFrame(wine.data, columns=wine.feature_names)]
    and [train_test_split(X, y, test_size=0.2, random_state=42)]. *)
Theorem cells_depend_on_earlier_cells (L : Library) (s : state) :
  importable "sklearn" (installed s) = true ->
  globals s !! "xgb" = None -> globals s !! "grid_search" = None ->
  globals s !! "np" = None -> globals s !! "rand_search" = None ->
  ((fst (interp L cell_grid_search s) = inl (NameError "xgb") /\
    new_events s (interp L cell_grid_search s) = [EvImport "sklearn" true]) /\
   (fst (interp L cell_best_model s) = inl (NameError "grid_search") /\
    new_events s (interp L cell_best_model s) = []) /\
   (fst (interp L cell_random_search s) = inl (NameError "np") /\
    new_events s (interp L cell_random_search s) = [EvImport "sklearn" true]) /\
   (fst (interp L cell_show_score s) = inl (NameError "rand_search") /\
    new_events s (interp L cell_show_score s) = [])) /\
  (forall c g s0, In c standalone_cells -> shadows_no_builtin g ->
     interp L c (over g s0) = (fst (interp L c s0), over g (snd (interp L c s0)))) /\
  (forall r s', interp L cell_load_data s = (inr r, s') ->
     exists wine data names target X parts,
       attribute wine "data" = Some data /\
       attribute wine "feature_names" = Some names /\
       attribute wine "target" = Some target /\
       filter is_call (new_events s (inr r, s')) =
         [EvCall "sklearn.datasets.load_wine" [] [] (inr wine);
          EvCall "pandas.DataFrame" [data] [("columns", names)] (inr X);
          EvCall "sklearn.model_selection.train_test_split" [X; target]
            [("test_size", lit 2 10); ("random_state", VInt 42)] (inr parts)]).
Proof.
  intros Hsk Hxgb Hgs Hnp Hrs. split; [by apply unbound_names_raise|]. split.
  - intros c g s0 Hc _. by apply standalone_lift.
  - intros r s'. apply load_data_calls.
Qed.

Lemma cells_depend_on_earlier_cells_witness :
  ((fst (interp Sample.lib cell_grid_search Sample.fresh) = inl (NameError "xgb") /\
    new_events Sample.fresh (interp Sample.lib cell_grid_search Sample.fresh) =
      [EvImport "sklearn" true]) /\
   (fst (interp Sample.lib cell_best_model Sample.fresh) = inl (NameError "grid_search") /\
    new_events Sample.fresh (interp Sample.lib cell_best_model Sample.fresh) = []) /\
   (fst (interp Sample.lib cell_random_search Sample.fresh) = inl (NameError "np") /\
    new_events Sample.fresh (interp Sample.lib cell_random_search Sample.fresh) =
      [EvImport "sklearn" true]) /\
   (fst (interp Sample.lib cell_show_score Sample.fresh) = inl (NameError "rand_search") /\
    new_events Sample.fresh (interp Sample.lib cell_show_score Sample.fresh) = [])) /\
  interp Sample.lib cell_bayes_opt (over (globals Sample.searching) Sample.fresh) =
    (fst (interp Sample.lib cell_bayes_opt Sample.fresh),
     over (globals Sample.searching) (snd (interp Sample.lib cell_bayes_opt Sample.fresh))) /\
  exists wine data names target X parts,
    attribute wine "data" = Some data /\
    attribute wine "feature_names" = Some names /\
    attribute wine "target" = Some target /\
    filter is_call
      (new_events Sample.fresh
         (inr VNone, snd (interp Sample.lib cell_load_data Sample.fresh))) =
      [EvCall "sklearn.datasets.load_wine" [] [] (inr wine);
       EvCall "pandas.DataFrame" [data] [("columns", names)] (inr X);
       EvCall "sklearn.model_selection.train_test_split" [X; target]
         [("test_size", lit 2 10); ("random_state", VInt 42)] (inr parts)].
Proof.
  destruct (cells_depend_on_earlier_cells Sample.lib Sample.fresh
              eq_refl eq_refl eq_refl eq_refl eq_refl) as (Herr & Hlift & Hcalls).
  split; [exact Herr|]. split.
  - apply Hlift.
    + do 3 right. left. reflexivity.
    + repeat constructor.
  - apply Hcalls. vm_compute. reflexivity.
Defined.

(** ** The life of the entities *)

Lemma filter_items_inner (X_train y_train X_test y_test : value) (inner : list event) :
  Forall (objective_event X_train y_train X_test y_test) inner ->
  filter assigns_item (map EvInner inner) = [].
Proof.
  induction 1 as [|ev inner Hev _ IH]; [done|].
  cbn [map]. rewrite filter_cons, IH.
  by destruct Hev as [(? & ? & ->)|[(? & ? & ->)|[(? & ? & ->)|[(? & ? & ->)|(? & ? & ->)]]]].
Qed.

Lemma loaded_twice_assigned_once (L : Library) (s s' : state) (r : value) :
  run_notebook L s = (inr r, s') ->
  (exists wine wine',
     filter loads_wine (new_events s (inr r, s')) =
       [EvCall "sklearn.datasets.load_wine" [] [] (inr wine);
        EvCall "sklearn.datasets.load_wine" [] [("as_frame", VBool true)] (inr wine')]) /\
  (exists depth,
     filter assigns_item (new_events s (inr r, s')) =
       [EvSetItem "params" "max_depth" depth]) /\
  globals s' !! "param_grid" = Some param_grid.
Proof.
  intros H. apply notebook_completes in H as (a & inner & -> & Hc & Hinner & _ & Hb & _).
  assert (filter loads_wine (Run.conversion a) = [] /\
          filter assigns_item (Run.conversion a) = []) as [Hconv1 Hconv2].
  { destruct Hc as (_ & _ & _ & _ & _ & _ & _ & _ & _ & _ & _ & _ & _ & _ & _ & Hconv).
    by destruct Hconv as [(n & _ & _ & ->)|(_ & ->)]. }
  split; [|split].
  - exists (Run.wine a), (Run.wine' a).
    unfold Run.log, Run.bayes_results_log.
    change (Run.bayes_optimise_log a inner)
      with ([EvCall "bayes_opt.BayesianOptimization"
               [VFunc "__main__.xgb_evaluate"; pbounds] [] (inr (Run.xgb_bo a))] ++
            map EvInner inner ++
            [EvMethod "maximize" (Run.xgb_bo a) []
               [("init_points", VInt 5); ("n_iter", VInt 10)] (inr (Run.optimised a))]).
    rewrite !filter_app, Hconv1, (filter_loads_inner _ _ _ _ inner Hinner). reflexivity.
  - exists (Run.depth a).
    unfold Run.log, Run.bayes_results_log.
    change (Run.bayes_optimise_log a inner)
      with ([EvCall "bayes_opt.BayesianOptimization"
               [VFunc "__main__.xgb_evaluate"; pbounds] [] (inr (Run.xgb_bo a))] ++
            map EvInner inner ++
            [EvMethod "maximize" (Run.xgb_bo a) []
               [("init_points", VInt 5); ("n_iter", VInt 10)] (inr (Run.optimised a))]).
    rewrite !filter_app, Hconv2, (filter_items_inner _ _ _ _ inner Hinner). reflexivity.
  - apply (proj1 (List.Forall_forall _ _) Hb ("param_grid", param_grid)).
    unfold Run.bindings. simpl. tauto.
Qed.

(** The statement of C3 fails: a run of the notebook loads the data set
    twice, and assigns to an item of the best parameters after it got
    them. *)
Lemma entities_are_reloaded_and_mutated :
  fst (run_notebook Sample.lib Sample.fresh) = inr VNone /\
  length (filter loads_wine (new_events Sample.fresh (run_notebook Sample.lib Sample.fresh))) =
    2%nat /\
  filter assigns_item (new_events Sample.fresh (run_notebook Sample.lib Sample.fresh)) =
    [EvSetItem "params" "max_depth" (VInt 4)].
Proof. vm_compute. repeat split. Qed.

(** C3, as the code has it.  In a complete run the wine data set is
    loaded twice, by the [load_wine()] of cell 2 and again by the
    [load_wine(as_frame=True)] of cell 12, and by no call of the
    objective function; the mapping of best parameters that the optimiser
    returned is changed after it was got, by the one item assignment of
    the notebook, [params['max_depth'] = ...]; the search spaces and the
    classifier are bound once: [param_grid] is still the literal of cell 3
    at the end, and whatever the libraries answer no statement of a cell
    after cell 3 rebinds [param_grid] or [clf] or assigns to an item of
    them, nor one after cell 7 to [param_dist]. *)
Theorem entities_lifecycle (L : Library) (s s' : state) (r : value) :
  run_notebook L s = (inr r, s') ->
  (exists wine wine',
     filter loads_wine (new_events s (inr r, s')) =
       [EvCall "sklearn.datasets.load_wine" [] [] (inr wine);
        EvCall "sklearn.datasets.load_wine" [] [("as_frame", VBool true)] (inr wine')]) /\
  (exists depth,
     filter assigns_item (new_events s (inr r, s')) =
       [EvSetItem "params" "max_depth" depth]) /\
  globals s' !! "param_grid" = Some param_grid /\
  (forall c s0, In c cells_after_grid_search ->
     globals (snd (interp L c s0)) !! "param_grid" = globals s0 !! "param_grid" /\
     globals (snd (interp L c s0)) !! "clf" = globals s0 !! "clf") /\
  (forall c s0, In c cells_after_random_search ->
     globals (snd (interp L c s0)) !! "param_dist" = globals s0 !! "param_dist").
Proof.
  intros H. destruct (loaded_twice_assigned_once L s s' r H) as (H1 & H2 & H3).
  split; [exact H1|]. split; [exact H2|]. split; [exact H3|]. split.
  - intros c s0. apply (proj1 (spaces_left_alone L s0)).
  - intros c s0. apply (proj2 (spaces_left_alone L s0)).
Qed.

Lemma entities_lifecycle_witness :
  (exists wine wine',
     filter loads_wine
       (new_events Sample.fresh (inr VNone, snd (run_notebook Sample.lib Sample.fresh))) =
       [EvCall "sklearn.datasets.load_wine" [] [] (inr wine);
        EvCall "sklearn.datasets.load_wine" [] [("as_frame", VBool true)] (inr wine')]) /\
  (exists depth,
     filter assigns_item
       (new_events Sample.fresh (inr VNone, snd (run_notebook Sample.lib Sample.fresh))) =
       [EvSetItem "params" "max_depth" depth]) /\
  globals (snd (run_notebook Sample.lib Sample.fresh)) !! "param_grid" = Some param_grid /\
  (forall c s0, In c cells_after_grid_search ->
     globals (snd (interp Sample.lib c s0)) !! "param_grid" = globals s0 !! "param_grid" /\
     globals (snd (interp Sample.lib c s0)) !! "clf" = globals s0 !! "clf") /\
  (forall c s0, In c cells_after_random_search ->
     globals (snd (interp Sample.lib c s0)) !! "param_dist" = globals s0 !! "param_dist").
Proof.
  apply (entities_lifecycle Sample.lib Sample.fresh). vm_compute. reflexivity.
Defined.

(** ** Effects other than printing *)



(** ** Where the algorithms are *)

Lemma objective_returns_library_score (L : Library) (s s' : state)
    (max_depth gamma colsample_bytree learning_rate X_train y_train X_test y_test v : value) :
  objective_names (globals s) X_train y_train X_test y_test ->
  interp L (xgb_evaluate max_depth gamma colsample_bytree learning_rate) s = (inr v, s') ->
  exists predictions,
    last (new_events s (inr v, s')) =
      Some (EvCall "sklearn.metrics.accuracy_score" [y_test; predictions] [] (inr v)).
Proof.
  intros (HX & Ha & H1 & H2 & H3 & H4) H. destruct s as [g i w o t h].
  cbn [globals] in *. run H.
  all: eexists; events_norm; reflexivity.
Qed.

Lemma objective_event_delegated (X_train y_train X_test y_test : value) (inner : list event) :
  Forall (objective_event X_train y_train X_test y_test) inner ->
  Forall (fun ev => delegated ev = true) (map EvInner inner).
Proof.
  induction 1 as [|ev inner Hev _ IH]; cbn [map]; constructor; [|exact IH].
  by destruct Hev as [(? & ? & ->)|[(? & ? & ->)|[(? & ? & ->)|[(? & ? & ->)|(? & ? & ->)]]]].
Qed.

Lemma conversion_cases (a : Run.answers) :
  Run.consistent a ->
  Run.conversion a = [] \/
  Run.conversion a = [EvCall "builtins.int" [Run.max_depth a] [] (inr (Run.depth a))].
Proof.
  intros Hc.
  destruct Hc as (_ & _ & _ & _ & _ & _ & _ & _ & _ & _ & _ & _ & _ & _ & _ & Hconv).
  destruct Hconv as [(n & _ & _ & ->)|(_ & ->)]; auto.
Qed.

Lemma log_delegated (a : Run.answers) (inner : list event) :
  Run.consistent a ->
  Forall (objective_event (Run.X_train' a) (Run.y_train' a) (Run.X_test' a) (Run.y_test' a))
    inner ->
  Forall (fun ev => delegated ev = true) (Run.log a inner).
Proof.
  intros Hc Hinner. apply objective_event_delegated in Hinner.
  unfold Run.log, Run.bayes_results_log.
  change (Run.bayes_optimise_log a inner)
    with ([EvCall "bayes_opt.BayesianOptimization"
             [VFunc "__main__.xgb_evaluate"; pbounds] [] (inr (Run.xgb_bo a))] ++
          map EvInner inner ++
          [EvMethod "maximize" (Run.xgb_bo a) []
             [("init_points", VInt 5); ("n_iter", VInt 10)] (inr (Run.optimised a))]).
  repeat apply Forall_app_2; try exact Hinner.
  all: try (repeat match goal with |- Forall _ _ => constructor end; reflexivity).
  destruct (conversion_cases a Hc) as [-> | ->];
    repeat match goal with |- Forall _ _ => constructor end; reflexivity.
Qed.

Lemma log_own (a : Run.answers) (inner : list event) :
  Run.consistent a -> (length (filter own (Run.log a inner)) <= 35)%nat.
Proof.
  intros Hc. unfold Run.log, Run.bayes_results_log.
  change (Run.bayes_optimise_log a inner)
    with ([EvCall "bayes_opt.BayesianOptimization"
             [VFunc "__main__.xgb_evaluate"; pbounds] [] (inr (Run.xgb_bo a))] ++
          map EvInner inner ++
          [EvMethod "maximize" (Run.xgb_bo a) []
             [("init_points", VInt 5); ("n_iter", VInt 10)] (inr (Run.optimised a))]).
  rewrite !filter_app, (filter_inner own inner) by done.
  destruct (conversion_cases a Hc) as [-> | ->]; vm_compute; lia.
Qed.

Lemma log_own_methods (a : Run.answers) (inner : list event) :
  Run.consistent a ->
  filter own_method (Run.log a inner) =
    [EvMethod "fit" (Run.grid_search a) [Run.X_train a; Run.y_train a] []
       (inr (Run.grid_fit a));
     EvMethod "fit" (Run.rand_search a) [Run.X_train a; Run.y_train a] []
       (inr (Run.rand_fit a));
     EvMethod "maximize" (Run.xgb_bo a) [] [("init_points", VInt 5); ("n_iter", VInt 10)]
       (inr (Run.optimised a))].
Proof.
  intros Hc. unfold Run.log, Run.bayes_results_log.
  change (Run.bayes_optimise_log a inner)
    with ([EvCall "bayes_opt.BayesianOptimization"
             [VFunc "__main__.xgb_evaluate"; pbounds] [] (inr (Run.xgb_bo a))] ++
          map EvInner inner ++
          [EvMethod "maximize" (Run.xgb_bo a) []
             [("init_points", VInt 5); ("n_iter", VInt 10)] (inr (Run.optimised a))]).
  rewrite !filter_app, (filter_inner own_method inner) by done.
  by destruct (conversion_cases a Hc) as [-> | ->].
Qed.

Lemma log_searches (a : Run.answers) (inner : list event) :
  In (EvCall "sklearn.model_selection.GridSearchCV" [Run.clf a; param_grid] Run.search_kw
        (inr (Run.grid_search a))) (Run.log a inner) /\
  In (EvCall "sklearn.model_selection.RandomizedSearchCV" [Run.clf a]
        (("param_distributions", Run.param_dist a) :: Run.search_kw ++ [("n_iter", VInt 50)])
        (inr (Run.rand_search a))) (Run.log a inner) /\
  In (EvCall "bayes_opt.BayesianOptimization" [VFunc "__main__.xgb_evaluate"; pbounds] []
        (inr (Run.xgb_bo a))) (Run.log a inner).
Proof.
  unfold Run.log. repeat split.
  - apply in_or_app. right. apply in_or_app. left. simpl. tauto.
  - do 3 (apply in_or_app; right). apply in_or_app. left. simpl. tauto.
  - do 6 (apply in_or_app; right). apply in_or_app. left. simpl. tauto.
Qed.

(** C6: every search, model and score is the libraries'.  In a complete
    run every call, of a cell or of the objective function, is a call of
    a function of sklearn, xgboost, bayes_opt, pandas or numpy, a
    conversion by the built-in [int], or a method call [fit], [predict]
    or [maximize].  The cells' own statements make at most 35
    interactions however many candidates the searches try, and three
    method calls in all: [fit] on what [GridSearchCV] returned, [fit] on
    what [RandomizedSearchCV] returned and [maximize] on what
    [BayesianOptimization] returned.  And what [xgb_evaluate] returns,
    whatever its arguments, is the answer of [accuracy_score] as it
    came. *)
Theorem algorithms_are_delegated (L : Library) (s s' : state) (r : value) :
  run_notebook L s = (inr r, s') ->
  Forall (fun ev => delegated ev = true) (new_events s (inr r, s')) /\
  (length (filter own (new_events s (inr r, s'))) <= 35)%nat /\
  (exists clf kw1 kw2 grid rand bo X_train y_train fit1 fit2 opt,
     In (EvCall "sklearn.model_selection.GridSearchCV" [clf; param_grid] kw1 (inr grid))
        (new_events s (inr r, s')) /\
     In (EvCall "sklearn.model_selection.RandomizedSearchCV" [clf] kw2 (inr rand))
        (new_events s (inr r, s')) /\
     In (EvCall "bayes_opt.BayesianOptimization" [VFunc "__main__.xgb_evaluate"; pbounds] []
           (inr bo))
        (new_events s (inr r, s')) /\
     filter own_method (new_events s (inr r, s')) =
       [EvMethod "fit" grid [X_train; y_train] [] (inr fit1);
        EvMethod "fit" rand [X_train; y_train] [] (inr fit2);
        EvMethod "maximize" bo [] [("init_points", VInt 5); ("n_iter", VInt 10)]
          (inr opt)]) /\
  (forall s0 s1 max_depth gamma colsample_bytree learning_rate
          X_train y_train X_test y_test v,
     objective_names (globals s0) X_train y_train X_test y_test ->
     interp L (xgb_evaluate max_depth gamma colsample_bytree learning_rate) s0 =
       (inr v, s1) ->
     exists predictions,
       last (new_events s0 (inr v, s1)) =
         Some (EvCall "sklearn.metrics.accuracy_score" [y_test; predictions] [] (inr v))).
Proof.
  intros H. apply notebook_completes in H as (a & inner & -> & Hc & Hinner & _).
  split; [by apply log_delegated|]. split; [by apply log_own|]. split.
  - destruct (log_searches a inner) as (H1 & H2 & H3).
    do 11 eexists. split; [exact H1|]. split; [exact H2|]. split; [exact H3|].
    by apply log_own_methods.
  - intros s0 s1 max_depth gamma colsample_bytree learning_rate
      X_train y_train X_test y_test v.
    apply objective_returns_library_score.
Qed.

Lemma algorithms_are_delegated_witness :
  Forall (fun ev => delegated ev = true)
    (new_events Sample.fresh (inr VNone, snd (run_notebook Sample.lib Sample.fresh))) /\
  (length (filter own
     (new_events Sample.fresh (inr VNone, snd (run_notebook Sample.lib Sample.fresh))))
   <= 35)%nat.
Proof.
  pose proof (algorithms_are_delegated Sample.lib Sample.fresh
                (snd (run_notebook Sample.lib Sample.fresh)) VNone) as H.
  destruct H as (H1 & H2 & _); [vm_compute; reflexivity|]. by split.
Defined.

(** ** What the optimiser maximises *)




(** ** The two splits *)








